(** * Objective-C representability of Swift declarations

    A shallow embedding of [lib/Sema/TypeCheckDeclObjC.cpp]: the decision
    procedure that tells whether a declaration can be exposed to
    Objective-C, the selection of the foreign error convention of a
    throwing method, the inference of the Objective-C name and the
    finalizer [markAsObjC].

    Diagnostics are modelled as a log, [llvm_unreachable] and failed
    assertions as an aborting outcome.  Source locations, highlights and
    fix-its are not modelled. *)

From Stdlib Require Import List String Bool Arith Lia.
Import ListNotations.
Open Scope string_scope.
Open Scope list_scope.

Set Implicit Arguments.
Set Warnings "-register-all".

(** ** Identifiers, selectors and language options *)

Definition Identifier := string.
Definition DeclName := string.

Record ObjCSelector : Type := mkSelector {
  getNumArgs : nat;
  getSelectorPieces : list Identifier
}.

Definition ObjCSelector_eqb (a b : ObjCSelector) : bool :=
  Nat.eqb (getNumArgs a) (getNumArgs b) &&
  (if list_eq_dec string_dec (getSelectorPieces a) (getSelectorPieces b)
   then true else false).

Inductive Swift3ObjCInferenceWarnings : Type :=
| WarnNone | WarnMinimal | WarnComplete.

Record LangOptions : Type := mkLangOptions {
  EnableSwift3ObjCInference : bool;
  WarnSwift3ObjCInference : Swift3ObjCInferenceWarnings;
  EnableObjCInterop : bool;
  EnableObjCAttrRequiresFoundation : bool;
  isSwiftVersion3 : bool
}.

(** A nominal type declaration of the standard library, as returned by
    [getObjCBoolDecl] and [getBoolDecl]. *)
Record NominalTypeDecl : Type := mkNominal {
  nominalName : Identifier
}.

(** ** Reasons *)

Module ObjCReason.

Inductive Kind : Type :=
| ExplicitlyCDecl
| ExplicitlyDynamic
| ExplicitlyObjC
| ExplicitlyIBOutlet
| ExplicitlyIBAction
| ExplicitlyNSManaged
| MemberOfObjCProtocol
| OverridesObjC
| WitnessToObjC
| ImplicitlyObjC
| ExplicitlyIBInspectable
| ExplicitlyGKInspectable
| MemberOfObjCExtension
| MemberOfObjCSubclass
| MemberOfObjCMembersClass
| Accessor.

Definition Kind_eq_dec (a b : Kind) : {a = b} + {a <> b}.
Proof. decide equality. Defined.

Definition eqb (a b : Kind) : bool :=
  if Kind_eq_dec a b then true else false.

End ObjCReason.

(** A protocol requirement that a declaration witnesses. *)
Record Requirement : Type := mkRequirement {
  reqFullName : DeclName;
  reqProtocolName : DeclName;
  reqObjCRuntimeName : ObjCSelector
}.

(** The C++ class [ObjCReason]: a kind and, for [WitnessToObjC], the
    requirement. *)
Record ObjCReason : Type := mkReason {
  reasonKind : ObjCReason.Kind;
  getObjCRequirement : option Requirement
}.

Definition reasonOf (k : ObjCReason.Kind) : ObjCReason := mkReason k None.

Definition witnessToObjC (req : Requirement) : ObjCReason :=
  mkReason ObjCReason.WitnessToObjC (Some req).

(** ** Types

    The recursive structure of [swift::Type] as far as this file inspects
    it.  A class type carries whether its declaration is [@objc]; an
    enumeration whether it has no case ([isUninhabited]); an existential
    its explicit superclass bound and its protocols.  A bound generic
    type is a class ([BoundGenericClassType]) or a structure or an
    enumeration ([BoundGenericType]). *)

Record ProtocolInfo : Type := mkProtocol {
  protocolName : Identifier;
  protocolIsObjC : bool;
  isErrorProtocol : bool   (* isSpecificProtocol(KnownProtocolKind::Error) *)
}.

Record ClassInfo : Type := mkClassInfo {
  className : Identifier;
  classIsObjC : bool
}.

Inductive Ty : Type :=
| TupleType (elements : list Ty)
| ClassType (c : ClassInfo)
| StructType (name : Identifier)
| EnumType (name : Identifier) (noCases : bool)
| OptionalType (object : Ty)
| ExistentialType (explicitSuperclass : option ClassInfo)
                  (protocols : list ProtocolInfo)
| ArchetypeType (name : Identifier)
| GenericTypeParamType (name : Identifier)
| FunctionType (input : list Ty) (result : Ty) (throws : bool)
| BoundGenericType (decl : NominalTypeDecl) (args : list Ty)
| BoundGenericClassType (c : ClassInfo) (args : list Ty)
| ErrorType.

Definition isTupleType (t : Ty) : bool :=
  match t with TupleType _ => true | _ => false end.

(** [Type::isVoid]: the empty tuple. *)
Definition isVoid (t : Ty) : bool :=
  match t with TupleType [] => true | _ => false end.

Definition getClassOrBoundGenericClass (t : Ty) : option ClassInfo :=
  match t with
  | ClassType c | BoundGenericClassType c _ => Some c
  | _ => None
  end.

Definition isStructType (t : Ty) : bool :=
  match t with StructType _ => true | _ => false end.

Definition isEnumType (t : Ty) : bool :=
  match t with EnumType _ _ => true | _ => false end.

Definition isExistentialType (t : Ty) : bool :=
  match t with ExistentialType _ _ => true | _ => false end.

(** [Type::isAny]: the empty protocol composition. *)
Definition isAny (t : Ty) : bool :=
  match t with ExistentialType None [] => true | _ => false end.

Definition isArchetypeOrTypeParameter (t : Ty) : bool :=
  match t with
  | ArchetypeType _ | GenericTypeParamType _ => true
  | _ => false
  end.

Definition isAnyFunctionType (t : Ty) : bool :=
  match t with FunctionType _ _ _ => true | _ => false end.

Definition isUninhabited (t : Ty) : bool :=
  match t with EnumType _ true => true | _ => false end.

(** [Type::getOptionalObjectType]: the wrapped type of an optional, one
    level only. *)
Definition getOptionalObjectType (t : Ty) : option Ty :=
  match t with OptionalType o => Some o | _ => None end.

(** Modelled from the spec: the spec's Type has no l-value wrapper
    (section 3 lists primitives, nominal types, existentials, optionals,
    tuples, function types and placeholders), so [Type::getRValueType],
    whose code is not in this file, returns the type itself. *)
Definition getRValueType (t : Ty) : Ty := t.

(** [Type::hasError]: an error type occurs somewhere in the type. *)
Fixpoint hasError (t : Ty) : bool :=
  match t with
  | TupleType ts => existsb hasError ts
  | OptionalType o => hasError o
  | FunctionType i r _ => existsb hasError i || hasError r
  | BoundGenericType _ args => existsb hasError args
  | BoundGenericClassType _ args => existsb hasError args
  | ErrorType => true
  | _ => false
  end.

(** ** Foreign representability *)

Inductive ForeignRepresentableKind : Type :=
| FRK_None
| FRK_Trivial
| FRK_Object
| FRK_Bridged
| FRK_BridgedError
| FRK_StaticBridged.

(** ** Foreign error conventions *)

(** Modelled from the spec: the class [ForeignErrorConvention] is declared
    in a header that is not part of this file; section 3 gives its five
    kinds and what each carries (the index of the error parameter, the
    ownership flag, the replaced-with-Void flag, the type of the error
    parameter and, for the result kinds, the type of the result). *)
Module ForeignErrorConvention.

Inductive Kind : Type :=
| ZeroResult
| NonZeroResult
| ZeroPreservedResult
| NilResult
| NonNilError.

Inductive IsOwned_t : Type := IsNotOwned | IsOwned.
Inductive IsReplaced_t : Type := IsNotReplaced | IsReplaced.

Record t : Type := mk {
  getKind : Kind;
  getErrorParameterIndex : nat;
  isErrorOwned : IsOwned_t;
  isErrorParameterReplacedWithVoid : IsReplaced_t;
  getErrorParameterType : option Ty;
  getResultType : option Ty
}.

Definition getZeroResult (idx : nat) (o : IsOwned_t) (r : IsReplaced_t)
    (paramTy : option Ty) (resultTy : option Ty) : t :=
  mk ZeroResult idx o r paramTy resultTy.

Definition getNonZeroResult (idx : nat) (o : IsOwned_t) (r : IsReplaced_t)
    (paramTy : option Ty) (resultTy : option Ty) : t :=
  mk NonZeroResult idx o r paramTy resultTy.

Definition getZeroPreservedResult (idx : nat) (o : IsOwned_t)
    (r : IsReplaced_t) (paramTy : option Ty) : t :=
  mk ZeroPreservedResult idx o r paramTy None.

Definition getNilResult (idx : nat) (o : IsOwned_t) (r : IsReplaced_t)
    (paramTy : option Ty) : t :=
  mk NilResult idx o r paramTy None.

Definition getNonNilError (idx : nat) (o : IsOwned_t) (r : IsReplaced_t)
    (paramTy : option Ty) : t :=
  mk NonNilError idx o r paramTy None.

Definition replaced (r : IsReplaced_t) : bool :=
  match r with IsReplaced => true | IsNotReplaced => false end.

End ForeignErrorConvention.

Module FEC := ForeignErrorConvention.

(** ** Diagnostics

    One constructor per diagnostic of [diag::] this file emits, with the
    operands that are not source locations. *)

Inductive Diag : Type :=
| objc_inferring_on_objc_protocol_member
| objc_overriding_objc_decl (kind : nat) (overridden : DeclName)
| objc_witness_objc_requirement (req proto : DeclName)
| not_objc_empty_tuple
| not_objc_tuple
| not_objc_swift_class
| not_objc_swift_struct
| not_objc_swift_enum
| not_objc_empty_protocol_composition
| not_objc_class_constraint (superclass : ClassInfo)
| not_objc_protocol (p : ProtocolInfo)
| not_objc_error_protocol_composition
| not_objc_generic_type_param
| not_objc_function_type_throwing
| not_objc_function_type_param
| objc_invalid_on_func_single_param_type (attrKind : nat)
| objc_invalid_on_func_param_type (position : nat) (attrKind : nat)
| objc_invalid_on_func_variadic (attrKind : nat)
| objc_invalid_on_func_inout (attrKind : nat)
| objc_invalid_with_generic_params (attrKind : nat)
| objc_invalid_on_foreign_class (attrKind : nat)
| objc_in_objc_runtime_visible (attrKind : nat) (cls : Identifier)
| objc_in_extension_context
| objc_in_generic_extension
| objc_operator_proto
| objc_operator
| objc_getter_for_nonobjc_property
| objc_getter_for_nonobjc_subscript
| objc_setter_for_nonobjc_property
| objc_setter_for_nonobjc_subscript
| objc_observing_accessor
| objc_addressor
| objc_invalid_on_func_result_type (attrKind : nat)
| objc_invalid_on_failing_init (attrKind : nat)
| broken_bool
| objc_invalid_on_throwing_optional_result (attrKind : nat) (resultType : Ty)
| objc_invalid_on_throwing_result (attrKind : nat) (resultType : Ty)
| objc_override_method_selector_mismatch (written expected : ObjCSelector)
| objc_override_property_name_mismatch (written expected : Identifier)
| overridden_here
| objc_ambiguous_inference (decl : DeclName) (first second : ObjCSelector)
| objc_ambiguous_inference_candidate (req proto : DeclName)
                                     (name : ObjCSelector)
| req_near_match_nonobjc
| nonobjc_not_allowed (attrKind : nat)
| objc_class_method_not_permitted (sel : ObjCSelector)
| objc_class_method_not_permitted_swift3_compat_warning (sel : ObjCSelector)
| objc_inference_swift3_objc_derived
| objc_inference_swift3_addobjc
| objc_inference_swift3_addnonobjc.

(** ** Outcomes

    A call either aborts the process ([llvm_unreachable], a failed
    [assert]) or returns a value together with the diagnostics it
    emitted, in order. *)

Inductive Outcome (A : Type) : Type :=
| Abort (msg : string)
| Done (a : A) (diags : list Diag).

Arguments Abort {A} msg.
Arguments Done {A} a diags.

Definition ret {A} (a : A) : Outcome A := Done a [].

Definition bind {A B} (c : Outcome A) (k : A -> Outcome B) : Outcome B :=
  match c with
  | Abort m => Abort m
  | Done a ds =>
      match k a with
      | Abort m => Abort m
      | Done b ds' => Done b (ds ++ ds')
      end
  end.

Definition diagnose (d : Diag) : Outcome unit := Done tt [d].

Definition llvm_unreachable {A} (msg : string) : Outcome A := Abort msg.

Declare Scope outcome_scope.
Delimit Scope outcome_scope with outcome.

Notation "x <- c ;; k" := (bind c (fun x => k))
  (at level 61, c at next level, right associativity) : outcome_scope.
Notation "c ;;; k" := (bind c (fun _ => k))
  (at level 61, right associativity) : outcome_scope.

Open Scope outcome_scope.

(** [when b c]: the statement [if (b) c]. *)
Definition when (b : bool) (c : Outcome unit) : Outcome unit :=
  if b then c else ret tt.

Definition aborts {A} (c : Outcome A) : bool :=
  match c with Abort _ => true | Done _ _ => false end.

Definition value {A} (c : Outcome A) : option A :=
  match c with Abort _ => None | Done a _ => Some a end.

Definition emitted {A} (c : Outcome A) : list Diag :=
  match c with Abort _ => [] | Done _ ds => ds end.

(** ** The AST context *)

Record ASTContext : Type := mkASTContext {
  LangOpts : LangOptions;
  getObjCBoolDecl : option NominalTypeDecl;
  getBoolDecl : option NominalTypeDecl;
  getAutoreleasingUnsafeMutablePointerDecl : NominalTypeDecl
}.

Definition Id_error : Identifier := "error".
Definition Id_load : Identifier := "load".
Definition Id_alloc : Identifier := "alloc".
Definition Id_initialize : Identifier := "initialize".
Definition Id_allocWithZone : Identifier := "allocWithZone".

(** ** Declarations *)

Record ParamDecl : Type := mkParam {
  getArgumentName : Identifier;
  isVariadic : bool;
  isInOut : bool;
  getType : Ty
}.

Inductive AccessorKind : Type :=
| AK_Get | AK_Set | AK_DidSet | AK_WillSet | AK_MaterializeForSet
| AK_Address | AK_MutableAddress.

Record StorageDecl : Type := mkStorage {
  storageIsObjC : bool;
  storageIsVar : bool      (* isa<VarDecl>(storage), else a subscript *)
}.

Inductive OptionalTypeKind : Type :=
| OTK_None | OTK_Optional | OTK_ImplicitlyUnwrappedOptional.

Inductive ForeignKind : Type := FK_Normal | FK_CFType | FK_RuntimeOnly.

Record ClassDecl : Type := mkClassDecl {
  classDeclName : Identifier;
  getForeignClassKind : ForeignKind;
  hasObjCMembersAttr : bool
}.

Record ExtensionDecl : Type := mkExtension {
  getTrailingWhereClause : bool;
  (* getDeclaredInterfaceType()->getGenericAncestor(), and whether the
     class of that ancestor has a Clang node *)
  getGenericAncestor : option bool;
  extensionHasObjCAttr : bool;
  extensionHasNonObjCAttr : bool
}.

Inductive DeclContext : Type :=
| ClassContext (c : ClassDecl)
| ExtensionContext (e : ExtensionDecl) (extended : option ClassDecl)
| ProtocolContext (p : ProtocolInfo)
| OtherContext.

Definition getAsClassOrClassExtensionContext (dc : DeclContext)
  : option ClassDecl :=
  match dc with
  | ClassContext c => Some c
  | ExtensionContext _ extended => extended
  | _ => None
  end.

Definition isProtocolContext (dc : DeclContext) : bool :=
  match dc with ProtocolContext _ => true | _ => false end.

Record ObjCAttr : Type := mkObjCAttr {
  getName : option ObjCSelector;
  isNameImplicit : bool;
  isSwift3Inferred : bool
}.

Definition hasName (a : ObjCAttr) : bool :=
  match getName a with Some _ => true | None => false end.

Record DynamicAttr : Type := mkDynamicAttr {
  dynamicIsImplicit : bool;
  dynamicIsInvalid : bool
}.

Record NonObjCAttr : Type := mkNonObjCAttr {
  nonObjCIsInvalid : bool
}.

(** What kind of declaration a [ValueDecl] is.  Only functions and
    initializers can be marked [throws]. *)
Inductive DeclKind : Type :=
| KFunc (resultInterfaceType : Ty) (throwing : bool)
| KAccessor (kind : AccessorKind) (storage : StorageDecl)
            (resultInterfaceType : Ty)
| KConstructor (failability : OptionalTypeKind) (throwing : bool)
| KDestructor
| KVar
| KSubscript.

Inductive ValueDecl : Type := mkDecl {
  getFullName : DeclName;
  getDeclKind : DeclKind;
  getDeclContext : DeclContext;
  getGenericParams : bool;            (* has generic parameters of its own *)
  isOperator : bool;
  isInstanceMember : bool;
  getParameters : list ParamDecl;     (* getParameterLists().back() *)
  getObjCAttr : option ObjCAttr;
  getDynamicAttr : option DynamicAttr;
  getNonObjCAttr : option NonObjCAttr;
  getOverriddenDecl : option ValueDecl;
  isObjC : bool;
  getForeignErrorConvention : option FEC.t;
  (* TypeChecker::findWitnessedObjCRequirements(decl) *)
  findWitnessedObjCRequirements : list Requirement;
  hasParentSourceFile : bool
}.

Definition hasThrows (d : ValueDecl) : bool :=
  match getDeclKind d with
  | KFunc _ t => t
  | KConstructor _ t => t
  | _ => false
  end.

Definition isaVarDecl (d : ValueDecl) : bool :=
  match getDeclKind d with KVar => true | _ => false end.

Definition isaSubscriptDecl (d : ValueDecl) : bool :=
  match getDeclKind d with KSubscript => true | _ => false end.

Definition isaConstructorDecl (d : ValueDecl) : bool :=
  match getDeclKind d with KConstructor _ _ => true | _ => false end.

Definition isaDestructorDecl (d : ValueDecl) : bool :=
  match getDeclKind d with KDestructor => true | _ => false end.

Definition isaAbstractFunctionDecl (d : ValueDecl) : bool :=
  match getDeclKind d with
  | KFunc _ _ | KAccessor _ _ _ | KConstructor _ _ | KDestructor => true
  | _ => false
  end.

(** [isa<AccessorDecl>(D) && cast<AccessorDecl>(D)->isGetterOrSetter()] *)
Definition isGetterOrSetterAccessor (d : ValueDecl) : bool :=
  match getDeclKind d with
  | KAccessor AK_Get _ _ | KAccessor AK_Set _ _ => true
  | _ => false
  end.

(** Modelled from the spec: [ConstructorDecl::isObjCZeroParameterWithLongSelector]
    is not part of this file; by the comment at its use and section 4.4
    it holds of an initializer with a single, named parameter of type
    [()]. *)
Definition isObjCZeroParameterWithLongSelector (d : ValueDecl) : bool :=
  match getDeclKind d, getParameters d with
  | KConstructor _ _, [p] =>
      negb (String.eqb (getArgumentName p) "") && isVoid (getType p)
  | _, _ => false
  end.

(** ** Whether a reason is diagnosed *)

Definition shouldDiagnoseObjCReason (reason : ObjCReason) (ctx : ASTContext)
  : bool :=
  match reasonKind reason with
  | ObjCReason.ExplicitlyCDecl
  | ObjCReason.ExplicitlyDynamic
  | ObjCReason.ExplicitlyObjC
  | ObjCReason.ExplicitlyIBOutlet
  | ObjCReason.ExplicitlyIBAction
  | ObjCReason.ExplicitlyNSManaged
  | ObjCReason.MemberOfObjCProtocol
  | ObjCReason.OverridesObjC
  | ObjCReason.WitnessToObjC
  | ObjCReason.ImplicitlyObjC
  | ObjCReason.MemberOfObjCExtension => true
  | ObjCReason.ExplicitlyIBInspectable
  | ObjCReason.ExplicitlyGKInspectable =>
      negb (EnableSwift3ObjCInference (LangOpts ctx))
  | ObjCReason.MemberOfObjCSubclass
  | ObjCReason.MemberOfObjCMembersClass
  | ObjCReason.Accessor => false
  end.

(** The three reasons the spec calls permanently silent, and the two
    inspectable-attribute reasons. *)
Definition isPermanentlySilent (k : ObjCReason.Kind) : bool :=
  match k with
  | ObjCReason.MemberOfObjCSubclass
  | ObjCReason.MemberOfObjCMembersClass
  | ObjCReason.Accessor => true
  | _ => false
  end.

Definition isInspectable (k : ObjCReason.Kind) : bool :=
  match k with
  | ObjCReason.ExplicitlyIBInspectable
  | ObjCReason.ExplicitlyGKInspectable => true
  | _ => false
  end.

(** The context with the legacy-inference flag set to [b]. *)
Definition withSwift3ObjCInference (b : bool) (ctx : ASTContext)
  : ASTContext :=
  let o := LangOpts ctx in
  mkASTContext
    (mkLangOptions b (WarnSwift3ObjCInference o) (EnableObjCInterop o)
                   (EnableObjCAttrRequiresFoundation o) (isSwiftVersion3 o))
    (getObjCBoolDecl ctx) (getBoolDecl ctx)
    (getAutoreleasingUnsafeMutablePointerDecl ctx).

(** ** What the rest of the compiler answers

    The queries this file makes to code outside it.  [reasonCode] is
    [static_cast<unsigned>(reason)], the position of the reason in the
    enumeration of [TypeCheckObjC.h]; [getLastWord] is
    [camel_case::getLastWord]; [ctx] is the AST context of the type
    checker. *)
Class SemaQueries : Type := {
  reasonCode : ObjCReason.Kind -> nat;
  getForeignRepresentableIn : ValueDecl -> Ty -> ForeignRepresentableKind;
  getLastWord : string -> string;
  mapTypeIntoContext : ValueDecl -> Ty -> Ty;
  getNSErrorType : ValueDecl -> option Ty;
  getObjCSelector : ValueDecl -> ObjCSelector;
  getObjCPropertyName : ValueDecl -> Identifier;
  ctx : ASTContext
}.

Section Sema.

Context {Q : SemaQueries}.

(** Modelled from the spec: [Type::isRepresentableIn] is not part of this
    file; by section 4.2 a type is representable when the oracle
    classifies it as anything other than None. *)
Definition isRepresentableIn (dc : ValueDecl) (t : Ty) : bool :=
  match getForeignRepresentableIn dc t with
  | FRK_None => false
  | _ => true
  end.

Definition getObjCDiagnosticAttrKind (reason : ObjCReason) : Outcome nat :=
  match reasonKind reason with
  | ObjCReason.ExplicitlyCDecl
  | ObjCReason.ExplicitlyDynamic
  | ObjCReason.ExplicitlyObjC
  | ObjCReason.ExplicitlyIBOutlet
  | ObjCReason.ExplicitlyIBAction
  | ObjCReason.ExplicitlyNSManaged
  | ObjCReason.MemberOfObjCProtocol
  | ObjCReason.OverridesObjC
  | ObjCReason.WitnessToObjC
  | ObjCReason.ImplicitlyObjC
  | ObjCReason.ExplicitlyIBInspectable
  | ObjCReason.ExplicitlyGKInspectable
  | ObjCReason.MemberOfObjCExtension => ret (reasonCode (reasonKind reason))
  | ObjCReason.MemberOfObjCSubclass
  | ObjCReason.MemberOfObjCMembersClass
  | ObjCReason.Accessor =>
      llvm_unreachable "should not diagnose this @objc reason"
  end.

(** Emit an additional diagnostic describing why [@objc] is applied.  The
    overridden declaration and the requirement are dereferenced without a
    null check. *)
Definition describeObjCReason (VD : ValueDecl) (Reason : ObjCReason)
  : Outcome unit :=
  if ObjCReason.eqb (reasonKind Reason) ObjCReason.MemberOfObjCProtocol then
    diagnose objc_inferring_on_objc_protocol_member
  else if ObjCReason.eqb (reasonKind Reason) ObjCReason.OverridesObjC then
    let kind := if isaVarDecl VD then 0
                else if isaSubscriptDecl VD then 1
                else if isaConstructorDecl VD then 2
                else 3 in
    match getOverriddenDecl VD with
    | Some overridden =>
        diagnose (objc_overriding_objc_decl kind (getFullName overridden))
    | None => Abort "null overridden declaration"
    end
  else if ObjCReason.eqb (reasonKind Reason) ObjCReason.WitnessToObjC then
    match getObjCRequirement Reason with
    | Some requirement =>
        diagnose (objc_witness_objc_requirement
                    (reqFullName requirement) (reqProtocolName requirement))
    | None => Abort "null requirement"
    end
  else ret tt.

(** The loop over the protocols of an existential layout: [None] when
    the loop returned from the function, [Some saw] when it ended with
    [sawErrorProtocol = saw]. *)
Fixpoint findNonObjCProtocol (ps : list ProtocolInfo)
  : Outcome (option bool) :=
  match ps with
  | [] => ret (Some false)
  | PD :: rest =>
      if isErrorProtocol PD then ret (Some true)
      else if negb (protocolIsObjC PD) then
        diagnose (not_objc_protocol PD) ;;; ret None
      else findNonObjCProtocol rest
  end.

Definition diagnoseTypeNotRepresentableInObjC (T : Ty) : Outcome unit :=
  if isTupleType T then
    if isVoid T then diagnose not_objc_empty_tuple
    else diagnose not_objc_tuple
  else match getClassOrBoundGenericClass T with
  | Some CD => when (negb (classIsObjC CD)) (diagnose not_objc_swift_class)
  | None =>
  if isStructType T then diagnose not_objc_swift_struct
  else if isEnumType T then diagnose not_objc_swift_enum
  else match T with
  | ExistentialType explicitSuperclass protocols =>
      if isAny T then diagnose not_objc_empty_protocol_composition
      else
        match explicitSuperclass with
        | Some superclass =>
            if negb (classIsObjC superclass) then
              diagnose (not_objc_class_constraint superclass)
            else
              saw <- findNonObjCProtocol protocols ;;
              when (match saw with Some true => true | _ => false end)
                   (diagnose not_objc_error_protocol_composition)
        | None =>
            saw <- findNonObjCProtocol protocols ;;
            when (match saw with Some true => true | _ => false end)
                 (diagnose not_objc_error_protocol_composition)
        end
  | ArchetypeType _ | GenericTypeParamType _ =>
      diagnose not_objc_generic_type_param
  | FunctionType _ _ throws =>
      if throws then diagnose not_objc_function_type_throwing
      else diagnose not_objc_function_type_param
  | _ => ret tt
  end
  end.

(** Every parameter that reaches this function has a type: its caller
    has already read it. *)
Definition diagnoseFunctionParamNotRepresentable (AFD : ValueDecl)
    (NumParams ParamIndex : nat) (P : ParamDecl) (Reason : ObjCReason)
  : Outcome unit :=
  if negb (shouldDiagnoseObjCReason Reason ctx) then ret tt
  else
    (if Nat.eqb NumParams 1 then
       k <- getObjCDiagnosticAttrKind Reason ;;
       diagnose (objc_invalid_on_func_single_param_type k)
     else
       k <- getObjCDiagnosticAttrKind Reason ;;
       diagnose (objc_invalid_on_func_param_type (ParamIndex + 1) k)) ;;;
    diagnoseTypeNotRepresentableInObjC (getType P) ;;;
    describeObjCReason AFD Reason.

(** The exception for [()]: the method overrides one whose foreign error
    convention replaces the error parameter with [()], at this index. *)
Definition isReplacedErrorParameter (AFD : ValueDecl) (param : ParamDecl)
    (ParamIndex : nat) : bool :=
  isVoid (getType param) && hasThrows AFD &&
  match getOverriddenDecl AFD with
  | Some overridden =>
      match getForeignErrorConvention overridden with
      | Some foreignError =>
          FEC.replaced (FEC.isErrorParameterReplacedWithVoid foreignError) &&
          Nat.eqb (FEC.getErrorParameterIndex foreignError) ParamIndex
      | None => false
      end
  | None => false
  end.

(** The body of the [for] loop of [isParamListRepresentableInObjC], from
    [ParamIndex] on, with the current value of [IsObjC]. *)
Fixpoint paramLoop (AFD : ValueDecl) (Reason : ObjCReason) (Diagnose : bool)
    (NumParams ParamIndex : nat) (IsObjC : bool) (PL : list ParamDecl)
  : Outcome bool :=
  match PL with
  | [] => ret IsObjC
  | param :: rest =>
      if isVariadic param then
        when (Diagnose && shouldDiagnoseObjCReason Reason ctx)
             (k <- getObjCDiagnosticAttrKind Reason ;;
              diagnose (objc_invalid_on_func_variadic k) ;;;
              describeObjCReason AFD Reason) ;;;
        ret false
      else if isInOut param then
        when (Diagnose && shouldDiagnoseObjCReason Reason ctx)
             (k <- getObjCDiagnosticAttrKind Reason ;;
              diagnose (objc_invalid_on_func_inout k) ;;;
              describeObjCReason AFD Reason) ;;;
        ret false
      else if isRepresentableIn AFD (getType param) then
        paramLoop AFD Reason Diagnose NumParams (S ParamIndex) IsObjC rest
      else if isReplacedErrorParameter AFD param ParamIndex then
        paramLoop AFD Reason Diagnose NumParams (S ParamIndex) IsObjC rest
      else if negb Diagnose then
        ret false
      else
        diagnoseFunctionParamNotRepresentable AFD NumParams ParamIndex
                                              param Reason ;;;
        paramLoop AFD Reason Diagnose NumParams (S ParamIndex) false rest
  end.

Definition isParamListRepresentableInObjC (AFD : ValueDecl)
    (PL : list ParamDecl) (Reason : ObjCReason) : Outcome bool :=
  let Diagnose := shouldDiagnoseObjCReason Reason ctx in
  let IsObjC := true in
  let NumParams := List.length PL in
  paramLoop AFD Reason Diagnose NumParams 0 IsObjC PL.

(** Whether the declaration has generic parameters of its own, and is
    therefore not representable. *)
Definition checkObjCWithGenericParams (AFD : ValueDecl) (Reason : ObjCReason)
  : Outcome bool :=
  let Diagnose := shouldDiagnoseObjCReason Reason ctx in
  if getGenericParams AFD then
    when Diagnose
         (k <- getObjCDiagnosticAttrKind Reason ;;
          diagnose (objc_invalid_with_generic_params k) ;;;
          describeObjCReason AFD Reason) ;;;
    ret true
  else ret false.

(** CF types cannot have [@objc] methods. *)
Definition checkObjCInForeignClassContext (VD : ValueDecl)
    (Reason : ObjCReason) : Outcome bool :=
  let Diagnose := shouldDiagnoseObjCReason Reason ctx in
  match getAsClassOrClassExtensionContext (getDeclContext VD) with
  | None => ret false
  | Some clas =>
      match getForeignClassKind clas with
      | FK_Normal => ret false
      | FK_CFType =>
          when Diagnose
               (k <- getObjCDiagnosticAttrKind Reason ;;
                diagnose (objc_invalid_on_foreign_class k) ;;;
                describeObjCReason VD Reason) ;;;
          ret true
      | FK_RuntimeOnly =>
          when Diagnose
               (k <- getObjCDiagnosticAttrKind Reason ;;
                diagnose (objc_in_objc_runtime_visible k (classDeclName clas)) ;;;
                describeObjCReason VD Reason) ;;;
          ret true
      end
  end.

(** Whether the declaration occurs within a constrained extension or an
    extension of a class with generic ancestry. *)
Definition checkObjCInExtensionContext (value : ValueDecl) (diagnose_ : bool)
  : Outcome bool :=
  match getDeclContext value with
  | ExtensionContext ED _ =>
      if getTrailingWhereClause ED then
        when diagnose_ (diagnose objc_in_extension_context) ;;; ret true
      else
        match getGenericAncestor ED with
        | Some hasClangNode =>
            if negb hasClangNode then
              when diagnose_ (diagnose objc_in_generic_extension) ;;; ret true
            else ret false
        | None => ret false
        end
  | _ => ret false
  end.

(** Whether the type is bridged to an Objective-C class type. *)
Definition isBridgedToObjectiveCClass (dc : ValueDecl) (type : Ty) : bool :=
  match getForeignRepresentableIn dc type with
  | FRK_Trivial | FRK_None => false
  | FRK_Object | FRK_Bridged | FRK_BridgedError | FRK_StaticBridged => true
  end.

(** The declared type of the standard library's boolean structures. *)
Definition getDeclaredType (d : NominalTypeDecl) : Ty :=
  StructType (nominalName d).

(** The accessor part of [isRepresentableInObjC]: every path returns. *)
Definition accessorRepresentable (accessor : ValueDecl) (kind : AccessorKind)
    (storage : StorageDecl) (Reason : ObjCReason) (Diagnose : bool)
  : Outcome bool :=
  if negb (storageIsObjC storage) &&
     negb (ObjCReason.eqb (reasonKind Reason) ObjCReason.ExplicitlyCDecl) &&
     negb (ObjCReason.eqb (reasonKind Reason) ObjCReason.WitnessToObjC)
  then
    when Diagnose
         (let error :=
            match kind with
            | AK_Get => if storageIsVar storage
                        then objc_getter_for_nonobjc_property
                        else objc_getter_for_nonobjc_subscript
            | _ => if storageIsVar storage
                   then objc_setter_for_nonobjc_property
                   else objc_setter_for_nonobjc_subscript
            end in
          diagnose error ;;; describeObjCReason accessor Reason) ;;;
    ret false
  else
    match kind with
    | AK_DidSet | AK_WillSet =>
        when Diagnose
             (diagnose objc_observing_accessor ;;;
              describeObjCReason accessor Reason) ;;;
        ret false
    | AK_Get | AK_Set => ret true
    | AK_MaterializeForSet => ret false
    | AK_Address | AK_MutableAddress =>
        when Diagnose
             (diagnose objc_addressor ;;;
              describeObjCReason accessor Reason) ;;;
        ret false
    end.

(** The choice of the convention kind of a throwing function by its
    result type (the [else if] chain on [resultType]): [None] when the
    check returns false, else the kind and the type of the error
    result. *)
Definition selectFunctionErrorConventionKind (AFD : ValueDecl)
    (Reason : ObjCReason) (Diagnose : bool) (resultType : Ty)
  : Outcome (option (FEC.Kind * option Ty)) :=
  if isVoid resultType then
    (* Functions that return nothing (void) can be throwing; they
       indicate failure with a 'false' result. *)
    let boolDecl :=
      match getObjCBoolDecl ctx with
      | Some d => Some d
      | None => getBoolDecl ctx
      end in
    match boolDecl with
    | None => diagnose broken_bool ;;; ret None
    | Some d => ret (Some (FEC.ZeroResult, Some (getDeclaredType d)))
    end
  else if match getOptionalObjectType resultType with
          | None => isBridgedToObjectiveCClass AFD resultType
          | Some _ => false
          end then
    ret (Some (FEC.NilResult, None))
  else if match getOptionalObjectType resultType with
          | Some optOptionalType =>
              isBridgedToObjectiveCClass AFD optOptionalType
          | None => false
          end then
    when Diagnose
         (k <- getObjCDiagnosticAttrKind Reason ;;
          diagnose (objc_invalid_on_throwing_optional_result k resultType) ;;;
          describeObjCReason AFD Reason) ;;;
    ret None
  else
    when Diagnose
         (k <- getObjCDiagnosticAttrKind Reason ;;
          diagnose (objc_invalid_on_throwing_result k resultType) ;;;
          describeObjCReason AFD Reason) ;;;
    ret None.

(** The choice of the convention kind: initializers first, then
    functions by their result type. *)
Definition selectErrorConventionKind (AFD : ValueDecl) (Reason : ObjCReason)
    (Diagnose : bool) : Outcome (option (FEC.Kind * option Ty)) :=
  match getDeclKind AFD with
  | KConstructor failability _ =>
      (* Initializers always use the nil result convention. *)
      match failability with
      | OTK_None => ret (Some (FEC.NilResult, None))
      | _ =>
          when Diagnose
               (k <- getObjCDiagnosticAttrKind Reason ;;
                diagnose (objc_invalid_on_failing_init k) ;;;
                describeObjCReason AFD Reason) ;;;
          ret None
      end
  | KFunc resultType _ | KAccessor _ _ resultType =>
      selectFunctionErrorConventionKind AFD Reason Diagnose resultType
  | _ => Abort "cast<ConstructorDecl>"
  end.

(** The type of the error parameter:
    [AutoreleasingUnsafeMutablePointer<NSError?>?]. *)
Definition errorParameterTypeOf (dc : ValueDecl) : option Ty :=
  match getNSErrorType dc with
  | Some errorParameterType =>
      Some (OptionalType
              (BoundGenericType
                 (getAutoreleasingUnsafeMutablePointerDecl ctx)
                 [OptionalType errorParameterType]))
  | None => None
  end.

(** The loop [for (i = selectorPieces.size(); i > 0; --i)] over the
    pieces of an explicit name, from [i] down. *)
Fixpoint findErrorSelectorPiece (selectorPieces : list Identifier) (i : nat)
  : option nat :=
  match i with
  | 0 => None
  | S j =>
      let piece := nth j selectorPieces "" in
      if String.eqb piece Id_error then Some j
      else if Nat.eqb i 1 && String.eqb (getLastWord piece) "Error"
      then Some j
      else findErrorSelectorPiece selectorPieces j
  end.

(** The index given by the [@objc] attribute, if it has a name with the
    "error" piece. *)
Definition errorParameterIndexFromSelector (AFD : ValueDecl) : option nat :=
  match getObjCAttr AFD with
  | Some objc =>
      match getName objc with
      | Some objcName =>
          let selectorPieces := getSelectorPieces objcName in
          findErrorSelectorPiece selectorPieces (List.length selectorPieces)
      | None => None
      end
  | None => None
  end.

Definition noParam : ParamDecl := mkParam "" false false ErrorType.

(** The loop [while (errorParameterIndex > 0)] that skips trailing
    closures. *)
Fixpoint skipTrailingClosures (paramList : list ParamDecl)
    (errorParameterIndex : nat) : nat :=
  match errorParameterIndex with
  | 0 => 0
  | S j =>
      let type := getType (nth j paramList noParam) in
      let type := getRValueType type in
      let type := match getOptionalObjectType type with
                  | Some objectType => objectType
                  | None => type
                  end in
      if negb (isAnyFunctionType type) then errorParameterIndex
      else skipTrailingClosures paramList j
  end.

(** The index when the selector gave none: the last parameter that is
    not a trailing closure. *)
Definition defaultErrorParameterIndex (AFD : ValueDecl) : nat :=
  let paramList := getParameters AFD in
  let errorParameterIndex := List.length paramList in
  let errorParameterIndex :=
    if isaConstructorDecl AFD && isObjCZeroParameterWithLongSelector AFD
    then errorParameterIndex - 1
    else errorParameterIndex in
  skipTrailingClosures paramList errorParameterIndex.

Definition errorParameterIndexOf (AFD : ValueDecl) : nat :=
  match errorParameterIndexFromSelector AFD with
  | Some errorParameterIndex => errorParameterIndex
  | None => defaultErrorParameterIndex AFD
  end.

(** The final [switch (kind)] that forms the error convention. *)
Definition formErrorConvention (kind : FEC.Kind) (errorParameterIndex : nat)
    (canErrorParameterType : option Ty) (errorResultType : option Ty)
  : FEC.t :=
  match kind with
  | FEC.ZeroResult =>
      FEC.getZeroResult errorParameterIndex FEC.IsNotOwned FEC.IsNotReplaced
                        canErrorParameterType errorResultType
  | FEC.NonZeroResult =>
      FEC.getNonZeroResult errorParameterIndex FEC.IsNotOwned
                           FEC.IsNotReplaced
                           canErrorParameterType errorResultType
  | FEC.ZeroPreservedResult =>
      FEC.getZeroPreservedResult errorParameterIndex FEC.IsNotOwned
                                 FEC.IsNotReplaced canErrorParameterType
  | FEC.NilResult =>
      FEC.getNilResult errorParameterIndex FEC.IsNotOwned FEC.IsNotReplaced
                       canErrorParameterType
  | FEC.NonNilError =>
      FEC.getNilResult errorParameterIndex FEC.IsNotOwned FEC.IsNotReplaced
                       canErrorParameterType
  end.

(** The part of [isRepresentableInObjC] under [if (AFD->hasThrows())]. *)
Definition throwingConvention (AFD : ValueDecl) (Reason : ObjCReason)
    (Diagnose : bool) : Outcome (bool * option FEC.t) :=
  selected <- selectErrorConventionKind AFD Reason Diagnose ;;
  match selected with
  | None => ret (false, None)
  | Some (kind, errorResultType) =>
      let canErrorParameterType := errorParameterTypeOf AFD in
      let errorParameterIndex := errorParameterIndexOf AFD in
      ret (true, Some (formErrorConvention kind errorParameterIndex
                         canErrorParameterType errorResultType))
  end.

(** The check of the result type of a [FuncDecl]: true when the function
    returns false here. *)
Definition resultNotRepresentable (FD : ValueDecl) (Reason : ObjCReason)
    (Diagnose : bool) : Outcome bool :=
  match getDeclKind FD with
  | KFunc resultInterfaceType _ | KAccessor _ _ resultInterfaceType =>
      let ResultType := mapTypeIntoContext FD resultInterfaceType in
      if negb (hasError ResultType) && negb (isVoid ResultType) &&
         negb (isUninhabited ResultType) &&
         negb (isRepresentableIn FD ResultType)
      then
        when Diagnose
             (k <- getObjCDiagnosticAttrKind Reason ;;
              diagnose (objc_invalid_on_func_result_type k) ;;;
              diagnoseTypeNotRepresentableInObjC ResultType ;;;
              describeObjCReason FD Reason) ;;;
        ret true
      else ret false
  | _ => ret false
  end.

(** The end of [isRepresentableInObjC], after the parameter list: the
    result type, then the error convention of a throwing function. *)
Definition checkResultAndThrows (AFD : ValueDecl) (Reason : ObjCReason)
    (Diagnose : bool) : Outcome (bool * option FEC.t) :=
  badResult <- resultNotRepresentable AFD Reason Diagnose ;;
  if badResult then ret (false, None) else
  if hasThrows AFD then throwingConvention AFD Reason Diagnose
  else ret (true, None).

(** The parameter list, unless the initializer has the special form:
    true when the list is not representable. *)
Definition paramListFails (AFD : ValueDecl) (Reason : ObjCReason)
  : Outcome bool :=
  let isSpecialInit :=
    isaConstructorDecl AFD && isObjCZeroParameterWithLongSelector AFD in
  if negb isSpecialInit then
    ok <- isParamListRepresentableInObjC AFD (getParameters AFD) Reason ;;
    ret (negb ok)
  else ret false.

(** [TypeChecker::isRepresentableInObjC] for functions: the returned
    boolean and the error convention left in the out-parameter. *)
Definition isRepresentableInObjC (AFD : ValueDecl) (Reason : ObjCReason)
  : Outcome (bool * option FEC.t) :=
  let Diagnose := shouldDiagnoseObjCReason Reason ctx in
  inForeign <- checkObjCInForeignClassContext AFD Reason ;;
  if inForeign then ret (false, None) else
  generic <- checkObjCWithGenericParams AFD Reason ;;
  if generic then ret (false, None) else
  inExtension <- checkObjCInExtensionContext AFD Diagnose ;;
  if inExtension then ret (false, None) else
  if isOperator AFD then
    diagnose (if isProtocolContext (getDeclContext AFD)
              then objc_operator_proto else objc_operator) ;;;
    ret (false, None)
  else
  match getDeclKind AFD with
  | KAccessor kind storage _ =>
      b <- accessorRepresentable AFD kind storage Reason Diagnose ;;
      ret (b, None)
  | _ =>
      paramsFailed <- paramListFails AFD Reason ;;
      if paramsFailed && negb Diagnose then
        (* Return as soon as possible if we are not producing
           diagnostics. *)
        ret (false, None)
      else checkResultAndThrows AFD Reason Diagnose
  end.

(** ** Name inference and the finalizer *)

Definition setObjCAttr (d : ValueDecl) (a : option ObjCAttr) : ValueDecl :=
  mkDecl (getFullName d) (getDeclKind d) (getDeclContext d)
         (getGenericParams d) (isOperator d) (isInstanceMember d)
         (getParameters d) a (getDynamicAttr d) (getNonObjCAttr d)
         (getOverriddenDecl d) (isObjC d) (getForeignErrorConvention d)
         (findWitnessedObjCRequirements d) (hasParentSourceFile d).

Definition setDynamicAttr (d : ValueDecl) (a : option DynamicAttr)
  : ValueDecl :=
  mkDecl (getFullName d) (getDeclKind d) (getDeclContext d)
         (getGenericParams d) (isOperator d) (isInstanceMember d)
         (getParameters d) (getObjCAttr d) a (getNonObjCAttr d)
         (getOverriddenDecl d) (isObjC d) (getForeignErrorConvention d)
         (findWitnessedObjCRequirements d) (hasParentSourceFile d).

Definition setNonObjCAttr (d : ValueDecl) (a : option NonObjCAttr)
  : ValueDecl :=
  mkDecl (getFullName d) (getDeclKind d) (getDeclContext d)
         (getGenericParams d) (isOperator d) (isInstanceMember d)
         (getParameters d) (getObjCAttr d) (getDynamicAttr d) a
         (getOverriddenDecl d) (isObjC d) (getForeignErrorConvention d)
         (findWitnessedObjCRequirements d) (hasParentSourceFile d).

Definition setIsObjC (d : ValueDecl) (b : bool) : ValueDecl :=
  mkDecl (getFullName d) (getDeclKind d) (getDeclContext d)
         (getGenericParams d) (isOperator d) (isInstanceMember d)
         (getParameters d) (getObjCAttr d) (getDynamicAttr d)
         (getNonObjCAttr d) (getOverriddenDecl d) b
         (getForeignErrorConvention d)
         (findWitnessedObjCRequirements d) (hasParentSourceFile d).

Definition setForeignErrorConvention (d : ValueDecl) (c : FEC.t)
  : ValueDecl :=
  mkDecl (getFullName d) (getDeclKind d) (getDeclContext d)
         (getGenericParams d) (isOperator d) (isInstanceMember d)
         (getParameters d) (getObjCAttr d) (getDynamicAttr d)
         (getNonObjCAttr d) (getOverriddenDecl d) (isObjC d) (Some c)
         (findWitnessedObjCRequirements d) (hasParentSourceFile d).

(** The local function [setObjCName] of [inferObjCName]: update the name
    of the attribute, or create an attribute with the implicit name. *)
Definition setObjCName (decl : ValueDecl) (selector : ObjCSelector)
  : ValueDecl :=
  match getObjCAttr decl with
  | Some attr =>
      setObjCAttr decl
        (Some (mkObjCAttr (Some selector) true (isSwift3Inferred attr)))
  | None => setObjCAttr decl (Some (mkObjCAttr (Some selector) true false))
  end.

(** Whether the attribute has a name different from [sel]. *)
Definition hasOtherName (attr : option ObjCAttr) (sel : ObjCSelector)
  : bool :=
  match attr with
  | Some a =>
      match getName a with
      | Some n => negb (ObjCSelector_eqb n sel)
      | None => false
      end
  | None => false
  end.

Definition attrHasName (attr : option ObjCAttr) : bool :=
  match attr with Some a => hasName a | None => false end.

Definition attrNameIsImplicit (attr : option ObjCAttr) : bool :=
  match attr with Some a => isNameImplicit a | None => false end.

Definition firstWrittenPiece (attr : option ObjCAttr) : Identifier :=
  match attr with
  | Some a =>
      match getName a with
      | Some n => hd "" (getSelectorPieces n)
      | None => ""
      end
  | None => ""
  end.

Definition writtenName (attr : option ObjCAttr) : ObjCSelector :=
  match attr with
  | Some a =>
      match getName a with
      | Some n => n
      | None => mkSelector 0 []
      end
  | None => mkSelector 0 []
  end.

(** The loop over the witnessed requirements, after the first one:
    [requirementObjCName] is the name of [firstReq]. *)
Fixpoint checkLaterRequirements (decl : ValueDecl) (firstReq : Requirement)
    (reqs : list Requirement) : Outcome unit :=
  match reqs with
  | [] => ret tt
  | req :: rest =>
      if negb (ObjCSelector_eqb (reqObjCRuntimeName firstReq)
                                (reqObjCRuntimeName req)) then
        diagnose (objc_ambiguous_inference (getFullName decl)
                    (reqObjCRuntimeName firstReq) (reqObjCRuntimeName req)) ;;;
        diagnose (objc_ambiguous_inference_candidate
                    (reqFullName firstReq) (reqProtocolName firstReq)
                    (reqObjCRuntimeName firstReq)) ;;;
        diagnose (objc_ambiguous_inference_candidate
                    (reqFullName req) (reqProtocolName req)
                    (reqObjCRuntimeName req)) ;;;
        diagnose req_near_match_nonobjc
      else checkLaterRequirements decl firstReq rest
  end.

(** The end of [inferObjCName], when no override determined the name. *)
Definition inferObjCNameFromWitnesses (decl : ValueDecl)
  : Outcome ValueDecl :=
  if attrHasName (getObjCAttr decl) then ret decl
  else
    match findWitnessedObjCRequirements decl with
    | [] => ret decl
    | firstReq :: rest =>
        checkLaterRequirements decl firstReq rest ;;;
        ret (setObjCName decl (reqObjCRuntimeName firstReq))
    end.

(** Adopt the name [overriddenSelector] of the overridden declaration;
    [mismatch] is the diagnostic for an explicitly written other name. *)
Definition adoptOverriddenName (decl : ValueDecl)
    (overriddenSelector : ObjCSelector) (mismatch : Diag)
  : Outcome ValueDecl :=
  let attr := getObjCAttr decl in
  (* Determine whether there is a name conflict. *)
  let shouldFixName := negb (attrHasName attr) in
  let conflict := attrHasName attr && hasOtherName attr overriddenSelector in
  when (conflict && negb (attrNameIsImplicit attr))
       (diagnose mismatch ;;; diagnose overridden_here) ;;;
  let shouldFixName := shouldFixName || conflict in
  if shouldFixName then ret (setObjCName decl overriddenSelector)
  else ret decl.

(** Infer the Objective-C name for a given declaration. *)
Definition inferObjCName (decl : ValueDecl) : Outcome ValueDecl :=
  if isaDestructorDecl decl then ret decl
  else if negb (isObjC decl) then Abort "Must be known to be @objc"
  else
    let attr := getObjCAttr decl in
    match getOverriddenDecl decl with
    | Some overridden =>
        if isObjC overridden then
          if isaAbstractFunctionDecl overridden then
            let overriddenSelector := getObjCSelector overridden in
            adoptOverriddenName decl overriddenSelector
              (objc_override_method_selector_mismatch
                 (writtenName attr) overriddenSelector)
          else if isaVarDecl overridden then
            let overriddenName := getObjCPropertyName overridden in
            let overriddenNameAsSel := mkSelector 0 [overriddenName] in
            adoptOverriddenName decl overriddenNameAsSel
              (objc_override_property_name_mismatch
                 (firstWrittenPiece attr) overriddenName)
          else inferObjCNameFromWitnesses decl
        else inferObjCNameFromWitnesses decl
    | None => inferObjCNameFromWitnesses decl
    end.

(** What [markAsObjC] changes outside the declaration: the flag of
    [checkBridgedFunctions], the methods recorded in their class
    ([recordObjCMethod]) and the per-file table [ObjCMethods]. *)
Record SemaState : Type := mkSemaState {
  HasCheckedBridgeFunctions : bool;
  recordedObjCMethods : list (Identifier * ValueDecl);
  sourceFileObjCMethods : list (ObjCSelector * ValueDecl)
}.

Definition checkBridgedFunctions (st : SemaState) : SemaState :=
  if HasCheckedBridgeFunctions st then st
  else mkSemaState true (recordedObjCMethods st) (sourceFileObjCMethods st).

Definition recordObjCMethod (st : SemaState) (classDecl : ClassDecl)
    (method : ValueDecl) : SemaState :=
  mkSemaState (HasCheckedBridgeFunctions st)
              (recordedObjCMethods st ++ [(classDeclName classDecl, method)])
              (sourceFileObjCMethods st).

Definition recordInSourceFile (st : SemaState) (method : ValueDecl)
  : SemaState :=
  mkSemaState (HasCheckedBridgeFunctions st) (recordedObjCMethods st)
              (sourceFileObjCMethods st ++ [(getObjCSelector method, method)]).

(** The local function [isForbiddenSelector] of [markAsObjC]. *)
Definition isForbiddenSelector (sel : ObjCSelector) : option Diag :=
  let front := hd "" (getSelectorPieces sel) in
  match getNumArgs sel with
  | 0 =>
      if String.eqb front Id_load || String.eqb front Id_alloc then
        Some (objc_class_method_not_permitted sel)
      else if String.eqb front Id_initialize then
        if isSwiftVersion3 (LangOpts ctx) then
          Some (objc_class_method_not_permitted_swift3_compat_warning sel)
        else Some (objc_class_method_not_permitted sel)
      else None
  | 1 =>
      if String.eqb front Id_allocWithZone then
        Some (objc_class_method_not_permitted sel)
      else None
  | _ => None
  end.

(** The assertion that the error convention is present, followed by
    [setForeignErrorConvention] on the method. *)
Definition attachErrorConvention (method : ValueDecl)
    (errorConvention : option FEC.t) : Outcome ValueDecl :=
  match errorConvention with
  | Some c => ret (setForeignErrorConvention method c)
  | None => Abort "Missing error convention"
  end.

(** The part of [markAsObjC] for a method of a class. *)
Definition markMethodOfClass (st : SemaState) (classDecl : ClassDecl)
    (method : ValueDecl) (errorConvention : option FEC.t)
  : Outcome (ValueDecl * SemaState) :=
  method <-
    match getOverriddenDecl method with
    | Some baseMethod =>
        if hasThrows method then
          let errorConvention :=
            match getForeignErrorConvention baseMethod with
            | Some baseErrorConvention => Some baseErrorConvention
            | None => errorConvention
            end in
          attachErrorConvention method errorConvention
        else ret method
    | None =>
        if hasThrows method then attachErrorConvention method errorConvention
        else ret method
    end ;;
  method <- inferObjCName method ;;
  let st := recordObjCMethod st classDecl method in
  when (negb (isInstanceMember method))
       (match isForbiddenSelector (getObjCSelector method) with
        | Some d => diagnose d
        | None => ret tt
        end) ;;;
  ret (method, st).

(** The end of [markAsObjC], for the Swift 3 inference rules. *)
Definition markSwift3Inferred (D : ValueDecl) : Outcome ValueDecl :=
  when (match WarnSwift3ObjCInference (LangOpts ctx) with
        | WarnComplete => true
        | _ => false
        end && negb (isGetterOrSetterAccessor D))
       (diagnose objc_inference_swift3_objc_derived ;;;
        diagnose objc_inference_swift3_addobjc ;;;
        diagnose objc_inference_swift3_addnonobjc) ;;;
  match getObjCAttr D with
  | Some attr =>
      ret (setObjCAttr D (Some (mkObjCAttr (getName attr)
                                           (isNameImplicit attr) true)))
  | None => ret (setObjCAttr D (Some (mkObjCAttr None false true)))
  end.

(** Mark the given declaration as being Objective-C compatible (or not)
    as appropriate. *)
Definition markAsObjC (st : SemaState) (D : ValueDecl)
    (isObjC_ : option ObjCReason) (errorConvention : option FEC.t)
  : Outcome (ValueDecl * SemaState) :=
  let D := setIsObjC D (match isObjC_ with Some _ => true | None => false end) in
  match isObjC_ with
  | None =>
      match getDynamicAttr D with
      | Some attr =>
          ret (setDynamicAttr D
                 (Some (mkDynamicAttr (dynamicIsImplicit attr) true)), st)
      | None => ret (D, st)
      end
  | Some reason =>
      (* A [@nonobjc] attribute conflicts with [@objc]. *)
      marked <-
        match getNonObjCAttr D with
        | Some attr =>
            let reason :=
              if negb (shouldDiagnoseObjCReason reason ctx)
              then reasonOf ObjCReason.ImplicitlyObjC else reason in
            k <- getObjCDiagnosticAttrKind reason ;;
            diagnose (nonobjc_not_allowed k) ;;;
            ret (setNonObjCAttr D (Some (mkNonObjCAttr true)), reason)
        | None => ret (D, reason)
        end ;;
      let D := fst marked in
      let reason := snd marked in
      let st := if negb (isaDestructorDecl D) then checkBridgedFunctions st
                else st in
      marked <-
        match getAsClassOrClassExtensionContext (getDeclContext D) with
        | Some classDecl =>
            if isaAbstractFunctionDecl D then
              markMethodOfClass st classDecl D errorConvention
            else if isaVarDecl D then
              D <- inferObjCName D ;; ret (D, st)
            else ret (D, st)
        | None =>
            if isaAbstractFunctionDecl D && hasThrows D then
              D <- attachErrorConvention D errorConvention ;; ret (D, st)
            else ret (D, st)
        end ;;
      let D := fst marked in
      let st := snd marked in
      let st := if isaAbstractFunctionDecl D && hasParentSourceFile D
                then recordInSourceFile st D else st in
      if ObjCReason.eqb (reasonKind reason) ObjCReason.MemberOfObjCSubclass
      then D <- markSwift3Inferred D ;; ret (D, st)
      else ret (D, st)
  end.

End Sema.

(** ** Whether a declaration should be exported

    [shouldMarkAsObjC] and the functions it calls decide the reason, if
    any, for which a declaration is [@objc].  They read more of a
    declaration than the checks above, and emit diagnostics of their
    own. *)

Inductive AccessLevel : Type :=
| AL_Private | AL_FilePrivate | AL_Internal | AL_Public | AL_Open.

(** The order of the enumeration [AccessLevel]. *)
Definition AccessLevel_rank (a : AccessLevel) : nat :=
  match a with
  | AL_Private => 0
  | AL_FilePrivate => 1
  | AL_Internal => 2
  | AL_Public => 3
  | AL_Open => 4
  end.

Definition AccessLevel_leb (a b : AccessLevel) : bool :=
  Nat.leb (AccessLevel_rank a) (AccessLevel_rank b).

Inductive ObjCClassKind : Type :=
| OCK_NonObjC | OCK_ObjCMembers | OCK_ObjCWithSwiftRoot | OCK_ObjC.

(** What [shouldMarkAsObjC] reads of a member beyond [ValueDecl]: the
    state of the declaration, its other attributes, the requirement
    found with [anySingleRequirement], and two queries on the class of
    its context. *)
Record MemberInfo : Type := mkMemberInfo {
  isInvalid : bool;
  isImplicit : bool;
  getFormalAccess : AccessLevel;
  hasIBOutletAttr : bool;
  hasIBActionAttr : bool;
  hasIBInspectableAttr : bool;
  hasGKInspectableAttr : bool;
  hasNSManagedAttr : bool;
  (* TC.findWitnessedObjCRequirements(VD, /*anySingleRequirement=*/true) *)
  findAnyWitnessedObjCRequirement : list Requirement;
  (* classDecl->isForeign() and classDecl->checkObjCAncestry(), for the
     class of the context *)
  contextClassIsForeign : bool;
  contextClassObjCAncestry : ObjCClassKind
}.

(** What [shouldMarkClassAsObjC] reads of a class. *)
Record ClassToMark : Type := mkClassToMark {
  checkObjCAncestry : ObjCClassKind;
  classObjCAttr : option ObjCAttr;
  isGenericContext : bool
}.

(** The declaration passed to [shouldMarkAsObjC]: a class, or another
    value declaration. *)
Inductive MarkedDecl : Type :=
| ClassToBeMarked (CD : ClassToMark)
| MemberToBeMarked (VD : ValueDecl) (info : MemberInfo).

Inductive InferenceDiag : Type :=
| objc_for_generic_class
| invalid_objc_swift_rooted_class
| objc_interop_disabled
| objc_inference_swift3_dynamic
| dynamic_requires_objc (name : DeclName).

(** The result of [shouldMarkAsObjC]: the reason, the diagnostics
    emitted, in order, and the attribute from which an
    [ObjCRuntimeNameAttr] was added to the class, if one was. *)
Record Marking : Type := mkMarking {
  markingReason : option ObjCReason;
  markingDiags : list InferenceDiag;
  addedObjCRuntimeName : option ObjCAttr
}.

Definition decided (r : option ObjCReason) : Marking := mkMarking r [] None.

(** Whether this declaration is a member of a class extension marked
    [@objc]. *)
Definition isMemberOfObjCClassExtension (VD : ValueDecl) : bool :=
  match getDeclContext VD with
  | ExtensionContext ext extended =>
      match extended with Some _ => true | None => false end &&
      extensionHasObjCAttr ext
  | _ => false
  end.

(** Whether this declaration is a member of a class with the
    [@objcMembers] attribute. *)
Definition isMemberOfObjCMembersClass (VD : ValueDecl) : bool :=
  match getAsClassOrClassExtensionContext (getDeclContext VD) with
  | Some classDecl => hasObjCMembersAttr classDecl
  | None => false
  end.

(** The local function [canInferImplicitObjC] of [shouldMarkAsObjC]. *)
Definition canInferImplicitObjC (VD : ValueDecl) (info : MemberInfo)
    (allowImplicit : bool) : bool :=
  if isInvalid info then false
  else if isOperator VD then false
  else if negb allowImplicit && isImplicit info then false
  else if AccessLevel_leb (getFormalAccess info) AL_FilePrivate then false
  else true.

Section Inference.

Context {Q : SemaQueries}.

(** A class is [@objc] if it does not have generic ancestry, and it
    either has an explicit [@objc] attribute, or its superclass is
    [@objc]. *)
Definition shouldMarkClassAsObjC (CD : ClassToMark) : Marking :=
  let kind := checkObjCAncestry CD in
  match classObjCAttr CD with
  | Some attr =>
      if match kind with OCK_ObjCMembers => true | _ => false end &&
         (hasName attr && negb (isGenericContext CD))
      then mkMarking None [] (Some attr)
      else
        mkMarking (Some (reasonOf ObjCReason.ExplicitlyObjC))
          ((match kind with
            | OCK_ObjCMembers => [objc_for_generic_class]
            | _ => []
            end) ++
           (match kind with
            | OCK_ObjCWithSwiftRoot =>
                (if EnableObjCAttrRequiresFoundation (LangOpts ctx)
                 then [invalid_objc_swift_rooted_class] else []) ++
                (if negb (EnableObjCInterop (LangOpts ctx))
                 then [objc_interop_disabled] else [])
            | _ => []
            end))
          None
  | None =>
      match kind with
      | OCK_ObjCWithSwiftRoot | OCK_ObjC =>
          decided (Some (reasonOf ObjCReason.ImplicitlyObjC))
      | _ => decided None
      end
  end.

(** The end of [shouldMarkAsObjC] for a member with a [dynamic]
    attribute. *)
Definition inferFromDynamic (VD : ValueDecl) (attr : DynamicAttr) : Marking :=
  if dynamicIsImplicit attr then
    decided (Some (reasonOf ObjCReason.ImplicitlyObjC))
  else
    let isGetterOrSetter := isGetterOrSetterAccessor VD in
    if EnableSwift3ObjCInference (LangOpts ctx) then
      mkMarking (Some (reasonOf ObjCReason.ExplicitlyDynamic))
        (if match WarnSwift3ObjCInference (LangOpts ctx) with
            | WarnNone => false
            | _ => true
            end && negb isGetterOrSetter
         then [objc_inference_swift3_dynamic] else [])
        None
    else
      mkMarking (Some (reasonOf ObjCReason.ImplicitlyObjC))
        [dynamic_requires_objc (getFullName VD)] None.

(** The end of [shouldMarkAsObjC] under the inference rules of Swift 3:
    members of classes whose hierarchy originates in Objective-C. *)
Definition inferFromObjCSubclass (VD : ValueDecl) (info : MemberInfo)
    (allowImplicit : bool) : Marking :=
  if negb (EnableSwift3ObjCInference (LangOpts ctx)) then decided None
  else if negb (canInferImplicitObjC VD info allowImplicit) then decided None
  else
    match getAsClassOrClassExtensionContext (getDeclContext VD) with
    | Some classDecl =>
        if contextClassIsForeign info then decided None
        else
          match contextClassObjCAncestry info with
          | OCK_NonObjC => decided None
          | _ =>
              decided (Some (reasonOf (if isImplicit info
                                       then ObjCReason.ImplicitlyObjC
                                       else ObjCReason.MemberOfObjCSubclass)))
          end
    | None => decided None
    end.

(** Figure out if a declaration should be exported to Objective-C. *)
Definition shouldMarkAsObjC (D : MarkedDecl) (allowImplicit : bool)
  : Marking :=
  match D with
  | ClassToBeMarked classDecl => shouldMarkClassAsObjC classDecl
  | MemberToBeMarked VD info =>
      let isMemberOfObjCProtocol :=
        match getDeclContext VD with
        | ProtocolContext protocolContext => protocolIsObjC protocolContext
        | _ => false
        end in
      if match getObjCAttr VD with Some _ => true | None => false end then
        decided (Some (reasonOf ObjCReason.ExplicitlyObjC))
      else if hasIBOutletAttr info then
        decided (Some (reasonOf ObjCReason.ExplicitlyIBOutlet))
      else if hasIBActionAttr info then
        decided (Some (reasonOf ObjCReason.ExplicitlyIBAction))
      else if hasIBInspectableAttr info then
        decided (Some (reasonOf ObjCReason.ExplicitlyIBInspectable))
      else if hasGKInspectableAttr info then
        decided (Some (reasonOf ObjCReason.ExplicitlyGKInspectable))
      else if hasNSManagedAttr info then
        decided (Some (reasonOf ObjCReason.ExplicitlyNSManaged))
      else if isMemberOfObjCProtocol then
        decided (Some (reasonOf ObjCReason.MemberOfObjCProtocol))
      else if match getNonObjCAttr VD with Some _ => true | None => false end
              || match getDeclContext VD with
                 | ExtensionContext ext _ => extensionHasNonObjCAttr ext
                 | _ => false
                 end then
        decided None
      else if isMemberOfObjCClassExtension VD then
        decided (Some (reasonOf ObjCReason.MemberOfObjCExtension))
      else if isMemberOfObjCMembersClass VD &&
              canInferImplicitObjC VD info allowImplicit then
        decided (Some (reasonOf ObjCReason.MemberOfObjCMembersClass))
      else if match getOverriddenDecl VD with
              | Some overridden => isObjC overridden
              | None => false
              end then
        decided (Some (reasonOf ObjCReason.OverridesObjC))
      else
        match
          match getAsClassOrClassExtensionContext (getDeclContext VD) with
          | Some _ => findAnyWitnessedObjCRequirement info
          | None => []
          end
        with
        | front :: _ => decided (Some (witnessToObjC front))
        | [] =>
            match getDynamicAttr VD with
            | Some attr => inferFromDynamic VD attr
            | None => inferFromObjCSubclass VD info allowImplicit
            end
        end
  end.

End Inference.

(** ** Properties and subscripts

    The checks of a variable and of a subscript call the functions
    above and emit three diagnostics of their own. *)

Inductive StorageDiag : Type :=
| objc_invalid_on_var (attrKind : nat)
| objc_invalid_subscript_key_type (attrKind : nat) (indices : Ty)
| objc_invalid_on_subscript (attrKind : nat)
(* a diagnostic of the functions above *)
| earlier (d : Diag).

(** The outcome of these checks: as [Outcome], over the larger set of
    diagnostics. *)
Inductive StorageOutcome (A : Type) : Type :=
| SAbort (msg : string)
| SDone (a : A) (diags : list StorageDiag).

Arguments SAbort {A} msg.
Arguments SDone {A} a diags.

Definition sret {A} (a : A) : StorageOutcome A := SDone a [].

Definition sbind {A B} (c : StorageOutcome A) (k : A -> StorageOutcome B)
  : StorageOutcome B :=
  match c with
  | SAbort m => SAbort m
  | SDone a ds =>
      match k a with
      | SAbort m => SAbort m
      | SDone b ds' => SDone b (ds ++ ds')
      end
  end.

Definition sdiagnose (d : StorageDiag) : StorageOutcome unit := SDone tt [d].

(** A call of one of the functions above. *)
Definition call {A} (c : Outcome A) : StorageOutcome A :=
  match c with
  | Abort m => SAbort m
  | Done a ds => SDone a (map earlier ds)
  end.

Declare Scope storage_scope.
Delimit Scope storage_scope with storage.

Notation "x <- c ;; k" := (sbind c (fun x => k))
  (at level 61, c at next level, right associativity) : storage_scope.
Notation "c ;;; k" := (sbind c (fun _ => k))
  (at level 61, right associativity) : storage_scope.

Definition saborts {A} (c : StorageOutcome A) : bool :=
  match c with SAbort _ => true | SDone _ _ => false end.

Definition svalue {A} (c : StorageOutcome A) : option A :=
  match c with SAbort _ => None | SDone a _ => Some a end.

Definition semitted {A} (c : StorageOutcome A) : list StorageDiag :=
  match c with SAbort _ => [] | SDone _ ds => ds end.

(** The interface type of a variable: a type, or a type under [weak] or
    [unowned] storage. *)
Inductive VarType : Type :=
| ReferenceStorageType (referent : Ty)
| PlainType (t : Ty).

Record VarDecl : Type := mkVarDecl {
  varAsValueDecl : ValueDecl;
  varIsInvalid : bool;
  getInterfaceType : VarType
}.

Inductive ObjCSubscriptKind : Type :=
| OSK_None | OSK_Indexed | OSK_Keyed.

Record SubscriptDecl : Type := mkSubscriptDecl {
  subscriptAsValueDecl : ValueDecl;
  (* getIndicesInterfaceType()->getWithoutImmediateLabel() *)
  getIndicesType : Ty;
  getElementInterfaceType : Ty;
  getObjCSubscriptKind : ObjCSubscriptKind
}.

(** The declaration passed to [canBeRepresentedInObjC]. *)
Inductive CheckedDecl : Type :=
| FunctionToCheck (func : ValueDecl)
| VariableToCheck (var : VarDecl)
| SubscriptToCheck (subscript : SubscriptDecl)
| OtherDeclToCheck.

Section Storage.

Context {Q : SemaQueries}.

Open Scope storage_scope.

(** Modelled from the API: [mapTypeIntoContext] substitutes inside the
    type and keeps the storage; [diagnoseTypeNotRepresentableInObjC]
    has no case for a type under reference storage, which is none of
    the kinds of type it distinguishes. *)
Definition mapVarTypeIntoContext (dc : ValueDecl) (t : VarType) : VarType :=
  match t with
  | ReferenceStorageType referent =>
      ReferenceStorageType (mapTypeIntoContext dc referent)
  | PlainType u => PlainType (mapTypeIntoContext dc u)
  end.

Definition diagnoseVarTypeNotRepresentableInObjC (t : VarType)
  : Outcome unit :=
  match t with
  | ReferenceStorageType _ => ret tt
  | PlainType u => diagnoseTypeNotRepresentableInObjC u
  end.

(** [isRepresentableInObjC] for a variable. *)
Definition isRepresentableInObjC_Var (VD : VarDecl) (Reason : ObjCReason)
  : StorageOutcome bool :=
  let decl := varAsValueDecl VD in
  if varIsInvalid VD then sret false
  else
    let T :=
      match mapVarTypeIntoContext decl (getInterfaceType VD) with
      | ReferenceStorageType referent =>
          (* look through @weak and @unowned *)
          referent
      | PlainType T => T
      end in
    let Result := isRepresentableIn decl T in
    let Diagnose := shouldDiagnoseObjCReason Reason ctx in
    inExtension <-
      (if Result then call (checkObjCInExtensionContext decl Diagnose)
       else sret false) ;;
    if inExtension then sret false
    else
      inForeignClass <- call (checkObjCInForeignClassContext decl Reason) ;;
      if inForeignClass then sret false
      else if negb Diagnose || Result then sret Result
      else
        k <- call (getObjCDiagnosticAttrKind Reason) ;;
        sdiagnose (objc_invalid_on_var k) ;;;
        call (diagnoseVarTypeNotRepresentableInObjC (getInterfaceType VD)) ;;;
        call (describeObjCReason decl Reason) ;;;
        sret Result.

(** [isRepresentableInObjC] for a subscript. *)
Definition isRepresentableInObjC_Subscript (SD : SubscriptDecl)
    (Reason : ObjCReason) : StorageOutcome bool :=
  let decl := subscriptAsValueDecl SD in
  let Diagnose := shouldDiagnoseObjCReason Reason ctx in
  inForeignClass <- call (checkObjCInForeignClassContext decl Reason) ;;
  if inForeignClass then sret false
  else
    (* Figure out the type of the indices. *)
    let IndicesType := getIndicesType SD in
    if hasError IndicesType then sret false
    else
      let IndicesResult := isRepresentableIn decl IndicesType in
      let ElementType := getElementInterfaceType SD in
      let ElementResult := isRepresentableIn decl ElementType in
      let Result := IndicesResult && ElementResult in
      inExtension <-
        (if Result then call (checkObjCInExtensionContext decl Diagnose)
         else sret false) ;;
      if inExtension then sret false
      else if Result &&
              match getObjCSubscriptKind SD with
              | OSK_None => true
              | _ => false
              end then
        (* Make sure we know how to map the selector appropriately. *)
        k <- call (getObjCDiagnosticAttrKind Reason) ;;
        sdiagnose (objc_invalid_subscript_key_type k IndicesType) ;;;
        sret false
      else if negb Diagnose || Result then sret Result
      else
        k <- call (getObjCDiagnosticAttrKind Reason) ;;
        sdiagnose (objc_invalid_on_subscript k) ;;;
        call (diagnoseTypeNotRepresentableInObjC
                (if negb IndicesResult then IndicesType else ElementType)) ;;;
        call (describeObjCReason decl Reason) ;;;
        sret Result.

Definition canBeRepresentedInObjC (decl : CheckedDecl) : StorageOutcome bool :=
  if negb (EnableObjCInterop (LangOpts ctx)) then sret false
  else
    match decl with
    | FunctionToCheck func =>
        r <- call (isRepresentableInObjC func
                     (reasonOf ObjCReason.MemberOfObjCMembersClass)) ;;
        sret (fst r)
    | VariableToCheck var =>
        isRepresentableInObjC_Var var
          (reasonOf ObjCReason.MemberOfObjCMembersClass)
    | SubscriptToCheck subscript =>
        isRepresentableInObjC_Subscript subscript
          (reasonOf ObjCReason.MemberOfObjCMembersClass)
    | OtherDeclToCheck => sret false
    end.

End Storage.

(** ** Objective-C-specific types

    The types [NSObject], [NSError] and [Selector] are looked up in
    their modules once and kept in three caches of the type checker. *)

Module ObjCTypes.

(** A declaration found by a lookup: a nominal type, with its declared
    type, or anything else. *)
Inductive FoundDecl : Type :=
| FoundNominal (declaredType : Ty)
| FoundOther.

(** A module, as [lookupQualified] with [NL_OnlyTypes] sees it, and the
    modules that [getLoadedModule] finds. *)
Definition ModuleDecl : Type := Identifier -> list FoundDecl.
Definition LoadedModules : Type := Identifier -> option ModuleDecl.

Definition Id_ObjectiveC : Identifier := "ObjectiveC".
Definition Id_Foundation : Identifier := "Foundation".
Definition Id_Selector : Identifier := "Selector".
Definition Id_NSObject : Identifier := "NSObject".
Definition Id_NSError : Identifier := "NSError".

(** The loop over the declarations found: the declared type of the
    first nominal type. *)
Fixpoint firstNominalType (decls : list FoundDecl) : option Ty :=
  match decls with
  | [] => None
  | FoundNominal declaredType :: _ => Some declaredType
  | FoundOther :: rest => firstNominalType rest
  end.

(** [getObjectiveCNominalType]: the result and the cache afterwards. *)
Definition getObjectiveCNominalType (cache : option Ty)
    (ModuleName TypeName : Identifier) (loaded : LoadedModules)
  : option Ty * option Ty :=
  match cache with
  | Some _ => (cache, cache)
  | None =>
      match loaded ModuleName with
      | None => (None, cache)
      | Some module =>
          match firstNominalType (module TypeName) with
          | Some declared => (Some declared, Some declared)
          | None => (None, cache)
          end
      end
  end.

Record TypeCaches : Type := mkTypeCaches {
  NSObjectType : option Ty;
  NSErrorType : option Ty;
  ObjCSelectorType : option Ty
}.

Definition getNSObjectType (tc : TypeCaches) (loaded : LoadedModules)
  : option Ty * TypeCaches :=
  let r := getObjectiveCNominalType (NSObjectType tc) Id_ObjectiveC
                                    Id_NSObject loaded in
  (fst r, mkTypeCaches (snd r) (NSErrorType tc) (ObjCSelectorType tc)).

Definition getNSErrorType (tc : TypeCaches) (loaded : LoadedModules)
  : option Ty * TypeCaches :=
  let r := getObjectiveCNominalType (NSErrorType tc) Id_Foundation
                                    Id_NSError loaded in
  (fst r, mkTypeCaches (NSObjectType tc) (snd r) (ObjCSelectorType tc)).

Definition getObjCSelectorType (tc : TypeCaches) (loaded : LoadedModules)
  : option Ty * TypeCaches :=
  let r := getObjectiveCNominalType (ObjCSelectorType tc) Id_ObjectiveC
                                    Id_Selector loaded in
  (fst r, mkTypeCaches (NSObjectType tc) (NSErrorType tc) (snd r)).

End ObjCTypes.

(** ** Notions of the specification *)

(** A reason is well formed for a declaration when what
    [describeObjCReason] dereferences is there: the overridden
    declaration of an override, the requirement of a witness. *)
Definition reasonWellFormed (VD : ValueDecl) (Reason : ObjCReason) : bool :=
  match reasonKind Reason with
  | ObjCReason.OverridesObjC =>
      match getOverriddenDecl VD with Some _ => true | None => false end
  | ObjCReason.WitnessToObjC =>
      match getObjCRequirement Reason with Some _ => true | None => false end
  | _ => true
  end.

(** A parameter at index [i] that does not pass: it is variadic or
    in-out, or its type is not representable and the exception for [()]
    does not apply to it. *)
Definition parameterFails {Q : SemaQueries} (AFD : ValueDecl) (i : nat)
    (p : ParamDecl) : bool :=
  isVariadic p || isInOut p ||
  (negb (isRepresentableIn AFD (getType p)) &&
   negb (isReplacedErrorParameter AFD p i)).

(** The parameters from index [i] on all pass. *)
Fixpoint allParametersPass {Q : SemaQueries} (AFD : ValueDecl) (i : nat)
    (PL : list ParamDecl) : bool :=
  match PL with
  | [] => true
  | p :: rest =>
      negb (parameterFails AFD i p) && allParametersPass AFD (S i) rest
  end.

(** The diagnostics that say why a type is not representable. *)
Definition isTypeNote (d : Diag) : bool :=
  match d with
  | not_objc_empty_tuple | not_objc_tuple | not_objc_swift_class
  | not_objc_swift_struct | not_objc_swift_enum
  | not_objc_empty_protocol_composition | not_objc_class_constraint _
  | not_objc_protocol _ | not_objc_error_protocol_composition
  | not_objc_generic_type_param | not_objc_function_type_throwing
  | not_objc_function_type_param => true
  | _ => false
  end.

(** The diagnostics that are emitted whatever the reason. *)
Definition isUngatedDiagnostic (d : Diag) : bool :=
  match d with
  | objc_operator | objc_operator_proto | broken_bool => true
  | _ => false
  end.

(** The context, the generic parameters and the name of a function allow
    it to be [@objc]: it is not a member of a CF or runtime-only class,
    has no generic parameters of its own, is not in a constrained
    extension nor in an extension of a class whose generic ancestor is
    not imported, and is not an operator. *)
Definition contextAllowsObjC (AFD : ValueDecl) : bool :=
  match getAsClassOrClassExtensionContext (getDeclContext AFD) with
  | Some clas =>
      match getForeignClassKind clas with FK_Normal => true | _ => false end
  | None => true
  end &&
  negb (getGenericParams AFD) &&
  match getDeclContext AFD with
  | ExtensionContext ED _ =>
      negb (getTrailingWhereClause ED) &&
      match getGenericAncestor ED with
      | Some hasClangNode => hasClangNode
      | None => true
      end
  | _ => true
  end &&
  negb (isOperator AFD).

(** The result type of a function allows it to be [@objc]: in context
    it has an error, is [Void], is uninhabited or is representable. *)
Definition resultAllowsObjC {Q : SemaQueries} (FD : ValueDecl) : bool :=
  match getDeclKind FD with
  | KFunc resultInterfaceType _ | KAccessor _ _ resultInterfaceType =>
      let ResultType := mapTypeIntoContext FD resultInterfaceType in
      hasError ResultType || isVoid ResultType ||
      isUninhabited ResultType || isRepresentableIn FD ResultType
  | _ => true
  end.

(** The parameter list allows the function to be [@objc]: the
    initializer has the special form, or every parameter passes. *)
Definition parametersAllowObjC {Q : SemaQueries} (AFD : ValueDecl) : bool :=
  (isaConstructorDecl AFD && isObjCZeroParameterWithLongSelector AFD) ||
  allParametersPass AFD 0 (getParameters AFD).

(** An accessor can be [@objc]: it is a getter or a setter, and its
    storage is [@objc] or the reason is [@_cdecl] or a witness. *)
Definition accessorAllowsObjC (kind : AccessorKind) (storage : StorageDecl)
    (Reason : ObjCReason) : bool :=
  (storageIsObjC storage ||
   ObjCReason.eqb (reasonKind Reason) ObjCReason.ExplicitlyCDecl ||
   ObjCReason.eqb (reasonKind Reason) ObjCReason.WitnessToObjC) &&
  match kind with AK_Get | AK_Set => true | _ => false end.

(** The diagnostics that describe the reason. *)
Definition isReasonNote (d : Diag) : bool :=
  match d with
  | objc_inferring_on_objc_protocol_member
  | objc_overriding_objc_decl _ _
  | objc_witness_objc_requirement _ _ => true
  | _ => false
  end.

(** A type that is a function type after looking through one level of
    optionality. *)
Definition isFunctionThroughOptional (t : Ty) : bool :=
  match t with
  | FunctionType _ _ _ => true
  | OptionalType (FunctionType _ _ _) => true
  | _ => false
  end.

(** The length of the longest prefix whose elements satisfy [p]. *)
Fixpoint leading {A} (p : A -> bool) (l : list A) : nat :=
  match l with
  | [] => 0
  | x :: rest => if p x then S (leading p rest) else 0
  end.

(** The number of trailing parameters whose type is a function type,
    looking through one level of optionality. *)
Definition trailingFunctionParameters (ps : list ParamDecl) : nat :=
  leading (fun p => isFunctionThroughOptional (getType p)) (rev ps).




(** The type of the boolean sentinel: the declared type of the foreign
    boolean structure, or of the standard one when the first is
    missing. *)
Definition sentinelBooleanType (c : ASTContext) : option Ty :=
  match getObjCBoolDecl c with
  | Some d => Some (getDeclaredType d)
  | None =>
      match getBoolDecl c with
      | Some d => Some (getDeclaredType d)
      | None => None
      end
  end.

(** An attribute with a name that the user wrote. *)
Definition hasExplicitName (attr : option ObjCAttr) : bool :=
  match attr with
  | Some a => hasName a && negb (isNameImplicit a)
  | None => false
  end.

Definition objcNameOf (d : ValueDecl) : option ObjCSelector :=
  match getObjCAttr d with
  | Some a => getName a
  | None => None
  end.

Definition isZeroOrNilResult (k : FEC.Kind) : bool :=
  match k with
  | FEC.ZeroResult | FEC.NilResult => true
  | _ => false
  end.

(** The Objective-C name of an overridden declaration: the selector of
    a method, the property name of a variable as a selector without
    arguments. *)
Definition overriddenObjCName {Q : SemaQueries} (A : ValueDecl)
  : ObjCSelector :=
  if isaAbstractFunctionDecl A then getObjCSelector A
  else mkSelector 0 [getObjCPropertyName A].

(** The diagnostic on a name written on [B] that is not the name of
    the overridden declaration [A]: for a method the two selectors, for
    a property the first piece of the written name and the name of the
    property. *)
Definition nameMismatch {Q : SemaQueries} (B A : ValueDecl) : Diag :=
  let written :=
    match objcNameOf B with
    | Some name => name
    | None => mkSelector 0 []
    end in
  if isaAbstractFunctionDecl A then
    objc_override_method_selector_mismatch written (getObjCSelector A)
  else
    objc_override_property_name_mismatch
      (hd "" (getSelectorPieces written)) (getObjCPropertyName A).

(** The declaration whose name an override adopts: the overridden
    declaration when it is [@objc] and a method or a property. *)
Definition adoptedOverride (decl : ValueDecl) : option ValueDecl :=
  match getOverriddenDecl decl with
  | Some overridden =>
      if isObjC overridden &&
         (isaAbstractFunctionDecl overridden || isaVarDecl overridden)
      then Some overridden else None
  | None => None
  end.

(** Every requirement of the list has the Objective-C name [sel]. *)
Definition allNamed (sel : ObjCSelector) (reqs : list Requirement) : bool :=
  forallb (fun req => ObjCSelector_eqb sel (reqObjCRuntimeName req)) reqs.

Definition attrIsSwift3Inferred (attr : option ObjCAttr) : bool :=
  match attr with Some a => isSwift3Inferred a | None => false end.

(** The error convention [markAsObjC] has at hand for a throwing
    function: the one of the overridden method, for a method of a class
    that overrides a method with a convention, else the one passed in. *)
Definition availableErrorConvention (D : ValueDecl) (ec : option FEC.t)
  : option FEC.t :=
  match getAsClassOrClassExtensionContext (getDeclContext D),
        getOverriddenDecl D with
  | Some _, Some base =>
      match getForeignErrorConvention base with
      | Some c => Some c
      | None => ec
      end
  | _, _ => ec
  end.

(** The reason [markAsObjC] goes on with: in front of a [@nonobjc]
    attribute a reason that is not diagnosed becomes [ImplicitlyObjC]. *)
Definition reasonAfterNonObjC {Q : SemaQueries} (D : ValueDecl)
    (reason : ObjCReason) : ObjCReason :=
  match getNonObjCAttr D with
  | Some _ =>
      if negb (shouldDiagnoseObjCReason reason ctx)
      then reasonOf ObjCReason.ImplicitlyObjC else reason
  | None => reason
  end.

(** Two declarations that differ at most in the [@objc] flag, the
    attributes and the error convention. *)
Definition sameDeclaration (D D' : ValueDecl) : Prop :=
  getFullName D' = getFullName D /\
  getDeclKind D' = getDeclKind D /\
  getDeclContext D' = getDeclContext D /\
  getGenericParams D' = getGenericParams D /\
  isOperator D' = isOperator D /\
  isInstanceMember D' = isInstanceMember D /\
  getParameters D' = getParameters D /\
  getOverriddenDecl D' = getOverriddenDecl D /\
  findWitnessedObjCRequirements D' = findWitnessedObjCRequirements D /\
  hasParentSourceFile D' = hasParentSourceFile D.

Definition isNone {A} (o : option A) : bool :=
  match o with Some _ => false | None => true end.

(** The declaration with its [@objc] attribute marked as inferred by
    the Swift 3 rules, as the end of [markAsObjC] leaves it. *)
Definition swift3Marked (D : ValueDecl) : ValueDecl :=
  setObjCAttr D
    (Some (match getObjCAttr D with
           | Some attr => mkObjCAttr (getName attr) (isNameImplicit attr) true
           | None => mkObjCAttr None false true
           end)).

(** The diagnostics of [markAsObjC], part by part: the conflict with a
    [@nonobjc] attribute, *)
Definition nonObjCConflict {Q : SemaQueries} (D : ValueDecl)
    (reason : ObjCReason) : list Diag :=
  match getNonObjCAttr D with
  | Some _ =>
      [nonobjc_not_allowed
         (reasonCode (reasonKind (reasonAfterNonObjC D reason)))]
  | None => []
  end.

(** the diagnostics of name inference, *)
Definition isNameDiagnostic (d : Diag) : bool :=
  match d with
  | objc_override_method_selector_mismatch _ _
  | objc_override_property_name_mismatch _ _
  | overridden_here
  | objc_ambiguous_inference _ _ _
  | objc_ambiguous_inference_candidate _ _ _
  | req_near_match_nonobjc => true
  | _ => false
  end.

(** the complaint about a class method of a class with a selector that
    is not permitted, where [registered] is the method as recorded, *)
Definition classMethodComplaint {Q : SemaQueries} (D registered : ValueDecl)
  : list Diag :=
  match getAsClassOrClassExtensionContext (getDeclContext D) with
  | Some _ =>
      if isaAbstractFunctionDecl D && negb (isInstanceMember D) then
        match isForbiddenSelector (getObjCSelector registered) with
        | Some d => [d]
        | None => []
        end
      else []
  | None => []
  end.

(** and the warnings about the inference rules of Swift 3. *)
Definition swift3Warnings {Q : SemaQueries} (D : ValueDecl)
    (reason : ObjCReason) : list Diag :=
  if ObjCReason.eqb (reasonKind (reasonAfterNonObjC D reason))
                    ObjCReason.MemberOfObjCSubclass &&
     match WarnSwift3ObjCInference (LangOpts ctx) with
     | WarnComplete => true
     | _ => false
     end &&
     negb (isGetterOrSetterAccessor D)
  then [objc_inference_swift3_objc_derived; objc_inference_swift3_addobjc;
        objc_inference_swift3_addnonobjc]
  else [].

(** The kinds of reason that [shouldMarkAsObjC] can give: all but
    [@_cdecl] and the reason for accessors. *)
Definition isInferableKind (k : ObjCReason.Kind) : bool :=
  match k with
  | ObjCReason.ExplicitlyCDecl | ObjCReason.Accessor => false
  | _ => true
  end.

(** The kinds for an attribute written on the declaration and for
    membership in an [@objc] protocol. *)
Definition isExplicitKind (k : ObjCReason.Kind) : bool :=
  match k with
  | ObjCReason.ExplicitlyObjC | ObjCReason.ExplicitlyIBOutlet
  | ObjCReason.ExplicitlyIBAction | ObjCReason.ExplicitlyIBInspectable
  | ObjCReason.ExplicitlyGKInspectable | ObjCReason.ExplicitlyNSManaged
  | ObjCReason.MemberOfObjCProtocol => true
  | _ => false
  end.

(** The member has an attribute that implies [@objc], or is a member of
    an [@objc] protocol. *)
Definition hasExplicitObjCReason (VD : ValueDecl) (info : MemberInfo) : bool :=
  match getObjCAttr VD with Some _ => true | None => false end ||
  hasIBOutletAttr info || hasIBActionAttr info ||
  hasIBInspectableAttr info || hasGKInspectableAttr info ||
  hasNSManagedAttr info ||
  match getDeclContext VD with
  | ProtocolContext p => protocolIsObjC p
  | _ => false
  end.

(** The member or the extension it is in has a [@nonobjc] attribute. *)
Definition hasNonObjC (VD : ValueDecl) : bool :=
  match getNonObjCAttr VD with Some _ => true | None => false end ||
  match getDeclContext VD with
  | ExtensionContext ext _ => extensionHasNonObjCAttr ext
  | _ => false
  end.

(** The warnings of [markAsObjC] about the inference rules of Swift 3. *)
Definition isSwift3Warning (d : Diag) : bool :=
  match d with
  | objc_inference_swift3_objc_derived
  | objc_inference_swift3_addobjc
  | objc_inference_swift3_addnonobjc => true
  | _ => false
  end.

(** The kinds that only the inference rules of Swift 3 give. *)
Definition isSwift3Kind (k : ObjCReason.Kind) : bool :=
  match k with
  | ObjCReason.ExplicitlyDynamic | ObjCReason.MemberOfObjCSubclass => true
  | _ => false
  end.

(** The declaration is not a member of a CF or runtime-only class. *)
Definition notInForeignClass (VD : ValueDecl) : bool :=
  match getAsClassOrClassExtensionContext (getDeclContext VD) with
  | Some clas =>
      match getForeignClassKind clas with FK_Normal => true | _ => false end
  | None => true
  end.

(** The declaration is not in a constrained extension nor in an
    extension of a class whose generic ancestor is not imported. *)
Definition notInGenericExtension (VD : ValueDecl) : bool :=
  match getDeclContext VD with
  | ExtensionContext ED _ =>
      negb (getTrailingWhereClause ED) &&
      match getGenericAncestor ED with
      | Some hasClangNode => hasClangNode
      | None => true
      end
  | _ => true
  end.

(** The type of a variable without its storage. *)
Definition withoutStorage (t : VarType) : Ty :=
  match t with
  | ReferenceStorageType referent => referent
  | PlainType u => u
  end.

(** The type of a variable is representable, seen through [weak] and
    [unowned]. *)
Definition variableTypeAllowsObjC {Q : SemaQueries} (VD : VarDecl) : bool :=
  isRepresentableIn (varAsValueDecl VD)
    (mapTypeIntoContext (varAsValueDecl VD)
       (withoutStorage (getInterfaceType VD))).

(** The types of the indices and of the element are representable. *)
Definition subscriptTypesAllowObjC {Q : SemaQueries} (SD : SubscriptDecl)
  : bool :=
  isRepresentableIn (subscriptAsValueDecl SD) (getIndicesType SD) &&
  isRepresentableIn (subscriptAsValueDecl SD) (getElementInterfaceType SD).

Definition hasNoSubscriptKind (SD : SubscriptDecl) : bool :=
  match getObjCSubscriptKind SD with OSK_None => true | _ => false end.

(** The subscript gets as far as the test of its kind, with types that
    are representable. *)
Definition reachesSubscriptKind {Q : SemaQueries} (SD : SubscriptDecl)
  : bool :=
  notInForeignClass (subscriptAsValueDecl SD) &&
  negb (hasError (getIndicesType SD)) &&
  subscriptTypesAllowObjC SD &&
  notInGenericExtension (subscriptAsValueDecl SD).

Definition isEarlier (d : StorageDiag) : bool :=
  match d with earlier _ => true | _ => false end.

(** ** Concrete queries and declarations

    A small instance of the queries, used to evaluate the functions above
    on concrete declarations. *)

Definition isUppercase (c : Ascii.ascii) : bool :=
  let n := Ascii.nat_of_ascii c in Nat.leb 65 n && Nat.leb n 90.

Fixpoint hasUppercase (s : string) : bool :=
  match s with
  | EmptyString => false
  | String c rest => isUppercase c || hasUppercase rest
  end.

(** Modelled from the spec: [camel_case::getLastWord] is not part of this
    file; section 4.4 calls its result the trailing word of a fragment.
    Here the trailing word starts at the last uppercase letter. *)
Fixpoint lastCamelCaseWord (s : string) : string :=
  match s with
  | EmptyString => EmptyString
  | String c rest =>
      if hasUppercase rest then lastCamelCaseWord rest else String c rest
  end.

Definition enumerationOrder (k : ObjCReason.Kind) : nat :=
  match k with
  | ObjCReason.ExplicitlyCDecl => 0
  | ObjCReason.ExplicitlyDynamic => 1
  | ObjCReason.ExplicitlyObjC => 2
  | ObjCReason.ExplicitlyIBOutlet => 3
  | ObjCReason.ExplicitlyIBAction => 4
  | ObjCReason.ExplicitlyNSManaged => 5
  | ObjCReason.MemberOfObjCProtocol => 6
  | ObjCReason.OverridesObjC => 7
  | ObjCReason.WitnessToObjC => 8
  | ObjCReason.ImplicitlyObjC => 9
  | ObjCReason.ExplicitlyIBInspectable => 10
  | ObjCReason.ExplicitlyGKInspectable => 11
  | ObjCReason.MemberOfObjCExtension => 12
  | ObjCReason.MemberOfObjCSubclass => 13
  | ObjCReason.MemberOfObjCMembersClass => 14
  | ObjCReason.Accessor => 15
  end.

Definition NSErrorClass : ClassInfo := mkClassInfo "NSError" true.
Definition IntType : Ty := StructType "Int".
Definition StringType : Ty := StructType "String".
Definition PointType : Ty := StructType "Point".
Definition VoidType : Ty := TupleType [].
Definition CallbackType : Ty := FunctionType [IntType] VoidType false.

(** A classification in the manner of the compiler: integers are trivial,
    [@objc] classes are objects, [String] is bridged, a function type is
    trivially representable, optionals of objects and of bridged values
    keep their classification, the rest is not representable. *)
Definition exampleClassify (t : Ty) : ForeignRepresentableKind :=
  let base (u : Ty) :=
    match u with
    | StructType "Int" => FRK_Trivial
    | StructType "String" => FRK_Bridged
    | ClassType c => if classIsObjC c then FRK_Object else FRK_None
    | FunctionType _ _ false => FRK_Trivial
    | _ => FRK_None
    end in
  match t with
  | OptionalType u =>
      match base u with
      | FRK_Trivial => match u with
                       | FunctionType _ _ _ => FRK_Trivial
                       | _ => FRK_None
                       end
      | k => k
      end
  | _ => base t
  end.

Definition exampleSelector (d : ValueDecl) : ObjCSelector :=
  match getObjCAttr d with
  | Some (mkObjCAttr (Some n) _ _) => n
  | _ => mkSelector (List.length (getParameters d)) [getFullName d]
  end.

Definition exampleContext (objcBool swiftBool : option NominalTypeDecl)
    (swift3 : bool) : ASTContext :=
  mkASTContext (mkLangOptions swift3 WarnNone true true false)
               objcBool swiftBool
               (mkNominal "AutoreleasingUnsafeMutablePointer").

Definition exampleQueries (c : ASTContext) : SemaQueries :=
  Build_SemaQueries enumerationOrder (fun _ => exampleClassify)
                    lastCamelCaseWord (fun _ t => t)
                    (fun _ => Some (ClassType NSErrorClass))
                    exampleSelector getFullName c.

Definition swift4 : ASTContext :=
  exampleContext (Some (mkNominal "ObjCBool")) (Some (mkNominal "Bool"))
                 false.

(** A method [name] of an ordinary class, with the given parameters and
    kind, no attribute and no override. *)
Definition methodOf (name : DeclName) (k : DeclKind) (ps : list ParamDecl)
  : ValueDecl :=
  mkDecl name k (ClassContext (mkClassDecl "C" FK_Normal false))
         false false true ps None None None None false None [] true.

Definition param (name : Identifier) (t : Ty) : ParamDecl :=
  mkParam name false false t.

Definition variadicParam (name : Identifier) (t : Ty) : ParamDecl :=
  mkParam name true false t.

Definition explicitly : ObjCReason := reasonOf ObjCReason.ExplicitlyObjC.
Definition silently : ObjCReason :=
  reasonOf ObjCReason.MemberOfObjCMembersClass.

(** [func draw(at: Point)]: the parameter is a Swift structure. *)
Definition drawAt : ValueDecl :=
  methodOf "draw" (KFunc VoidType false) [param "at" PointType].

(** [func save(id: Int, done: (Int) -> (), then: ((Int) -> ())?) throws] *)
Definition saveThrowing : ValueDecl :=
  methodOf "save" (KFunc VoidType true)
           [param "id" IntType; param "done" CallbackType;
            param "then" (OptionalType CallbackType)].

(** [func log(level: Int, items: Int..., at: Point)] *)
Definition logVariadic : ValueDecl :=
  methodOf "log" (KFunc VoidType false)
           [param "level" IntType; variadicParam "items" IntType;
            param "at" PointType].

(** A method with the attribute [@objc(name)]. *)
Definition named (d : ValueDecl) (pieces : list Identifier) : ValueDecl :=
  mkDecl (getFullName d) (getDeclKind d) (getDeclContext d)
         (getGenericParams d) (isOperator d) (isInstanceMember d)
         (getParameters d)
         (Some (mkObjCAttr (Some (mkSelector (List.length pieces) pieces))
                           false false))
         (getDynamicAttr d) (getNonObjCAttr d) (getOverriddenDecl d)
         (isObjC d) (getForeignErrorConvention d)
         (findWitnessedObjCRequirements d) (hasParentSourceFile d).



(** [func title() throws -> String] and [func title() throws -> String?] *)
Definition titleThrowing : ValueDecl :=
  methodOf "title" (KFunc StringType true) [].

Definition optionalTitleThrowing : ValueDecl :=
  methodOf "title" (KFunc (OptionalType StringType) true) [].

(** A context without any boolean structure in the standard library. *)
Definition noBooleans : ASTContext := exampleContext None None false.

(** A throwing method without parameters and result. *)
Definition flushThrowing : ValueDecl :=
  methodOf "flush" (KFunc VoidType true) [].

(** An imported Objective-C method whose error convention has the
    non-zero-result kind, and a Swift override of it. *)
Definition importedConvention : FEC.t :=
  FEC.getNonZeroResult 0 FEC.IsNotOwned FEC.IsNotReplaced None
                       (Some IntType).

Definition importedFlush : ValueDecl :=
  mkDecl "flush" (KFunc VoidType true)
         (ClassContext (mkClassDecl "Base" FK_Normal false))
         false false true [] None None None None true
         (Some importedConvention) [] false.

Definition overridingFlush : ValueDecl :=
  mkDecl "flush" (KFunc VoidType true)
         (ClassContext (mkClassDecl "C" FK_Normal false))
         false false true [] None None None (Some importedFlush) false
         None [] true.

Definition overriding : ObjCReason := reasonOf ObjCReason.OverridesObjC.

Definition emptyState : SemaState := mkSemaState false [] [].

(** The convention a check left, and the kind of the convention attached
    to the declaration a finalizer returned. *)
Definition conventionLeftBy (c : Outcome (bool * option FEC.t))
  : option FEC.t :=
  match c with
  | Done (_, ec) _ => ec
  | Abort _ => None
  end.

Definition attachedKind (c : Outcome (ValueDecl * SemaState))
  : option FEC.Kind :=
  match c with
  | Done (D, _) _ => option_map FEC.getKind (getForeignErrorConvention D)
  | Abort _ => None
  end.

Definition swift4Queries : SemaQueries := exampleQueries swift4.
Definition noBooleanQueries : SemaQueries := exampleQueries noBooleans.

(** The convention of [save]: the error parameter goes before the two
    trailing closures. *)
Definition saveConvention : FEC.t :=
  FEC.getZeroResult 1 FEC.IsNotOwned FEC.IsNotReplaced
    (errorParameterTypeOf (Q := swift4Queries) saveThrowing)
    (Some (StructType "ObjCBool")).

(** The getter of an [@objc] property [title]. *)
Definition titleGetter : ValueDecl :=
  methodOf "title" (KAccessor AK_Get (mkStorage true true) StringType) [].

(** [func compare(other: Int) -> Int], marked [@objc], that witnesses two
    requirements with different Objective-C names. *)
Definition compareRequirement : Requirement :=
  mkRequirement "compare" "Comparing" (mkSelector 1 ["compare"]).
Definition isEqualRequirement : Requirement :=
  mkRequirement "compare" "Equating" (mkSelector 1 ["isEqual"]).

Definition compareWitness : ValueDecl :=
  mkDecl "compare" (KFunc IntType false)
         (ClassContext (mkClassDecl "C" FK_Normal false))
         false false true [param "other" IntType] None None None None true
         None [compareRequirement; isEqualRequirement] true.

(** [@nonobjc func draw(at: Point)] *)
Definition nonobjcDraw : ValueDecl :=
  mkDecl "draw" (KFunc VoidType false)
         (ClassContext (mkClassDecl "C" FK_Normal false))
         false false true [param "at" PointType] None None
         (Some (mkNonObjCAttr false)) None false None [] true.

(** The override of [flush] with the attribute [@objc(flushAll:)],
    already marked. *)
Definition renamedFlush : ValueDecl :=
  setIsObjC (named overridingFlush ["flushAll"]) true.

Definition subclassMember : ObjCReason :=
  reasonOf ObjCReason.MemberOfObjCSubclass.


(** [func move(id: Int, to: Point)] *)
Definition moveTo : ValueDecl :=
  methodOf "move" (KFunc VoidType false)
           [param "id" IntType; param "to" PointType].

(** [static func load()] in an ordinary class. *)
Definition classLoad : ValueDecl :=
  mkDecl "load" (KFunc VoidType false)
         (ClassContext (mkClassDecl "C" FK_Normal false))
         false false false [] None None None None false None [] true.

(** An ordinary member: valid, written in the source, internal, without
    further attributes, in a class without [@objc] ancestry. *)
Definition plainMember : MemberInfo :=
  mkMemberInfo false false AL_Internal false false false false false []
               false OCK_NonObjC.

(** [dynamic func draw(at: Point)] *)
Definition dynamicDraw : ValueDecl :=
  mkDecl "draw" (KFunc VoidType false)
         (ClassContext (mkClassDecl "C" FK_Normal false))
         false false true [param "at" PointType] None
         (Some (mkDynamicAttr false false)) None None false None [] true.

Definition implicitly : ObjCReason := reasonOf ObjCReason.ImplicitlyObjC.

(** [weak var delegate: Delegate?], with [Delegate] an [@objc] class. *)
Definition weakDelegate : VarDecl :=
  mkVarDecl (methodOf "delegate" KVar []) false
            (ReferenceStorageType
               (OptionalType (ClassType (mkClassInfo "Delegate" true)))).

(** [subscript(handler: (Int) -> ()) -> Int]: a block is representable
    but is neither an integer nor an object, so that the subscript has
    no Objective-C kind. *)
Definition blockSubscript : SubscriptDecl :=
  mkSubscriptDecl (methodOf "subscript" KSubscript []) CallbackType IntType
                  OSK_None.

(** Only [Foundation] is loaded; looking up [NSError] in it finds a
    function and then the class. *)
Definition foundationOnly : ObjCTypes.LoadedModules :=
  fun ModuleName =>
    if String.eqb ModuleName "Foundation" then
      Some (fun TypeName =>
              if String.eqb TypeName "NSError"
              then [ObjCTypes.FoundOther;
                    ObjCTypes.FoundNominal (ClassType NSErrorClass)]
              else [])
    else None.

Definition noCaches : ObjCTypes.TypeCaches :=
  ObjCTypes.mkTypeCaches None None None.

(** [save] with the implicit name [saveWithId:done:then:error:], set as
    name inference sets the name of an override. *)
Definition saveImplicitlyNamed : ValueDecl :=
  setObjCName saveThrowing
    (mkSelector 4 ["saveWithId"; "done"; "then"; "error"]).

(** [Box<Int>], with [Box] a generic Swift class. *)
Definition BoxOfInt : Ty :=
  BoundGenericClassType (mkClassInfo "Box" false) [IntType].

(** * Properties *)

(** ** Outcomes *)

Lemma bind_Done {A B} (c : Outcome A) (k : A -> Outcome B) b ds :
  bind c k = Done b ds ->
  exists a d1 d2, c = Done a d1 /\ k a = Done b d2 /\ ds = d1 ++ d2.
Proof.
  unfold bind. destruct c as [m | a d1]; [discriminate |].
  destruct (k a) as [m | b' d2] eqn:E; [discriminate |].
  intros H. inversion H; subst. exists a, d1, d2. auto.
Qed.

Lemma value_bind {A B} (c : Outcome A) (k : A -> Outcome B) b :
  value (bind c k) = Some b ->
  exists a, value c = Some a /\ value (k a) = Some b.
Proof.
  unfold bind. destruct c as [m | a d1]; simpl; [discriminate |].
  destruct (k a) as [m | b' d2] eqn:E; simpl; [discriminate |].
  intros H. exists a. rewrite E. auto.
Qed.

Lemma value_ret {A} (a b : A) : value (ret a) = Some b -> a = b.
Proof. simpl. intros H. inversion H. reflexivity. Qed.

Lemma ObjCSelector_eqb_eq (a b : ObjCSelector) :
  ObjCSelector_eqb a b = true <-> a = b.
Proof.
  unfold ObjCSelector_eqb. destruct a as [n l], b as [n' l']; simpl.
  rewrite andb_true_iff, Nat.eqb_eq.
  destruct (list_eq_dec string_dec l l'); split; intros H.
  - destruct H; subst; reflexivity.
  - inversion H; auto.
  - destruct H; discriminate.
  - inversion H; subst; contradiction.
Qed.

Section Properties.

Context {Q : SemaQueries}.

(** ** The diagnosis gate *)

(** C6: [shouldDiagnoseObjCReason] depends only on the kind of the reason
    and on the legacy-inference flag; it is false on the three
    permanently silent reasons whatever the flags; setting the
    legacy-inference flag to the opposite value negates the result for
    the two inspectable-attribute reasons and leaves it unchanged for
    every other reason. *)
Theorem shouldDiagnose_reason_and_flag :
  forall (r r' : ObjCReason) (c c' : ASTContext),
    (reasonKind r = reasonKind r' ->
     EnableSwift3ObjCInference (LangOpts c) =
     EnableSwift3ObjCInference (LangOpts c') ->
     shouldDiagnoseObjCReason r c = shouldDiagnoseObjCReason r' c') /\
    (isPermanentlySilent (reasonKind r) = true ->
     shouldDiagnoseObjCReason r c = false) /\
    shouldDiagnoseObjCReason r
      (withSwift3ObjCInference
         (negb (EnableSwift3ObjCInference (LangOpts c))) c) =
    (if isInspectable (reasonKind r)
     then negb (shouldDiagnoseObjCReason r c)
     else shouldDiagnoseObjCReason r c).
Proof.
  intros r r' c c'. unfold shouldDiagnoseObjCReason. repeat split.
  - intros Hk Hf. rewrite <- Hk, Hf. reflexivity.
  - destruct (reasonKind r); simpl; intros H; try discriminate; reflexivity.
  - destruct (reasonKind r); simpl; reflexivity.
Qed.

(** ** Classification of the reason and aborts *)

Lemma getObjCDiagnosticAttrKind_aborts (r : ObjCReason) :
  aborts (getObjCDiagnosticAttrKind r) = isPermanentlySilent (reasonKind r).
Proof.
  unfold getObjCDiagnosticAttrKind. destruct (reasonKind r); reflexivity.
Qed.

Lemma getObjCDiagnosticAttrKind_Done (r : ObjCReason) :
  shouldDiagnoseObjCReason r ctx = true ->
  getObjCDiagnosticAttrKind r = Done (reasonCode (reasonKind r)) [].
Proof.
  unfold shouldDiagnoseObjCReason, getObjCDiagnosticAttrKind.
  destruct (reasonKind r); simpl; intros H; try discriminate; reflexivity.
Qed.

Lemma describeObjCReason_Done (VD : ValueDecl) (r : ObjCReason) :
  reasonWellFormed VD r = true ->
  exists ds, describeObjCReason VD r = Done tt ds.
Proof.
  unfold reasonWellFormed, describeObjCReason.
  destruct (reasonKind r); simpl; intros H; try (eexists; reflexivity).
  - destruct (getOverriddenDecl VD); [eexists; reflexivity | discriminate].
  - destruct (getObjCRequirement r); [eexists; reflexivity | discriminate].
Qed.

Lemma describeObjCReason_emits (VD : ValueDecl) (r : ObjCReason) d :
  In d (emitted (describeObjCReason VD r)) ->
  match d with
  | objc_inferring_on_objc_protocol_member
  | objc_overriding_objc_decl _ _
  | objc_witness_objc_requirement _ _ => True
  | _ => False
  end.
Proof.
  unfold describeObjCReason.
  destruct (reasonKind r); simpl;
    try tauto;
    try (intros [<- | []]; exact I).
  - destruct (getOverriddenDecl VD); simpl; [intros [<- | []]; exact I | tauto].
  - destruct (getObjCRequirement r); simpl; [intros [<- | []]; exact I | tauto].
Qed.

(** A diagnostic guarded by [Diagnose]: the classification of the reason,
    one diagnostic, then the description of the reason. *)
Lemma guarded_diagnostic_Done (VD : ValueDecl) (r : ObjCReason)
    (mk : nat -> Diag) :
  shouldDiagnoseObjCReason r ctx = true ->
  reasonWellFormed VD r = true ->
  exists ds,
    (k <- getObjCDiagnosticAttrKind r ;;
     diagnose (mk k) ;;; describeObjCReason VD r)
    = Done tt (mk (reasonCode (reasonKind r)) :: ds).
Proof.
  intros Hd Hw. rewrite (getObjCDiagnosticAttrKind_Done _ Hd).
  destruct (describeObjCReason_Done VD r Hw) as [ds E].
  exists ds. simpl. rewrite E. reflexivity.
Qed.

(** ** The parameter list *)

(** Close a goal that says a call returns, when it visibly does. *)
Ltac returns :=
  simpl; unfold ret;
  solve [ do 2 eexists; exact eq_refl | eexists; exact eq_refl ].

Lemma findNonObjCProtocol_Done (ps : list ProtocolInfo) :
  exists r ds, findNonObjCProtocol ps = Done r ds.
Proof.
  induction ps as [| PD rest IH]; simpl; [returns |].
  destruct (isErrorProtocol PD); [returns |].
  destruct (protocolIsObjC PD); simpl; [exact IH | returns].
Qed.

Lemma diagnoseTypeNotRepresentableInObjC_Done (T : Ty) :
  exists ds, diagnoseTypeNotRepresentableInObjC T = Done tt ds.
Proof.
  unfold diagnoseTypeNotRepresentableInObjC.
  destruct T as [ts | c | n | n e | o | sc ps | n | n | i r t | d a | c a |];
    simpl; try returns.
  - destruct ts; returns.
  - destruct (classIsObjC c); returns.
  - destruct (findNonObjCProtocol_Done ps) as (r & ds & E).
    destruct sc as [sc |].
    + destruct (classIsObjC sc); simpl; [| returns].
      rewrite E. destruct r as [[|] |]; simpl; returns.
    + destruct ps as [| PD rest]; [returns |].
      rewrite E. destruct r as [[|] |]; simpl; returns.
  - destruct t; returns.
  - destruct (classIsObjC c); returns.
Qed.

Lemma diagnoseFunctionParamNotRepresentable_Done
    (AFD : ValueDecl) (N i : nat) (P : ParamDecl) (r : ObjCReason) :
  reasonWellFormed AFD r = true ->
  exists ds, diagnoseFunctionParamNotRepresentable AFD N i P r = Done tt ds.
Proof.
  intros Hw. unfold diagnoseFunctionParamNotRepresentable.
  destruct (shouldDiagnoseObjCReason r ctx) eqn:Hd; simpl;
    [| returns].
  rewrite (getObjCDiagnosticAttrKind_Done _ Hd).
  destruct (diagnoseTypeNotRepresentableInObjC_Done (getType P)) as [d1 E1].
  destruct (describeObjCReason_Done AFD r Hw) as [d2 E2].
  destruct (Nat.eqb N 1); simpl; rewrite E1; simpl; rewrite E2;
    returns.
Qed.

(** The loop returns: it does not abort on a well-formed reason. *)
Lemma paramLoop_Done (AFD : ValueDecl) (r : ObjCReason) (D : bool) (N : nat) :
  reasonWellFormed AFD r = true ->
  forall (PL : list ParamDecl) (i : nat) (b : bool),
  exists x ds, paramLoop AFD r D N i b PL = Done x ds.
Proof.
  intros Hw. induction PL as [| p rest IH]; intros i b; cbn [paramLoop]; [returns |].
  assert (G : forall mk,
             exists ds,
               when (D && shouldDiagnoseObjCReason r ctx)
                    (k <- getObjCDiagnosticAttrKind r ;;
                     diagnose (mk k) ;;; describeObjCReason AFD r)
               = Done tt ds).
  { intros mk. destruct (D && shouldDiagnoseObjCReason r ctx) eqn:E;
      [| returns].
    apply andb_true_iff in E. destruct E as [_ Hd].
    destruct (guarded_diagnostic_Done AFD r mk Hd Hw) as [ds E].
    unfold when. rewrite E. returns. }
  destruct (isVariadic p).
  { destruct (G objc_invalid_on_func_variadic) as [ds E].
    rewrite E. returns. }
  destruct (isInOut p).
  { destruct (G objc_invalid_on_func_inout) as [ds E].
    rewrite E. returns. }
  destruct (isRepresentableIn AFD (getType p)); [apply IH |].
  destruct (isReplacedErrorParameter AFD p i); [apply IH |].
  destruct D; cbn [negb]; [| returns].
  destruct (diagnoseFunctionParamNotRepresentable_Done AFD N i p r Hw)
    as [d1 E1].
  destruct (IH (S i) false) as (x & d2 & E2).
  rewrite E1. cbn [bind]. rewrite E2. returns.
Qed.

(** Once the loop meets a variadic or in-out parameter the list fails. *)
Lemma paramLoop_stops_false (AFD : ValueDecl) (r : ObjCReason) (D : bool)
    (N : nat) (p : ParamDecl) (post : list ParamDecl) :
  isVariadic p || isInOut p = true ->
  forall (pre : list ParamDecl) (i : nat) (b x : bool) (ds : list Diag),
    paramLoop AFD r D N i b (pre ++ p :: post) = Done x ds -> x = false.
Proof.
  intros Hp. induction pre as [| q pre IH]; intros i b x ds; cbn [app paramLoop].
  - destruct (isVariadic p).
    + intros H. apply bind_Done in H. destruct H as (a & d1 & d2 & _ & H & _).
      inversion H. reflexivity.
    + simpl in Hp. rewrite Hp.
      intros H. apply bind_Done in H. destruct H as (a & d1 & d2 & _ & H & _).
      inversion H. reflexivity.
  - destruct (isVariadic q).
    { intros H. apply bind_Done in H. destruct H as (a & d1 & d2 & _ & H & _).
      inversion H. reflexivity. }
    destruct (isInOut q).
    { intros H. apply bind_Done in H. destruct H as (a & d1 & d2 & _ & H & _).
      inversion H. reflexivity. }
    destruct (isRepresentableIn AFD (getType q)); [apply IH |].
    destruct (isReplacedErrorParameter AFD q i); [apply IH |].
    destruct D; cbn [negb].
    + intros H. apply bind_Done in H.
      destruct H as (a & d1 & d2 & _ & H & _). eapply IH; exact H.
    + intros H. inversion H. reflexivity.
Qed.

(** What follows a variadic or in-out parameter is not looked at: the
    loop gives the same outcome whatever comes after it. *)
Lemma paramLoop_ignores_rest (AFD : ValueDecl) (r : ObjCReason) (D : bool)
    (N N' : nat) (p : ParamDecl) (post post' : list ParamDecl) :
  isVariadic p || isInOut p = true ->
  forall (pre : list ParamDecl) (i : nat) (b : bool),
    pre = [] \/ Nat.eqb N 1 = Nat.eqb N' 1 ->
    paramLoop AFD r D N i b (pre ++ p :: post) =
    paramLoop AFD r D N' i b (pre ++ p :: post').
Proof.
  intros Hp. induction pre as [| q pre IH]; intros i b HN; cbn [app paramLoop].
  - destruct (isVariadic p); [reflexivity |].
    simpl in Hp. rewrite Hp. reflexivity.
  - destruct HN as [HN | HN]; [discriminate |].
    destruct (isVariadic q); [reflexivity |].
    destruct (isInOut q); [reflexivity |].
    destruct (isRepresentableIn AFD (getType q)); [apply IH; auto |].
    destruct (isReplacedErrorParameter AFD q i); [apply IH; auto |].
    destruct D; cbn [negb]; [| reflexivity].
    unfold diagnoseFunctionParamNotRepresentable.
    rewrite HN, (IH (S i) false (or_intror HN)). reflexivity.
Qed.

(** Without diagnostics the loop emits nothing. *)
Lemma paramLoop_silent (AFD : ValueDecl) (r : ObjCReason) (N : nat) :
  forall (PL : list ParamDecl) (i : nat) (b : bool),
  exists x, paramLoop AFD r false N i b PL = Done x [].
Proof.
  induction PL as [| p rest IH]; intros i b; cbn [paramLoop]; [returns |].
  destruct (isVariadic p); [returns |].
  destruct (isInOut p); [returns |].
  destruct (isRepresentableIn AFD (getType p)); [apply IH |].
  destruct (isReplacedErrorParameter AFD p i); [apply IH |].
  returns.
Qed.

(** C5: a parameter list that contains a variadic or an in-out parameter
    is not representable; the outcome, diagnostics included, is the same
    whatever parameters follow that parameter, so none of them is
    checked; and nothing is emitted when diagnostics are suppressed for
    the reason. *)
Theorem variadic_or_inout_fails_param_list :
  forall (AFD : ValueDecl) (Reason : ObjCReason)
         (pre : list ParamDecl) (p : ParamDecl) (post : list ParamDecl),
    isVariadic p || isInOut p = true ->
    reasonWellFormed AFD Reason = true ->
    (exists ds,
        isParamListRepresentableInObjC AFD (pre ++ p :: post) Reason
        = Done false ds /\
        forall post',
          isParamListRepresentableInObjC AFD (pre ++ p :: post') Reason
          = Done false ds) /\
    (shouldDiagnoseObjCReason Reason ctx = false ->
     isParamListRepresentableInObjC AFD (pre ++ p :: post) Reason
     = Done false []).
Proof.
  intros AFD Reason pre p post Hp Hw.
  unfold isParamListRepresentableInObjC.
  destruct (paramLoop_Done AFD Reason (shouldDiagnoseObjCReason Reason ctx)
              (List.length (pre ++ p :: post)) Hw (pre ++ p :: post) 0 true)
    as (x & ds & E).
  pose proof (paramLoop_stops_false _ _ _ _ _ _ Hp _ _ _ E) as Hx. subst x.
  split.
  - exists ds. split; [exact E |]. intros post'. rewrite <- E.
    apply paramLoop_ignores_rest; [exact Hp |].
    destruct pre as [| q pre]; [left; reflexivity | right].
    simpl. rewrite !length_app. simpl.
    rewrite !Nat.add_succ_r. reflexivity.
  - intros Hd. rewrite Hd in E |- *.
    destruct (paramLoop_silent AFD Reason (List.length (pre ++ p :: post))
                (pre ++ p :: post) 0 true) as [y E'].
    rewrite E' in E. inversion E; subst. exact E'.
Qed.

(** Without diagnostics the loop returns false as soon as a parameter
    fails. *)
Lemma paramLoop_silent_fails (AFD : ValueDecl) (r : ObjCReason) (N : nat)
    (p : ParamDecl) (post : list ParamDecl) :
  forall (pre : list ParamDecl) (i : nat) (b : bool),
    parameterFails AFD (i + List.length pre) p = true ->
    paramLoop AFD r false N i b (pre ++ p :: post) = Done false [].
Proof.
  induction pre as [| q pre IH]; intros i b Hp; cbn [app paramLoop].
  - cbn [List.length] in Hp. rewrite Nat.add_0_r in Hp.
    unfold parameterFails in Hp.
    destruct (isVariadic p); [reflexivity |].
    destruct (isInOut p); [reflexivity |].
    destruct (isRepresentableIn AFD (getType p)); [discriminate |].
    destruct (isReplacedErrorParameter AFD p i); [discriminate |].
    reflexivity.
  - cbn [List.length] in Hp. rewrite Nat.add_succ_r in Hp.
    destruct (isVariadic q); [reflexivity |].
    destruct (isInOut q); [reflexivity |].
    destruct (isRepresentableIn AFD (getType q)); [apply IH, Hp |].
    destruct (isReplacedErrorParameter AFD q i); [apply IH, Hp |].
    reflexivity.
Qed.

(** When diagnostics are suppressed for the reason, a function or an
    initializer (not of the special form) with a parameter that fails is
    not representable. *)
Lemma silent_check_rejects_failing_parameter
    (AFD : ValueDecl) (Reason : ObjCReason)
    (pre : list ParamDecl) (p : ParamDecl) (post : list ParamDecl) :
  shouldDiagnoseObjCReason Reason ctx = false ->
  isaAbstractFunctionDecl AFD = true ->
  isObjCZeroParameterWithLongSelector AFD = false ->
  getParameters AFD = pre ++ p :: post ->
  parameterFails AFD (List.length pre) p = true ->
  forall b c,
    value (isRepresentableInObjC AFD Reason) = Some (b, c) ->
    c = None /\
    (b = true -> exists k s t, getDeclKind AFD = KAccessor k s t).
Proof.
  intros Hd Hafd Hs Hps Hp b c. unfold isRepresentableInObjC. intros H.
  apply value_bind in H. destruct H as (f & _ & H).
  destruct f; [apply value_ret in H; inversion H; split; [auto | discriminate] |].
  apply value_bind in H. destruct H as (g & _ & H).
  destruct g; [apply value_ret in H; inversion H; split; [auto | discriminate] |].
  apply value_bind in H. destruct H as (e & _ & H).
  destruct e; [apply value_ret in H; inversion H; split; [auto | discriminate] |].
  destruct (isOperator AFD).
  { apply value_bind in H. destruct H as (u & _ & H).
    apply value_ret in H. inversion H. split; [auto | discriminate]. }
  assert (K : value
                (paramsFailed <- paramListFails AFD Reason ;;
                 if paramsFailed && negb (shouldDiagnoseObjCReason Reason ctx)
                 then ret (false, None)
                 else checkResultAndThrows AFD Reason
                        (shouldDiagnoseObjCReason Reason ctx))
              = Some (b, c) -> c = None /\ b = false).
  { clear H. unfold paramListFails, isParamListRepresentableInObjC.
    rewrite Hs, andb_false_r, Hd, Hps. cbn [negb].
    rewrite (paramLoop_silent_fails AFD Reason _ p post pre 0 true Hp).
    cbn. intros H. inversion H. auto. }
  destruct (getDeclKind AFD) eqn:Ek;
    try (apply K in H; destruct H; subst; split; [auto | discriminate]).
  apply value_bind in H. destruct H as (x & _ & H).
  apply value_ret in H. inversion H. split; [reflexivity | eauto].
Qed.

(** ** Where an error convention comes from *)

(** A convention left by [isRepresentableInObjC] was formed by the part
    for throwing functions, and the check returned true. *)
Lemma isRepresentableInObjC_convention
    (AFD : ValueDecl) (Reason : ObjCReason) (b : bool) (conv : FEC.t) :
  value (isRepresentableInObjC AFD Reason) = Some (b, Some conv) ->
  hasThrows AFD = true /\
  value (throwingConvention AFD Reason (shouldDiagnoseObjCReason Reason ctx))
  = Some (b, Some conv).
Proof.
  unfold isRepresentableInObjC. intros H.
  apply value_bind in H. destruct H as (f & _ & H).
  destruct f; [apply value_ret in H; discriminate |].
  apply value_bind in H. destruct H as (g & _ & H).
  destruct g; [apply value_ret in H; discriminate |].
  apply value_bind in H. destruct H as (e & _ & H).
  destruct e; [apply value_ret in H; discriminate |].
  destruct (isOperator AFD).
  { apply value_bind in H. destruct H as (u & _ & H).
    apply value_ret in H. discriminate. }
  assert (K : value
                (paramsFailed <- paramListFails AFD Reason ;;
                 if paramsFailed && negb (shouldDiagnoseObjCReason Reason ctx)
                 then ret (false, None)
                 else checkResultAndThrows AFD Reason
                        (shouldDiagnoseObjCReason Reason ctx))
              = Some (b, Some conv) ->
              hasThrows AFD = true /\
              value (throwingConvention AFD Reason
                       (shouldDiagnoseObjCReason Reason ctx))
              = Some (b, Some conv)).
  { clear H. intros H.
    apply value_bind in H. destruct H as (pf & _ & H).
    destruct (pf && negb (shouldDiagnoseObjCReason Reason ctx));
      [apply value_ret in H; discriminate |].
    unfold checkResultAndThrows in H.
    apply value_bind in H. destruct H as (br & _ & H).
    destruct br; [apply value_ret in H; discriminate |].
    destruct (hasThrows AFD); [auto |].
    apply value_ret in H. discriminate. }
  destruct (getDeclKind AFD) eqn:Ek; try (apply K in H; exact H).
  apply value_bind in H. destruct H as (x & _ & H).
  apply value_ret in H. discriminate.
Qed.

(** The convention of a throwing function is formed from the selected
    kind, at the computed index. *)
Lemma throwingConvention_formed
    (AFD : ValueDecl) (Reason : ObjCReason) (D b : bool) (conv : FEC.t) :
  value (throwingConvention AFD Reason D) = Some (b, Some conv) ->
  exists kind errorResultType,
    value (selectErrorConventionKind AFD Reason D)
    = Some (Some (kind, errorResultType)) /\
    b = true /\
    conv = formErrorConvention kind (errorParameterIndexOf AFD)
                               (errorParameterTypeOf AFD) errorResultType.
Proof.
  unfold throwingConvention. intros H.
  apply value_bind in H. destruct H as (sel & Hs & H).
  destruct sel as [[kind rty] |]; apply value_ret in H; [| discriminate].
  inversion H; subst. exists kind, rty. auto.
Qed.

(** The kinds the selection can give for a function. *)
Lemma selectFunctionErrorConventionKind_cases
    (AFD : ValueDecl) (Reason : ObjCReason) (D : bool) (resultType : Ty)
    (kind : FEC.Kind) (rty : option Ty) :
  value (selectFunctionErrorConventionKind AFD Reason D resultType)
  = Some (Some (kind, rty)) ->
  (kind = FEC.NilResult /\ rty = None /\
   isVoid resultType = false /\
   getOptionalObjectType resultType = None /\
   isBridgedToObjectiveCClass AFD resultType = true) \/
  (kind = FEC.ZeroResult /\ isVoid resultType = true /\
   match getObjCBoolDecl ctx, getBoolDecl ctx with
   | Some d, _ => rty = Some (getDeclaredType d)
   | None, Some d => rty = Some (getDeclaredType d)
   | None, None => False
   end).
Proof.
  unfold selectFunctionErrorConventionKind.
  intros H. destruct (isVoid resultType).
  - right.
    destruct (getObjCBoolDecl ctx) as [d |].
    + apply value_ret in H. inversion H. auto.
    + destruct (getBoolDecl ctx) as [d |].
      * apply value_ret in H. inversion H. auto.
      * apply value_bind in H. destruct H as (u & _ & H).
        apply value_ret in H. discriminate.
  - left. destruct (getOptionalObjectType resultType) as [o |].
    + destruct (isBridgedToObjectiveCClass AFD o);
        apply value_bind in H; destruct H as (u & _ & H);
        apply value_ret in H; discriminate.
    + destruct (isBridgedToObjectiveCClass AFD resultType).
      * apply value_ret in H. inversion H. auto.
      * apply value_bind in H. destruct H as (u & _ & H).
        apply value_ret in H. discriminate.
Qed.

(** The selection gives the zero-result or the nil-result kind only. *)
Lemma selectErrorConventionKind_kinds
    (AFD : ValueDecl) (Reason : ObjCReason) (D : bool)
    (kind : FEC.Kind) (rty : option Ty) :
  value (selectErrorConventionKind AFD Reason D) = Some (Some (kind, rty)) ->
  isZeroOrNilResult kind = true.
Proof.
  unfold selectErrorConventionKind.
  destruct (getDeclKind AFD) as [rt t | k s rt | f t | | |];
    try (simpl; discriminate).
  - intros H. apply selectFunctionErrorConventionKind_cases in H.
    destruct H as [(-> & _) | (-> & _)]; reflexivity.
  - intros H. apply selectFunctionErrorConventionKind_cases in H.
    destruct H as [(-> & _) | (-> & _)]; reflexivity.
  - destruct f.
    + intros H. apply value_ret in H. inversion H. reflexivity.
    + intros H. apply value_bind in H. destruct H as (u & _ & H).
      apply value_ret in H. discriminate.
    + intros H. apply value_bind in H. destruct H as (u & _ & H).
      apply value_ret in H. discriminate.
Qed.

(** ** The check returns *)

Lemma when_Done (b : bool) (c : Outcome unit) :
  (b = true -> exists ds, c = Done tt ds) ->
  exists ds, when b c = Done tt ds.
Proof. destruct b; simpl; intros H; [auto | returns]. Qed.

Lemma bind_returns {A B} (c : Outcome A) (k : A -> Outcome B) :
  (exists a ds, c = Done a ds) ->
  (forall a, exists b ds, k a = Done b ds) ->
  exists b ds, bind c k = Done b ds.
Proof.
  intros (a & d1 & ->) H. destruct (H a) as (b & d2 & E).
  simpl. rewrite E. returns.
Qed.

Lemma bind_returns_unit {B} (c : Outcome unit) (k : unit -> Outcome B) :
  (exists ds, c = Done tt ds) ->
  (exists b ds, k tt = Done b ds) ->
  exists b ds, bind c k = Done b ds.
Proof.
  intros (d1 & ->) (b & d2 & E). simpl. rewrite E. returns.
Qed.

(** Under a diagnosed, well-formed reason, a guarded diagnostic
    returns. *)
Lemma guarded_when_Done (VD : ValueDecl) (r : ObjCReason) (D : bool)
    (mk : nat -> Diag) :
  (D = true -> shouldDiagnoseObjCReason r ctx = true) ->
  reasonWellFormed VD r = true ->
  exists ds,
    when D (k <- getObjCDiagnosticAttrKind r ;;
            diagnose (mk k) ;;; describeObjCReason VD r) = Done tt ds.
Proof.
  intros HD Hw. apply when_Done. intros ->.
  destruct (guarded_diagnostic_Done VD r mk (HD eq_refl) Hw) as [ds E].
  rewrite E. returns.
Qed.

Section Returns.

Variables (AFD : ValueDecl) (Reason : ObjCReason) (D : bool).
Hypothesis HD : D = true -> shouldDiagnoseObjCReason Reason ctx = true.
Hypothesis Hw : reasonWellFormed AFD Reason = true.

Lemma checkObjCInForeignClassContext_Done :
  exists b ds, checkObjCInForeignClassContext AFD Reason = Done b ds.
Proof.
  unfold checkObjCInForeignClassContext.
  destruct (getAsClassOrClassExtensionContext (getDeclContext AFD)) as [c |];
    [| returns].
  destruct (getForeignClassKind c); [returns | |];
    (apply bind_returns_unit; [| returns]);
    apply guarded_when_Done; auto.
Qed.

Lemma checkObjCWithGenericParams_Done :
  exists b ds, checkObjCWithGenericParams AFD Reason = Done b ds.
Proof.
  unfold checkObjCWithGenericParams.
  destruct (getGenericParams AFD); [| returns].
  apply bind_returns_unit; [| returns].
  apply guarded_when_Done; auto.
Qed.

Lemma checkObjCInExtensionContext_Done :
  exists b ds, checkObjCInExtensionContext AFD D = Done b ds.
Proof.
  clear HD Hw. unfold checkObjCInExtensionContext.
  destruct (getDeclContext AFD) as [c | ED ext | p |]; try returns.
  destruct (getTrailingWhereClause ED); [destruct D; returns |].
  destruct (getGenericAncestor ED) as [[|] |]; try returns.
  destruct D; returns.
Qed.

Lemma accessorRepresentable_Done (kind : AccessorKind)
    (storage : StorageDecl) :
  exists b ds, accessorRepresentable AFD kind storage Reason D = Done b ds.
Proof.
  unfold accessorRepresentable.
  destruct (describeObjCReason_Done AFD Reason Hw) as [ds E].
  assert (G : forall d, exists ds',
             when D (diagnose d ;;; describeObjCReason AFD Reason)
             = Done tt ds').
  { intros d. apply when_Done. intros _. rewrite E. returns. }
  match goal with
  | |- context [if ?c then _ else _] => destruct c
  end.
  - apply bind_returns_unit; [apply G | returns].
  - destruct kind; try returns;
      (apply bind_returns_unit; [apply G | returns]).
Qed.

Lemma isParamListRepresentableInObjC_Done (PL : list ParamDecl) :
  exists b ds, isParamListRepresentableInObjC AFD PL Reason = Done b ds.
Proof. unfold isParamListRepresentableInObjC. apply paramLoop_Done, Hw. Qed.

Lemma paramListFails_Done :
  exists b ds, paramListFails AFD Reason = Done b ds.
Proof.
  unfold paramListFails.
  match goal with
  | |- context [if ?c then _ else _] => destruct c
  end; [| returns].
  apply bind_returns; [apply isParamListRepresentableInObjC_Done |].
  intros a. returns.
Qed.

Lemma resultNotRepresentable_Done :
  exists b ds, resultNotRepresentable AFD Reason D = Done b ds.
Proof.
  unfold resultNotRepresentable.
  assert (G : forall T, exists ds,
             when D (k <- getObjCDiagnosticAttrKind Reason ;;
                     diagnose (objc_invalid_on_func_result_type k) ;;;
                     diagnoseTypeNotRepresentableInObjC T ;;;
                     describeObjCReason AFD Reason) = Done tt ds).
  { intros T. apply when_Done. intros ->.
    rewrite (getObjCDiagnosticAttrKind_Done _ (HD eq_refl)).
    destruct (diagnoseTypeNotRepresentableInObjC_Done T) as [d1 E1].
    destruct (describeObjCReason_Done AFD Reason Hw) as [d2 E2].
    simpl. rewrite E1. simpl. rewrite E2. returns. }
  destruct (getDeclKind AFD); try returns;
    match goal with
    | |- context [if ?c then _ else _] => destruct c
    end; try returns;
    (apply bind_returns_unit; [apply G | returns]).
Qed.

Lemma selectFunctionErrorConventionKind_Done (resultType : Ty) :
  exists s ds,
    selectFunctionErrorConventionKind AFD Reason D resultType = Done s ds.
Proof.
  unfold selectFunctionErrorConventionKind.
  destruct (isVoid resultType).
  { destruct (getObjCBoolDecl ctx); [returns |].
    destruct (getBoolDecl ctx); returns. }
  destruct (getOptionalObjectType resultType) as [o |].
  - destruct (isBridgedToObjectiveCClass AFD o);
      (apply bind_returns_unit; [| returns]);
      apply guarded_when_Done; auto.
  - destruct (isBridgedToObjectiveCClass AFD resultType); [returns |].
    apply bind_returns_unit; [| returns].
    apply guarded_when_Done; auto.
Qed.

Lemma selectErrorConventionKind_Done :
  hasThrows AFD = true ->
  exists s ds, selectErrorConventionKind AFD Reason D = Done s ds.
Proof.
  unfold selectErrorConventionKind, hasThrows.
  destruct (getDeclKind AFD) as [rt t | k s rt | f t | | |];
    intros Ht; try discriminate.
  - apply selectFunctionErrorConventionKind_Done.
  - destruct f; [returns | |];
      (apply bind_returns_unit; [| returns]);
      apply guarded_when_Done; auto.
Qed.

Lemma throwingConvention_Done :
  hasThrows AFD = true ->
  exists r ds, throwingConvention AFD Reason D = Done r ds.
Proof.
  intros Ht. unfold throwingConvention.
  apply bind_returns; [apply selectErrorConventionKind_Done, Ht |].
  intros [[kind rty] |]; returns.
Qed.

Lemma checkResultAndThrows_Done :
  exists r ds, checkResultAndThrows AFD Reason D = Done r ds.
Proof.
  unfold checkResultAndThrows.
  apply bind_returns; [apply resultNotRepresentable_Done |].
  intros [|]; [returns |].
  destruct (hasThrows AFD) eqn:Ht; [| returns].
  apply throwingConvention_Done, Ht.
Qed.

End Returns.

(** On a well-formed reason the representability check of a function
    returns: it never reaches an abort. *)
Lemma isRepresentableInObjC_Done (AFD : ValueDecl) (Reason : ObjCReason) :
  reasonWellFormed AFD Reason = true ->
  exists r ds, isRepresentableInObjC AFD Reason = Done r ds.
Proof.
  intros Hw. unfold isRepresentableInObjC.
  set (D := shouldDiagnoseObjCReason Reason ctx).
  assert (HD : D = true -> shouldDiagnoseObjCReason Reason ctx = true)
    by (intros H; exact H).
  apply bind_returns; [apply checkObjCInForeignClassContext_Done; auto |].
  intros [|]; [returns |].
  apply bind_returns; [apply checkObjCWithGenericParams_Done; auto |].
  intros [|]; [returns |].
  apply bind_returns; [apply checkObjCInExtensionContext_Done |].
  intros [|]; [returns |].
  destruct (isOperator AFD); [returns |].
  assert (K : exists r ds,
             (paramsFailed <- paramListFails AFD Reason ;;
              if paramsFailed && negb D then ret (false, None)
              else checkResultAndThrows AFD Reason D) = Done r ds).
  { apply bind_returns; [apply paramListFails_Done; auto |].
    intros pf. destruct (pf && negb D); [returns |].
    apply checkResultAndThrows_Done; auto. }
  destruct (getDeclKind AFD); try exact K.
  apply bind_returns; [apply accessorRepresentable_Done; auto |].
  intros b. returns.
Qed.

(** ** The error convention *)

Lemma formErrorConvention_index (kind : FEC.Kind) (i : nat)
    (a r : option Ty) :
  FEC.getErrorParameterIndex (formErrorConvention kind i a r) = i.
Proof. destruct kind; reflexivity. Qed.

Lemma formErrorConvention_kind (kind : FEC.Kind) (i : nat)
    (a r : option Ty) :
  isZeroOrNilResult kind = true ->
  FEC.getKind (formErrorConvention kind i a r) = kind.
Proof. destruct kind; simpl; intros H; try discriminate; reflexivity. Qed.

(** A convention left by the check: its kind was selected, its index is
    the computed one. *)
Lemma isRepresentableInObjC_formed
    (AFD : ValueDecl) (Reason : ObjCReason) (b : bool) (conv : FEC.t) :
  value (isRepresentableInObjC AFD Reason) = Some (b, Some conv) ->
  exists kind rty,
    hasThrows AFD = true /\ b = true /\
    value (selectErrorConventionKind AFD Reason
             (shouldDiagnoseObjCReason Reason ctx))
    = Some (Some (kind, rty)) /\
    conv = formErrorConvention kind (errorParameterIndexOf AFD)
                               (errorParameterTypeOf AFD) rty.
Proof.
  intros H. apply isRepresentableInObjC_convention in H.
  destruct H as [Ht H]. apply throwingConvention_formed in H.
  destruct H as (kind & rty & Hs & Hb & Hc). exists kind, rty. auto.
Qed.

(** C2: a throwing function with a [Void] result that reaches the
    selection gets the zero-result convention, whose result type is the
    foreign boolean type, or the standard boolean type when the first is
    missing; every convention the check leaves for such a function is of
    that kind and has that result type. *)
Theorem void_result_selects_ZeroResult :
  forall (AFD : ValueDecl) (Reason : ObjCReason) (resultType : Ty),
    getDeclKind AFD = KFunc resultType true ->
    isVoid resultType = true ->
    (forall (D : bool) (boolTy : Ty),
        sentinelBooleanType ctx = Some boolTy ->
        throwingConvention AFD Reason D =
        Done (true,
              Some (FEC.getZeroResult (errorParameterIndexOf AFD)
                      FEC.IsNotOwned FEC.IsNotReplaced
                      (errorParameterTypeOf AFD) (Some boolTy))) []) /\
    (forall (b : bool) (conv : FEC.t),
        value (isRepresentableInObjC AFD Reason) = Some (b, Some conv) ->
        FEC.getKind conv = FEC.ZeroResult /\
        FEC.getResultType conv <> None /\
        FEC.getResultType conv = sentinelBooleanType ctx).
Proof.
  intros AFD Reason resultType Hk Hv. split.
  - intros D boolTy Hb.
    unfold throwingConvention, selectErrorConventionKind.
    rewrite Hk. unfold selectFunctionErrorConventionKind. rewrite Hv.
    unfold sentinelBooleanType in Hb.
    destruct (getObjCBoolDecl ctx) as [d |].
    + inversion Hb; subst. reflexivity.
    + destruct (getBoolDecl ctx) as [d |]; [| discriminate].
      inversion Hb; subst. reflexivity.
  - intros b conv H. apply isRepresentableInObjC_formed in H.
    destruct H as (kind & rty & _ & _ & Hs & ->).
    unfold selectErrorConventionKind in Hs. rewrite Hk in Hs.
    apply selectFunctionErrorConventionKind_cases in Hs.
    destruct Hs as [(_ & _ & Hv' & _) | (-> & _ & Hb)]; [congruence |].
    unfold sentinelBooleanType. simpl.
    destruct (getObjCBoolDecl ctx) as [d |];
      [subst; repeat split; discriminate |].
    destruct (getBoolDecl ctx) as [d |]; [| contradiction].
    subst; repeat split; discriminate.
Qed.

(** *** The default position of the error parameter *)

Lemma trailing_closure_test (t : Ty) :
  isAnyFunctionType
    (match getOptionalObjectType (getRValueType t) with
     | Some objectType => objectType
     | None => getRValueType t
     end) = isFunctionThroughOptional t.
Proof.
  unfold getRValueType. destruct t; reflexivity.
Qed.

Lemma skipTrailingClosures_app (ps extra : list ParamDecl) :
  forall n, n <= List.length ps ->
       skipTrailingClosures (ps ++ extra) n = skipTrailingClosures ps n.
Proof.
  induction n as [| j IH]; intros Hn; [reflexivity |].
  cbn [skipTrailingClosures].
  rewrite app_nth1 by lia. rewrite IH by lia. reflexivity.
Qed.

Lemma skipTrailingClosures_count (ps : list ParamDecl) :
  skipTrailingClosures ps (List.length ps)
  = List.length ps - trailingFunctionParameters ps.
Proof.
  induction ps as [| x l IH] using rev_ind; [reflexivity |].
  unfold trailingFunctionParameters in *.
  rewrite rev_app_distr, length_app. cbn [rev app List.length leading].
  rewrite Nat.add_1_r. cbn [skipTrailingClosures].
  rewrite nth_middle, trailing_closure_test.
  destruct (isFunctionThroughOptional (getType x)); cbn [negb].
  - rewrite skipTrailingClosures_app by lia. rewrite IH. lia.
  - lia.
Qed.

Lemma errorParameterIndexFromSelector_unnamed (AFD : ValueDecl) :
  attrHasName (getObjCAttr AFD) = false ->
  errorParameterIndexFromSelector AFD = None.
Proof.
  unfold attrHasName, hasName, errorParameterIndexFromSelector.
  destruct (getObjCAttr AFD) as [a |]; [| reflexivity].
  destruct (getName a); [discriminate | reflexivity].
Qed.

(** The index when the attribute has no name. *)
Lemma errorParameterIndexOf_unnamed (AFD : ValueDecl) :
  attrHasName (getObjCAttr AFD) = false ->
  isObjCZeroParameterWithLongSelector AFD = false ->
  errorParameterIndexOf AFD
  = List.length (getParameters AFD)
    - trailingFunctionParameters (getParameters AFD).
Proof.
  intros Hn Hs. unfold errorParameterIndexOf.
  rewrite (errorParameterIndexFromSelector_unnamed _ Hn).
  unfold defaultErrorParameterIndex. rewrite Hs, andb_false_r.
  apply skipTrailingClosures_count.
Qed.

(** *** The position given by the selector *)





(** *** Bridged results *)

Lemma isRepresentableInObjC_false_without_convention
    (AFD : ValueDecl) (Reason : ObjCReason) :
  reasonWellFormed AFD Reason = true ->
  (forall b conv,
      value (isRepresentableInObjC AFD Reason) <> Some (b, Some conv)) ->
  (forall c, value (isRepresentableInObjC AFD Reason) <> Some (true, c)) ->
  value (isRepresentableInObjC AFD Reason) = Some (false, None).
Proof.
  intros Hw Hc Ht.
  destruct (isRepresentableInObjC_Done AFD Reason Hw) as ([b c] & ds & E).
  rewrite E in *. simpl in *.
  destruct b; [exfalso; apply (Ht c); reflexivity |].
  destruct c as [conv |]; [exfalso; apply (Hc false conv) |]; reflexivity.
Qed.

(** A throwing function (not an accessor) for which the check returns
    true has an error convention. *)
Lemma isRepresentableInObjC_true_throws
    (AFD : ValueDecl) (Reason : ObjCReason) (resultType : Ty)
    (c : option FEC.t) :
  getDeclKind AFD = KFunc resultType true ->
  value (isRepresentableInObjC AFD Reason) = Some (true, c) ->
  exists conv, c = Some conv.
Proof.
  intros Hk. unfold isRepresentableInObjC. intros H.
  apply value_bind in H. destruct H as (f & _ & H).
  destruct f; [apply value_ret in H; discriminate |].
  apply value_bind in H. destruct H as (g & _ & H).
  destruct g; [apply value_ret in H; discriminate |].
  apply value_bind in H. destruct H as (e & _ & H).
  destruct e; [apply value_ret in H; discriminate |].
  destruct (isOperator AFD).
  { apply value_bind in H. destruct H as (u & _ & H).
    apply value_ret in H. discriminate. }
  rewrite Hk in H.
  apply value_bind in H. destruct H as (pf & _ & H).
  destruct (pf && negb (shouldDiagnoseObjCReason Reason ctx));
    [apply value_ret in H; discriminate |].
  unfold checkResultAndThrows in H.
  apply value_bind in H. destruct H as (br & _ & H).
  destruct br; [apply value_ret in H; discriminate |].
  unfold hasThrows in H. rewrite Hk in H.
  unfold throwingConvention in H.
  apply value_bind in H. destruct H as (sel & _ & H).
  destruct sel as [[kind rty] |]; apply value_ret in H; [| discriminate].
  inversion H. eauto.
Qed.

(** C7, as the code has it: a throwing function whose result type is
    not optional and is bridged to an Objective-C class gets the
    nil-result convention at the selection, and every convention the
    check leaves for it has that kind.  When the result type is an
    optional of a bridged type, the check returns false and leaves no
    convention; the selection emits, when diagnostics are enabled for
    the reason, the diagnostic for throwing optional results followed by
    the description of the reason, nothing when they are suppressed, and
    never the diagnostic for the other result types that are not
    permitted. *)
Theorem bridged_result_convention :
  forall (AFD : ValueDecl) (Reason : ObjCReason) (resultType : Ty),
    getDeclKind AFD = KFunc resultType true ->
    reasonWellFormed AFD Reason = true ->
    (isVoid resultType = false ->
     getOptionalObjectType resultType = None ->
     isBridgedToObjectiveCClass AFD resultType = true ->
     (forall D, selectErrorConventionKind AFD Reason D
                = Done (Some (FEC.NilResult, None)) []) /\
     (forall b conv,
         value (isRepresentableInObjC AFD Reason) = Some (b, Some conv) ->
         FEC.getKind conv = FEC.NilResult)) /\
    (forall object,
        getOptionalObjectType resultType = Some object ->
        isBridgedToObjectiveCClass AFD object = true ->
        value (isRepresentableInObjC AFD Reason) = Some (false, None) /\
        (shouldDiagnoseObjCReason Reason ctx = true ->
         selectErrorConventionKind AFD Reason true
         = Done None
             (objc_invalid_on_throwing_optional_result
                (reasonCode (reasonKind Reason)) resultType
              :: emitted (describeObjCReason AFD Reason))) /\
        selectErrorConventionKind AFD Reason false = Done None [] /\
        (forall D k t,
            ~ In (objc_invalid_on_throwing_result k t)
                 (emitted (selectErrorConventionKind AFD Reason D)))).
Proof.
  intros AFD Reason resultType Hk Hw. split.
  - intros Hv Ho Hb. split.
    + intros D. unfold selectErrorConventionKind. rewrite Hk.
      unfold selectFunctionErrorConventionKind. rewrite Hv, Ho, Hb.
      reflexivity.
    + intros b conv H. apply isRepresentableInObjC_formed in H.
      destruct H as (kind & rty & _ & _ & Hs & ->).
      unfold selectErrorConventionKind in Hs. rewrite Hk in Hs.
      apply selectFunctionErrorConventionKind_cases in Hs.
      destruct Hs as [(-> & _) | (_ & Hv' & _)]; [reflexivity | congruence].
  - intros object Ho Hb.
    assert (Hvoid : isVoid resultType = false).
    { destruct resultType; try discriminate; reflexivity. }
    assert (Sel : forall D kind rty,
               value (selectErrorConventionKind AFD Reason D)
               <> Some (Some (kind, rty))).
    { intros D kind rty Hs.
      unfold selectErrorConventionKind in Hs. rewrite Hk in Hs.
      apply selectFunctionErrorConventionKind_cases in Hs.
      destruct Hs as [(_ & _ & _ & Ho' & _) | (_ & Hv' & _)]; congruence. }
    repeat split.
    + apply isRepresentableInObjC_false_without_convention; [exact Hw | |].
      * intros b conv H. apply isRepresentableInObjC_formed in H.
        destruct H as (kind & rty & _ & _ & Hs & _).
        exact (Sel _ _ _ Hs).
      * intros c H.
        destruct (isRepresentableInObjC_true_throws _ _ Hk H) as [conv ->].
        apply isRepresentableInObjC_formed in H.
        destruct H as (kind & rty & _ & _ & Hs & _).
        exact (Sel _ _ _ Hs).
    + intros Hd. unfold selectErrorConventionKind. rewrite Hk.
      unfold selectFunctionErrorConventionKind. rewrite Hvoid, Ho, Hb.
      rewrite (getObjCDiagnosticAttrKind_Done _ Hd).
      destruct (describeObjCReason_Done AFD Reason Hw) as [ds E].
      rewrite E. simpl. rewrite app_nil_r. reflexivity.
    + unfold selectErrorConventionKind. rewrite Hk.
      unfold selectFunctionErrorConventionKind. rewrite Hvoid, Ho, Hb.
      reflexivity.
    + intros D k t. unfold selectErrorConventionKind. rewrite Hk.
      unfold selectFunctionErrorConventionKind. rewrite Hvoid, Ho, Hb.
      destruct D; [| simpl; tauto].
      destruct (getObjCDiagnosticAttrKind Reason) as [m | n d0] eqn:Ek;
        [simpl; tauto |].
      assert (d0 = []) as ->.
      { unfold getObjCDiagnosticAttrKind in Ek.
        destruct (reasonKind Reason); inversion Ek; reflexivity. }
      destruct (describeObjCReason_Done AFD Reason Hw) as [ds E].
      pose proof (describeObjCReason_emits AFD Reason) as He.
      rewrite E in *. simpl. intros [Hi | Hi]; [discriminate |].
      rewrite app_nil_r in Hi. apply He in Hi. exact Hi.
Qed.

(** *** Aborts *)

(** C8, as the code has it: classifying a reason aborts exactly when the
    reason is one of the three that are never diagnosed.  Reaching the
    selection for a throwing function with a [Void] result when neither
    boolean structure exists does not abort: the check reports
    [broken_bool], whatever the reason, returns false and leaves no
    convention.  On a well-formed reason the representability check of a
    function never aborts. *)
Theorem aborts_of_representability_check :
  (forall r : ObjCReason,
      aborts (getObjCDiagnosticAttrKind r)
      = isPermanentlySilent (reasonKind r)) /\
  (forall (AFD : ValueDecl) (Reason : ObjCReason) (resultType : Ty),
      getDeclKind AFD = KFunc resultType true ->
      isVoid resultType = true ->
      sentinelBooleanType ctx = None ->
      (forall D, throwingConvention AFD Reason D
                 = Done (false, None) [broken_bool]) /\
      (reasonWellFormed AFD Reason = true ->
       value (isRepresentableInObjC AFD Reason) = Some (false, None))) /\
  (forall (AFD : ValueDecl) (Reason : ObjCReason),
      reasonWellFormed AFD Reason = true ->
      aborts (isRepresentableInObjC AFD Reason) = false).
Proof.
  split; [exact getObjCDiagnosticAttrKind_aborts | split].
  - intros AFD Reason resultType Hk Hv Hb.
    assert (Hb' : getObjCBoolDecl ctx = None /\ getBoolDecl ctx = None).
    { unfold sentinelBooleanType in Hb.
      destruct (getObjCBoolDecl ctx); [discriminate |].
      destruct (getBoolDecl ctx); [discriminate | auto]. }
    destruct Hb' as [Hb1 Hb2].
    assert (Sel : forall D kind rty,
               value (selectErrorConventionKind AFD Reason D)
               <> Some (Some (kind, rty))).
    { intros D kind rty Hs.
      unfold selectErrorConventionKind in Hs. rewrite Hk in Hs.
      apply selectFunctionErrorConventionKind_cases in Hs.
      destruct Hs as [(_ & _ & Hv' & _) | (_ & _ & Hs)]; [congruence |].
      rewrite Hb1, Hb2 in Hs. exact Hs. }
    split.
    + intros D. unfold throwingConvention, selectErrorConventionKind.
      rewrite Hk. unfold selectFunctionErrorConventionKind.
      rewrite Hv, Hb1, Hb2. reflexivity.
    + intros Hw.
      apply isRepresentableInObjC_false_without_convention; [exact Hw | |].
      * intros b conv H. apply isRepresentableInObjC_formed in H.
        destruct H as (kind & rty & _ & _ & Hs & _).
        exact (Sel _ _ _ Hs).
      * intros c H.
        destruct (isRepresentableInObjC_true_throws _ _ Hk H) as [conv ->].
        apply isRepresentableInObjC_formed in H.
        destruct H as (kind & rty & _ & _ & Hs & _).
        exact (Sel _ _ _ Hs).
  - intros AFD Reason Hw.
    destruct (isRepresentableInObjC_Done AFD Reason Hw) as (r & ds & E).
    rewrite E. reflexivity.
Qed.

(** ** Name inference *)

Lemma setObjCName_name (d : ValueDecl) (sel : ObjCSelector) :
  objcNameOf (setObjCName d sel) = Some sel.
Proof. unfold setObjCName, objcNameOf. destruct (getObjCAttr d); reflexivity. Qed.

Lemma adoptOverriddenName_quiet (B : ValueDecl) (sel : ObjCSelector)
    (mismatch : Diag) :
  hasExplicitName (getObjCAttr B) = false ->
  exists B', adoptOverriddenName B sel mismatch = Done B' [] /\
             objcNameOf B' = Some sel.
Proof.
  unfold adoptOverriddenName, hasExplicitName, attrHasName, hasOtherName,
    attrNameIsImplicit, hasName.
  intros He. destruct (getObjCAttr B) as [a |] eqn:Ea.
  - destruct (getName a) as [n |] eqn:En.
    + simpl in He. apply negb_false_iff in He. rewrite He. cbn [negb andb orb].
      rewrite andb_false_r. cbn [when].
      destruct (ObjCSelector_eqb n sel) eqn:Eq; cbn [negb bind ret app].
      * exists B. split; [reflexivity |].
        apply ObjCSelector_eqb_eq in Eq. subst.
        unfold objcNameOf. rewrite Ea. exact En.
      * eexists. split; [reflexivity | apply setObjCName_name].
    + cbn [negb andb orb when bind ret app].
      eexists. split; [reflexivity | apply setObjCName_name].
  - cbn [negb andb orb when bind ret app].
    eexists. split; [reflexivity | apply setObjCName_name].
Qed.

(** C9: when B (a method or a property, already marked [@objc])
    overrides an [@objc] declaration A and carries no name written by
    the user, name inference on B emits nothing and leaves B with the
    Objective-C name of A exactly. *)
Theorem override_name_adopted :
  forall (B A : ValueDecl),
    isaDestructorDecl B = false ->
    isObjC B = true ->
    getOverriddenDecl B = Some A ->
    isObjC A = true ->
    isaAbstractFunctionDecl A || isaVarDecl A = true ->
    hasExplicitName (getObjCAttr B) = false ->
    exists B',
      inferObjCName B = Done B' [] /\
      objcNameOf B' = Some (overriddenObjCName A).
Proof.
  intros B A Hd Ho Hov HA Hk He.
  unfold inferObjCName, overriddenObjCName.
  rewrite Hd, Ho, Hov, HA. cbn [negb].
  destruct (isaAbstractFunctionDecl A).
  - apply adoptOverriddenName_quiet, He.
  - simpl in Hk. rewrite Hk. apply adoptOverriddenName_quiet, He.
Qed.

(** ** The finalizer and the error convention *)

Lemma setObjCName_convention (d : ValueDecl) (sel : ObjCSelector) :
  getForeignErrorConvention (setObjCName d sel) = getForeignErrorConvention d.
Proof. unfold setObjCName. destruct (getObjCAttr d); reflexivity. Qed.

Lemma adoptOverriddenName_convention (d d' : ValueDecl) (sel : ObjCSelector)
    (mismatch : Diag) :
  value (adoptOverriddenName d sel mismatch) = Some d' ->
  getForeignErrorConvention d' = getForeignErrorConvention d.
Proof.
  unfold adoptOverriddenName. intros H.
  apply value_bind in H. destruct H as (u & _ & H).
  match type of H with
  | value (if ?c then _ else _) = _ => destruct c
  end; apply value_ret in H; subst;
    [apply setObjCName_convention | reflexivity].
Qed.

Lemma inferObjCNameFromWitnesses_convention (d d' : ValueDecl) :
  value (inferObjCNameFromWitnesses d) = Some d' ->
  getForeignErrorConvention d' = getForeignErrorConvention d.
Proof.
  unfold inferObjCNameFromWitnesses.
  destruct (attrHasName (getObjCAttr d)).
  { intros H. apply value_ret in H. subst. reflexivity. }
  destruct (findWitnessedObjCRequirements d) as [| firstReq rest].
  { intros H. apply value_ret in H. subst. reflexivity. }
  intros H. apply value_bind in H. destruct H as (u & _ & H).
  apply value_ret in H. subst. apply setObjCName_convention.
Qed.

(** Name inference does not touch the error convention. *)
Lemma inferObjCName_convention (d d' : ValueDecl) :
  value (inferObjCName d) = Some d' ->
  getForeignErrorConvention d' = getForeignErrorConvention d.
Proof.
  unfold inferObjCName.
  destruct (isaDestructorDecl d).
  { intros H. apply value_ret in H. subst. reflexivity. }
  destruct (isObjC d); cbn [negb]; [| discriminate].
  destruct (getOverriddenDecl d) as [o |];
    [| apply inferObjCNameFromWitnesses_convention].
  destruct (isObjC o); [| apply inferObjCNameFromWitnesses_convention].
  destruct (isaAbstractFunctionDecl o);
    [apply adoptOverriddenName_convention |].
  destruct (isaVarDecl o);
    [apply adoptOverriddenName_convention
    | apply inferObjCNameFromWitnesses_convention].
Qed.

Lemma attachErrorConvention_value (m m' : ValueDecl) (ec : option FEC.t) :
  value (attachErrorConvention m ec) = Some m' ->
  getForeignErrorConvention m' = ec /\ ec <> None.
Proof.
  unfold attachErrorConvention. destruct ec as [c |]; [| discriminate].
  intros H. apply value_ret in H. subst. split; [reflexivity | discriminate].
Qed.

(** The convention a method of a class ends with: the one of the
    overridden method if there is one, else the one passed in. *)
Lemma markMethodOfClass_convention (st st' : SemaState) (cd : ClassDecl)
    (m m' : ValueDecl) (ec : option FEC.t) (c : FEC.t) :
  value (markMethodOfClass st cd m ec) = Some (m', st') ->
  getForeignErrorConvention m = None ->
  getForeignErrorConvention m' = Some c ->
  ec = Some c \/
  exists base, getOverriddenDecl m = Some base /\
               getForeignErrorConvention base = Some c.
Proof.
  unfold markMethodOfClass. intros H Hn Hc.
  apply value_bind in H. destruct H as (m1 & H1 & H).
  apply value_bind in H. destruct H as (m2 & H2 & H).
  apply value_bind in H. destruct H as (u & _ & H).
  apply value_ret in H. inversion H; subst m' st'. clear H.
  apply inferObjCName_convention in H2. rewrite H2 in Hc.
  destruct (getOverriddenDecl m) as [base |].
  - destruct (hasThrows m).
    + apply attachErrorConvention_value in H1. destruct H1 as [H1 _].
      rewrite H1 in Hc.
      destruct (getForeignErrorConvention base) as [bc |] eqn:Eb.
      * right. exists base. split; [reflexivity | congruence].
      * left. exact Hc.
    + apply value_ret in H1. subst. congruence.
  - destruct (hasThrows m).
    + apply attachErrorConvention_value in H1. destruct H1 as [H1 _].
      left. congruence.
    + apply value_ret in H1. subst. congruence.
Qed.

Lemma markSwift3Inferred_convention (d d' : ValueDecl) :
  value (markSwift3Inferred d) = Some d' ->
  getForeignErrorConvention d' = getForeignErrorConvention d.
Proof.
  unfold markSwift3Inferred. intros H.
  apply value_bind in H. destruct H as (u & _ & H).
  destruct (getObjCAttr d); apply value_ret in H; subst; reflexivity.
Qed.

(** The convention [markAsObjC] attaches to a declaration that had none
    is the one passed in or the one of the overridden method. *)
Lemma markAsObjC_convention (st st' : SemaState) (D D' : ValueDecl)
    (reason : option ObjCReason) (ec : option FEC.t) (c : FEC.t) :
  value (markAsObjC st D reason ec) = Some (D', st') ->
  getForeignErrorConvention D = None ->
  getForeignErrorConvention D' = Some c ->
  ec = Some c \/
  exists base, getOverriddenDecl D = Some base /\
               getForeignErrorConvention base = Some c.
Proof.
  unfold markAsObjC. intros H Hn Hc.
  destruct reason as [reason |].
  2:{ destruct (getDynamicAttr (setIsObjC D false));
        apply value_ret in H; inversion H; subst; simpl in Hc; congruence. }
  apply value_bind in H. destruct H as ([D1 r1] & H1 & H).
  assert (E1 : getForeignErrorConvention D1 = None /\
               getOverriddenDecl D1 = getOverriddenDecl D /\
               getDeclContext D1 = getDeclContext D).
  { destruct (getNonObjCAttr (setIsObjC D true)).
    - apply value_bind in H1. destruct H1 as (k & _ & H1).
      apply value_bind in H1. destruct H1 as (u & _ & H1).
      apply value_ret in H1. inversion H1; subst. simpl. auto.
    - apply value_ret in H1. inversion H1; subst. simpl. auto. }
  destruct E1 as (En1 & Eo1 & Ec1). clear H1.
  cbn [fst snd] in H.
  apply value_bind in H. destruct H as ([D2 st2] & H2 & H).
  cbn [fst snd] in H.
  assert (E2 : getForeignErrorConvention D2 = Some c ->
               ec = Some c \/
               exists base, getOverriddenDecl D = Some base /\
                            getForeignErrorConvention base = Some c).
  { intros Hc2. rewrite <- Eo1.
    destruct (getAsClassOrClassExtensionContext (getDeclContext D1))
      as [cd |].
    - destruct (isaAbstractFunctionDecl D1).
      + eapply markMethodOfClass_convention; eauto.
      + destruct (isaVarDecl D1).
        * apply value_bind in H2. destruct H2 as (D3 & H3 & H2).
          apply value_ret in H2. inversion H2; subst.
          apply inferObjCName_convention in H3. congruence.
        * apply value_ret in H2. inversion H2; subst. congruence.
    - destruct (isaAbstractFunctionDecl D1 && hasThrows D1).
      + apply value_bind in H2. destruct H2 as (D3 & H3 & H2).
        apply value_ret in H2. inversion H2; subst.
        apply attachErrorConvention_value in H3. destruct H3 as [H3 _].
        left. congruence.
      + apply value_ret in H2. inversion H2; subst. congruence. }
  clear H2.
  destruct (ObjCReason.eqb (reasonKind r1) ObjCReason.MemberOfObjCSubclass).
  - apply value_bind in H. destruct H as (D3 & H3 & H).
    apply value_ret in H. inversion H; subst.
    apply markSwift3Inferred_convention in H3. apply E2. congruence.
  - apply value_ret in H. inversion H; subst. apply E2. exact Hc.
Qed.

(** C10, as the code has it: every error convention the representability
    check of a function leaves has the zero-result or the nil-result
    kind, and the arm of the final switch for the non-nil-error kind
    forms a nil-result convention.  The convention that [markAsObjC]
    attaches to a declaration is that one or, for an override, the
    convention of the overridden method, whatever its kind. *)
Theorem conventions_formed_and_attached :
  (forall (AFD : ValueDecl) (Reason : ObjCReason) (b : bool) (conv : FEC.t),
      value (isRepresentableInObjC AFD Reason) = Some (b, Some conv) ->
      isZeroOrNilResult (FEC.getKind conv) = true) /\
  (forall (i : nat) (a r : option Ty),
      formErrorConvention FEC.NonNilError i a r
      = FEC.getNilResult i FEC.IsNotOwned FEC.IsNotReplaced a) /\
  (forall (st st' : SemaState) (D D' : ValueDecl) (Reason : ObjCReason)
          (b : bool) (ec : option FEC.t) (c : FEC.t),
      value (isRepresentableInObjC D Reason) = Some (b, ec) ->
      value (markAsObjC st D (Some Reason) ec) = Some (D', st') ->
      getForeignErrorConvention D = None ->
      getForeignErrorConvention D' = Some c ->
      isZeroOrNilResult (FEC.getKind c) = true \/
      exists base, getOverriddenDecl D = Some base /\
                   getForeignErrorConvention base = Some c).
Proof.
  assert (K : forall AFD Reason b conv,
             value (isRepresentableInObjC AFD Reason) = Some (b, Some conv) ->
             isZeroOrNilResult (FEC.getKind conv) = true).
  { intros AFD Reason b conv H. apply isRepresentableInObjC_formed in H.
    destruct H as (kind & rty & _ & _ & Hs & ->).
    apply selectErrorConventionKind_kinds in Hs.
    rewrite formErrorConvention_kind; assumption. }
  split; [exact K | split; [reflexivity |]].
  intros st st' D D' Reason b ec c Hr Hm Hn Hc.
  destruct (markAsObjC_convention _ _ _ _ Hm Hn Hc) as [-> | Hb];
    [left; eapply K; exact Hr | right; exact Hb].
Qed.

(** * Further properties of the code *)

(** ** The parameter list, in both modes *)

Lemma paramLoop_value (AFD : ValueDecl) (r : ObjCReason) (D : bool)
    (N : nat) :
  forall (PL : list ParamDecl) (i : nat) (b x : bool) (ds : list Diag),
    paramLoop AFD r D N i b PL = Done x ds ->
    x = b && allParametersPass AFD i PL.
Proof.
  induction PL as [| p rest IH]; intros i b x ds;
    cbn [paramLoop allParametersPass].
  - intros H. inversion H. rewrite andb_true_r. reflexivity.
  - unfold parameterFails.
    destruct (isVariadic p).
    { intros H. apply bind_Done in H.
      destruct H as (a & d1 & d2 & _ & H & _). inversion H.
      rewrite andb_false_r. reflexivity. }
    destruct (isInOut p).
    { intros H. apply bind_Done in H.
      destruct H as (a & d1 & d2 & _ & H & _). inversion H.
      rewrite andb_false_r. reflexivity. }
    destruct (isRepresentableIn AFD (getType p)); cbn [negb andb orb].
    { apply IH. }
    destruct (isReplacedErrorParameter AFD p i); cbn [negb andb orb].
    { apply IH. }
    destruct D; cbn [negb].
    + intros H. apply bind_Done in H.
      destruct H as (a & d1 & d2 & _ & H & _).
      apply IH in H. subst x. rewrite andb_false_r. reflexivity.
    + intros H. inversion H. rewrite andb_false_r. reflexivity.
Qed.

(** X1: whether diagnostics are enabled or not, the parameter list is
    representable exactly when every parameter passes: none is variadic
    or in-out, and each has a representable type or is the [()] that
    replaces the error parameter of the overridden method. *)
Theorem param_list_representable_iff_all_pass :
  forall (AFD : ValueDecl) (PL : list ParamDecl) (Reason : ObjCReason),
    reasonWellFormed AFD Reason = true ->
    exists ds,
      isParamListRepresentableInObjC AFD PL Reason
      = Done (allParametersPass AFD 0 PL) ds.
Proof.
  intros AFD PL Reason Hw.
  destruct (isParamListRepresentableInObjC_Done AFD Reason Hw PL)
    as (b & ds & E).
  exists ds. rewrite E. f_equal.
  unfold isParamListRepresentableInObjC in E.
  apply paramLoop_value in E. exact E.
Qed.

(** ** What the diagnostics of a parameter say *)

Lemma emitted_bind {A B} (c : Outcome A) (k : A -> Outcome B) d :
  In d (emitted (bind c k)) ->
  In d (emitted c) \/ exists a, value c = Some a /\ In d (emitted (k a)).
Proof.
  unfold bind. destruct c as [m | a d1]; simpl; [tauto |].
  destruct (k a) as [m | b d2] eqn:E; simpl; [tauto |].
  rewrite in_app_iff. intros [H | H]; [left; exact H |].
  right. exists a. rewrite E. auto.
Qed.

Lemma emitted_when (b : bool) (c : Outcome unit) d :
  In d (emitted (when b c)) -> b = true /\ In d (emitted c).
Proof. destruct b; simpl; [auto | tauto]. Qed.

Lemma getObjCDiagnosticAttrKind_emits (r : ObjCReason) :
  emitted (getObjCDiagnosticAttrKind r) = [].
Proof.
  unfold getObjCDiagnosticAttrKind. destruct (reasonKind r); reflexivity.
Qed.

Lemma findNonObjCProtocol_emits (ps : list ProtocolInfo) :
  exists r ds, findNonObjCProtocol ps = Done r ds /\
               List.length ds <= 1 /\
               (r = Some true -> ds = []) /\
               forall d, In d ds -> isTypeNote d = true.
Proof.
  induction ps as [| PD rest IH]; simpl.
  - exists (Some false), []. repeat split; auto; try (intros d []).
  - destruct (isErrorProtocol PD).
    + exists (Some true), []. repeat split; auto; try (intros d []).
    + destruct (protocolIsObjC PD); simpl; [exact IH |].
      exists None, [not_objc_protocol PD].
      repeat split; auto; try discriminate;
        try (intros d [<- | []]; reflexivity).
Qed.

Lemma diagnoseTypeNotRepresentableInObjC_cases :
  forall T : Ty,
    exists ds,
      diagnoseTypeNotRepresentableInObjC T = Done tt ds /\
      List.length ds <= 1 /\
      (forall d, In d ds -> isTypeNote d = true) /\
      (match T with
       | OptionalType _ | BoundGenericType _ _ | ErrorType => ds = []
       | ClassType c | BoundGenericClassType c _ =>
           ds = if classIsObjC c then [] else [not_objc_swift_class]
       | _ => True
       end).
Proof.
  intros T. unfold diagnoseTypeNotRepresentableInObjC.
  assert (One : forall d, isTypeNote d = true ->
                  exists ds, Done tt [d] = Done tt ds /\
                             List.length ds <= 1 /\
                             forall d', In d' ds -> isTypeNote d' = true).
  { intros d Hd. exists [d]. repeat split; auto;
      try (intros d' [<- | []]; exact Hd). }
  assert (Zero : exists ds, Done tt [] = Done tt ds /\
                            List.length ds <= 1 /\
                            forall d', In d' ds -> isTypeNote d' = true).
  { exists []. repeat split; auto; try (intros d' []). }
  assert (Protos : forall ps,
            exists ds,
              (saw <- findNonObjCProtocol ps ;;
               when (match saw with Some true => true | _ => false end)
                    (diagnose not_objc_error_protocol_composition))
              = Done tt ds /\
              List.length ds <= 1 /\
              forall d', In d' ds -> isTypeNote d' = true).
  { intros ps.
    destruct (findNonObjCProtocol_emits ps) as (r & ds & E & Hl & Hs & Hn).
    rewrite E. destruct r as [[|] |]; cbn.
    - rewrite (Hs eq_refl). cbn.
      exists [not_objc_error_protocol_composition]. repeat split; auto;
        try (intros d' [<- | []]; reflexivity).
    - rewrite app_nil_r. exists ds. auto.
    - rewrite app_nil_r. exists ds. auto. }
  destruct T as [ts | c | n | n e | o | sc ps | n | n | i r t | d a | c a |];
    cbn.
  - destruct ts; [destruct (One not_objc_empty_tuple eq_refl) as (ds & E & H)
                 | destruct (One not_objc_tuple eq_refl) as (ds & E & H)];
      exists ds; tauto.
  - destruct (classIsObjC c); cbn;
      [exists [] | exists [not_objc_swift_class]];
      repeat split; auto; try (intros d' [<- | []]; reflexivity);
      try (intros d' []).
  - destruct (One not_objc_swift_struct eq_refl) as (ds & E & H).
    exists ds; tauto.
  - destruct (One not_objc_swift_enum eq_refl) as (ds & E & H).
    exists ds; tauto.
  - exists []. repeat split; auto; try (intros d' []).
  - destruct sc as [sc |].
    + destruct (classIsObjC sc); cbn.
      * destruct (Protos ps) as (ds & E & H). exists ds. tauto.
      * destruct (One (not_objc_class_constraint sc) eq_refl)
          as (ds & E & H). exists ds; tauto.
    + destruct ps as [| PD rest].
      * destruct (One not_objc_empty_protocol_composition eq_refl)
          as (ds & E & H). exists ds; tauto.
      * destruct (Protos (PD :: rest)) as (ds & E & H). exists ds. tauto.
  - destruct (One not_objc_generic_type_param eq_refl) as (ds & E & H).
    exists ds; tauto.
  - destruct (One not_objc_generic_type_param eq_refl) as (ds & E & H).
    exists ds; tauto.
  - destruct t;
      [destruct (One not_objc_function_type_throwing eq_refl) as (ds & E & H)
      | destruct (One not_objc_function_type_param eq_refl) as (ds & E & H)];
      exists ds; tauto.
  - exists []. repeat split; auto; try (intros d' []).
  - destruct (classIsObjC c); cbn;
      [exists [] | exists [not_objc_swift_class]];
      repeat split; auto; try (intros d' [<- | []]; reflexivity);
      try (intros d' []).
  - exists []. repeat split; auto; try (intros d' []).
Qed.

(** X2: the diagnosis of a type that is not representable never aborts
    and emits at most one diagnostic, always one of the notes on types;
    for a class and for a bound generic class it emits
    [not_objc_swift_class] exactly when the class is not [@objc]; it
    emits none for an optional type, for a bound generic structure or
    enumeration and for an error type. *)
Theorem type_diagnosis_emits_at_most_one_note :
  forall T : Ty,
    exists ds,
      diagnoseTypeNotRepresentableInObjC T = Done tt ds /\
      List.length ds <= 1 /\
      (forall d, In d ds -> isTypeNote d = true) /\
      (match T with
       | OptionalType _ | BoundGenericType _ _ | ErrorType => ds = []
       | ClassType c | BoundGenericClassType c _ =>
           ds = if classIsObjC c then [] else [not_objc_swift_class]
       | _ => True
       end).
Proof. exact diagnoseTypeNotRepresentableInObjC_cases. Qed.

Lemma describeObjCReason_notes (VD : ValueDecl) (r : ObjCReason) d :
  In d (emitted (describeObjCReason VD r)) -> isReasonNote d = true.
Proof.
  intros H. apply describeObjCReason_emits in H.
  destruct d; try contradiction; reflexivity.
Qed.

Lemma diagnoseTypeNotRepresentableInObjC_notes (T : Ty) d :
  In d (emitted (diagnoseTypeNotRepresentableInObjC T)) ->
  isTypeNote d = true.
Proof.
  destruct (diagnoseTypeNotRepresentableInObjC_cases T) as (ds & E & _ & H & _).
  rewrite E. simpl. apply H.
Qed.

(** What a guarded diagnostic emits: the diagnostic itself, then notes
    on the reason. *)
Lemma guarded_when_emits (VD : ValueDecl) (r : ObjCReason) (D : bool)
    (mk : nat -> Diag) d :
  In d (emitted (when D (k <- getObjCDiagnosticAttrKind r ;;
                         diagnose (mk k) ;;; describeObjCReason VD r))) ->
  D = true /\
  (d = mk (reasonCode (reasonKind r)) \/ isReasonNote d = true).
Proof.
  intros H. apply emitted_when in H. destruct H as [HD H]. split; [exact HD |].
  apply emitted_bind in H. destruct H as [H | (k & Hk & H)].
  - rewrite getObjCDiagnosticAttrKind_emits in H. destruct H.
  - assert (k = reasonCode (reasonKind r)) as ->.
    { unfold getObjCDiagnosticAttrKind in Hk.
      destruct (reasonKind r); simpl in Hk; inversion Hk; reflexivity. }
    apply emitted_bind in H. destruct H as [[<- | []] | (u & _ & H)].
    + left. reflexivity.
    + right. eapply describeObjCReason_notes, H.
Qed.

Lemma diagnoseFunctionParamNotRepresentable_emits
    (AFD : ValueDecl) (N i : nat) (P : ParamDecl) (r : ObjCReason) d :
  In d (emitted (diagnoseFunctionParamNotRepresentable AFD N i P r)) ->
  (N = 1 /\
   d = objc_invalid_on_func_single_param_type (reasonCode (reasonKind r))) \/
  (N <> 1 /\
   d = objc_invalid_on_func_param_type (i + 1) (reasonCode (reasonKind r))) \/
  isTypeNote d = true \/ isReasonNote d = true.
Proof.
  unfold diagnoseFunctionParamNotRepresentable.
  destruct (shouldDiagnoseObjCReason r ctx) eqn:Hd; cbn [negb];
    [| simpl; tauto].
  rewrite (getObjCDiagnosticAttrKind_Done _ Hd).
  intros H. apply emitted_bind in H. destruct H as [H | (u & _ & H)].
  - destruct (Nat.eqb N 1) eqn:EN; simpl in H; destruct H as [<- | []].
    + left. apply Nat.eqb_eq in EN. auto.
    + right; left. apply Nat.eqb_neq in EN. auto.
  - apply emitted_bind in H. destruct H as [H | (v & _ & H)].
    + right; right; left. eapply diagnoseTypeNotRepresentableInObjC_notes, H.
    + right; right; right. eapply describeObjCReason_notes, H.
Qed.

Lemma paramLoop_positions (AFD : ValueDecl) (r : ObjCReason) (D : bool)
    (N : nat) :
  forall (PL : list ParamDecl) (i : nat) (b : bool) (d : Diag),
    In d (emitted (paramLoop AFD r D N i b PL)) ->
    match d with
    | objc_invalid_on_func_param_type pos _ =>
        N <> 1 /\ i < pos /\ pos <= i + List.length PL /\
        exists p, nth_error PL (pos - 1 - i) = Some p /\
                  parameterFails AFD (pos - 1) p = true
    | objc_invalid_on_func_single_param_type _ => N = 1
    | _ => True
    end.
Proof.
  induction PL as [| p rest IH]; intros i b d; cbn [paramLoop].
  - simpl. tauto.
  - assert (G : forall mk,
               (forall k, match mk k with
                          | objc_invalid_on_func_param_type _ _
                          | objc_invalid_on_func_single_param_type _ => False
                          | _ => True
                          end) ->
               In d (emitted
                       (when (D && shouldDiagnoseObjCReason r ctx)
                          (k <- getObjCDiagnosticAttrKind r ;;
                           diagnose (mk k) ;;; describeObjCReason AFD r) ;;;
                        ret false)) ->
               match d with
               | objc_invalid_on_func_param_type _ _
               | objc_invalid_on_func_single_param_type _ => False
               | _ => True
               end).
    { intros mk Hmk H. apply emitted_bind in H.
      destruct H as [H | (u & _ & H)]; [| destruct H].
      apply guarded_when_emits in H. destruct H as [_ [-> | H]].
      - specialize (Hmk (reasonCode (reasonKind r))).
        destruct (mk (reasonCode (reasonKind r))); tauto.
      - destruct d; try discriminate; exact I. }
    destruct (isVariadic p) eqn:Ev.
    { intros H. apply (G objc_invalid_on_func_variadic) in H;
        [destruct d; tauto | intros k; exact I]. }
    destruct (isInOut p) eqn:Ei.
    { intros H. apply (G objc_invalid_on_func_inout) in H;
        [destruct d; tauto | intros k; exact I]. }
    assert (Next : In d (emitted (paramLoop AFD r D N (S i) b rest)) \/
                   In d (emitted (paramLoop AFD r D N (S i) false rest)) ->
                   match d with
                   | objc_invalid_on_func_param_type pos _ =>
                       N <> 1 /\ i < pos /\
                       pos <= i + List.length (p :: rest) /\
                       exists q, nth_error (p :: rest) (pos - 1 - i) = Some q /\
                                 parameterFails AFD (pos - 1) q = true
                   | objc_invalid_on_func_single_param_type _ => N = 1
                   | _ => True
                   end).
    { intros H.
      assert (H' : match d with
                   | objc_invalid_on_func_param_type pos _ =>
                       N <> 1 /\ S i < pos /\
                       pos <= S i + List.length rest /\
                       exists q, nth_error rest (pos - 1 - S i) = Some q /\
                                 parameterFails AFD (pos - 1) q = true
                   | objc_invalid_on_func_single_param_type _ => N = 1
                   | _ => True
                   end)
        by (destruct H as [H | H]; eapply IH; exact H).
      destruct d; try exact H'.
      destruct H' as (HN & Hlt & Hle & q & Hq & Hf).
      cbn [List.length]. repeat split; try lia.
      exists q. split; [| exact Hf].
      replace (position - 1 - i) with (S (position - 1 - S i)) by lia.
      exact Hq. }
    destruct (isRepresentableIn AFD (getType p)) eqn:Er;
      [intros H; apply Next; auto |].
    destruct (isReplacedErrorParameter AFD p i) eqn:Ex;
      [intros H; apply Next; auto |].
    destruct D; cbn [negb]; [| simpl; tauto].
    intros H. apply emitted_bind in H.
    destruct H as [H | (u & _ & H)]; [| apply Next; auto].
    apply diagnoseFunctionParamNotRepresentable_emits in H.
    destruct H as [(HN & ->) | [(HN & ->) | [H | H]]].
    + exact HN.
    + cbn [List.length]. repeat split; try lia.
      exists p. replace (i + 1 - 1 - i) with 0 by lia.
      split; [reflexivity |].
      replace (i + 1 - 1) with i by lia.
      unfold parameterFails. rewrite Ev, Ei, Er, Ex. reflexivity.
    + destruct d; try discriminate; exact I.
    + destruct d; try discriminate; exact I.
Qed.

(** X3: a diagnostic on a parameter type that the parameter list check
    emits counts positions from 1: its position lies between 1 and the
    number of parameters and designates a parameter that fails, and the
    list has more than one parameter; the form without a position is
    emitted only for a list of exactly one parameter. *)
Theorem parameter_diagnostics_are_one_based :
  forall (AFD : ValueDecl) (PL : list ParamDecl) (Reason : ObjCReason)
         (d : Diag),
    In d (emitted (isParamListRepresentableInObjC AFD PL Reason)) ->
    match d with
    | objc_invalid_on_func_param_type pos _ =>
        List.length PL <> 1 /\ 1 <= pos /\ pos <= List.length PL /\
        exists p, nth_error PL (pos - 1) = Some p /\
                  parameterFails AFD (pos - 1) p = true
    | objc_invalid_on_func_single_param_type _ => List.length PL = 1
    | _ => True
    end.
Proof.
  intros AFD PL Reason d H. unfold isParamListRepresentableInObjC in H.
  apply paramLoop_positions in H.
  destruct d; try exact H.
  destruct H as (HN & Hlt & Hle & p & Hp & Hf).
  repeat split; try lia. exists p.
  rewrite Nat.sub_0_r in Hp. auto.
Qed.

(** ** The verdict of the check *)

Lemma value_guarded {B} (c : Outcome unit) (x y : B) :
  value (c ;;; ret x) = Some y -> y = x.
Proof.
  intros H. apply value_bind in H. destruct H as (u & _ & H).
  apply value_ret in H. auto.
Qed.

Lemma checkObjCInForeignClassContext_value (VD : ValueDecl)
    (Reason : ObjCReason) (b : bool) :
  value (checkObjCInForeignClassContext VD Reason) = Some b ->
  b = negb match getAsClassOrClassExtensionContext (getDeclContext VD) with
           | Some clas =>
               match getForeignClassKind clas with
               | FK_Normal => true
               | _ => false
               end
           | None => true
           end.
Proof.
  unfold checkObjCInForeignClassContext.
  destruct (getAsClassOrClassExtensionContext (getDeclContext VD)) as [c |].
  - destruct (getForeignClassKind c); intros H;
      [apply value_ret in H | apply value_guarded in H
      | apply value_guarded in H]; subst; reflexivity.
  - intros H. apply value_ret in H. subst. reflexivity.
Qed.

Lemma checkObjCWithGenericParams_value (AFD : ValueDecl)
    (Reason : ObjCReason) (b : bool) :
  value (checkObjCWithGenericParams AFD Reason) = Some b ->
  b = getGenericParams AFD.
Proof.
  unfold checkObjCWithGenericParams.
  destruct (getGenericParams AFD); intros H;
    [apply value_guarded in H | apply value_ret in H]; auto.
Qed.

Lemma checkObjCInExtensionContext_value (VD : ValueDecl) (D b : bool) :
  value (checkObjCInExtensionContext VD D) = Some b ->
  b = negb match getDeclContext VD with
           | ExtensionContext ED _ =>
               negb (getTrailingWhereClause ED) &&
               match getGenericAncestor ED with
               | Some hasClangNode => hasClangNode
               | None => true
               end
           | _ => true
           end.
Proof.
  unfold checkObjCInExtensionContext.
  destruct (getDeclContext VD) as [c | ED ext | p |];
    try (intros H; apply value_ret in H; subst; reflexivity).
  destruct (getTrailingWhereClause ED).
  { intros H. apply value_guarded in H. subst. reflexivity. }
  destruct (getGenericAncestor ED) as [[|] |]; intros H;
    [apply value_ret in H | apply value_guarded in H | apply value_ret in H];
    subst; reflexivity.
Qed.

Lemma accessorRepresentable_value (accessor : ValueDecl)
    (kind : AccessorKind) (storage : StorageDecl) (Reason : ObjCReason)
    (D b : bool) :
  value (accessorRepresentable accessor kind storage Reason D) = Some b ->
  b = accessorAllowsObjC kind storage Reason.
Proof.
  unfold accessorRepresentable, accessorAllowsObjC.
  destruct (storageIsObjC storage),
    (ObjCReason.eqb (reasonKind Reason) ObjCReason.ExplicitlyCDecl),
    (ObjCReason.eqb (reasonKind Reason) ObjCReason.WitnessToObjC);
    cbn [negb andb orb];
    try (intros H; apply value_guarded in H; subst; reflexivity);
    destruct kind; intros H;
      try (apply value_ret in H; subst; reflexivity);
      apply value_guarded in H; subst; reflexivity.
Qed.

Lemma resultNotRepresentable_value (FD : ValueDecl) (Reason : ObjCReason)
    (D b : bool) :
  value (resultNotRepresentable FD Reason D) = Some b ->
  b = negb (resultAllowsObjC FD).
Proof.
  unfold resultNotRepresentable, resultAllowsObjC.
  destruct (getDeclKind FD) as [rt t | k s rt | f t | | |];
    try (intros H; apply value_ret in H; subst; reflexivity);
    cbv zeta;
    destruct (hasError (mapTypeIntoContext FD rt)),
      (isVoid (mapTypeIntoContext FD rt)),
      (isUninhabited (mapTypeIntoContext FD rt)),
      (isRepresentableIn FD (mapTypeIntoContext FD rt));
    cbn [negb andb orb]; intros H;
    try (apply value_ret in H; subst; reflexivity);
    apply value_guarded in H; subst; reflexivity.
Qed.

Lemma paramListFails_value (AFD : ValueDecl) (Reason : ObjCReason)
    (b : bool) :
  value (paramListFails AFD Reason) = Some b ->
  b = negb (parametersAllowObjC AFD).
Proof.
  unfold paramListFails, parametersAllowObjC.
  destruct (isaConstructorDecl AFD && isObjCZeroParameterWithLongSelector AFD);
    cbn [negb orb].
  - intros H. apply value_ret in H. auto.
  - intros H. apply value_bind in H. destruct H as (ok & Hok & H).
    apply value_ret in H. subst b. f_equal.
    unfold isParamListRepresentableInObjC in Hok.
    destruct (paramLoop AFD Reason (shouldDiagnoseObjCReason Reason ctx)
                (List.length (getParameters AFD)) 0 true (getParameters AFD))
      as [m | x ds] eqn:E; [discriminate |].
    simpl in Hok. inversion Hok; subst.
    apply paramLoop_value in E. exact E.
Qed.

Lemma contextAllowsObjC_split (AFD : ValueDecl) :
  contextAllowsObjC AFD
  = negb (negb match getAsClassOrClassExtensionContext (getDeclContext AFD)
               with
               | Some clas =>
                   match getForeignClassKind clas with
                   | FK_Normal => true
                   | _ => false
                   end
               | None => true
               end) &&
    negb (getGenericParams AFD) &&
    negb (negb match getDeclContext AFD with
               | ExtensionContext ED _ =>
                   negb (getTrailingWhereClause ED) &&
                   match getGenericAncestor ED with
                   | Some hasClangNode => hasClangNode
                   | None => true
                   end
               | _ => true
               end) &&
    negb (isOperator AFD).
Proof. unfold contextAllowsObjC. rewrite !negb_involutive. reflexivity. Qed.

(** The checks of the context: when one of them rejects the function,
    the check returns false without a convention; otherwise it goes on
    with what [k] stands for. *)
Lemma isRepresentableInObjC_value (AFD : ValueDecl) (Reason : ObjCReason)
    (r : bool * option FEC.t) :
  value (isRepresentableInObjC AFD Reason) = Some r ->
  (contextAllowsObjC AFD = false /\ r = (false, None)) \/
  (contextAllowsObjC AFD = true /\
   match getDeclKind AFD with
   | KAccessor kind storage _ =>
       r = (accessorAllowsObjC kind storage Reason, None)
   | _ =>
       (parametersAllowObjC AFD = false /\
        shouldDiagnoseObjCReason Reason ctx = false /\ r = (false, None)) \/
       ((parametersAllowObjC AFD = true \/
         shouldDiagnoseObjCReason Reason ctx = true) /\
        value (checkResultAndThrows AFD Reason
                 (shouldDiagnoseObjCReason Reason ctx)) = Some r)
   end).
Proof.
  rewrite contextAllowsObjC_split. unfold isRepresentableInObjC. intros H.
  apply value_bind in H. destruct H as (f & Hf & H).
  apply checkObjCInForeignClassContext_value in Hf. rewrite <- Hf.
  destruct f; [apply value_ret in H; left; auto |].
  apply value_bind in H. destruct H as (g & Hg & H).
  apply checkObjCWithGenericParams_value in Hg. rewrite <- Hg.
  destruct g; [apply value_ret in H; left; auto |].
  apply value_bind in H. destruct H as (e & He & H).
  apply checkObjCInExtensionContext_value in He. rewrite <- He.
  destruct e; [apply value_ret in H; left; auto |].
  destruct (isOperator AFD).
  { apply value_guarded in H. left. auto. }
  right. split; [reflexivity |].
  assert (K : value
                (paramsFailed <- paramListFails AFD Reason ;;
                 if paramsFailed && negb (shouldDiagnoseObjCReason Reason ctx)
                 then ret (false, None)
                 else checkResultAndThrows AFD Reason
                        (shouldDiagnoseObjCReason Reason ctx)) = Some r ->
              (parametersAllowObjC AFD = false /\
               shouldDiagnoseObjCReason Reason ctx = false /\
               r = (false, None)) \/
              ((parametersAllowObjC AFD = true \/
                shouldDiagnoseObjCReason Reason ctx = true) /\
               value (checkResultAndThrows AFD Reason
                        (shouldDiagnoseObjCReason Reason ctx)) = Some r)).
  { clear H. intros H. apply value_bind in H. destruct H as (pf & Hpf & H).
    apply paramListFails_value in Hpf. subst pf.
    destruct (parametersAllowObjC AFD),
      (shouldDiagnoseObjCReason Reason ctx); cbn [negb andb] in H.
    - right. auto.
    - right. auto.
    - right. auto.
    - left. apply value_ret in H. auto. }
  destruct (getDeclKind AFD) as [rt t | k s rt | f t | | |];
    try (apply K; exact H).
  apply value_bind in H. destruct H as (b & Hb & H).
  apply accessorRepresentable_value in Hb. apply value_ret in H.
  subst. reflexivity.
Qed.

(** X4: for a function or an initializer that does not throw (and any
    destructor), the check returns exactly: the context allows it, and
    the parameters pass or diagnostics are enabled for the reason, and
    the result type allows it.  It never leaves a convention.  With
    diagnostics enabled the parameters do not count. *)
Theorem verdict_of_non_throwing_function :
  forall (AFD : ValueDecl) (Reason : ObjCReason),
    reasonWellFormed AFD Reason = true ->
    hasThrows AFD = false ->
    (forall k s t, getDeclKind AFD <> KAccessor k s t) ->
    value (isRepresentableInObjC AFD Reason)
    = Some (contextAllowsObjC AFD &&
            (parametersAllowObjC AFD || shouldDiagnoseObjCReason Reason ctx) &&
            resultAllowsObjC AFD,
            None).
Proof.
  intros AFD Reason Hw Ht Hacc.
  destruct (isRepresentableInObjC_Done AFD Reason Hw) as (r & ds & E).
  rewrite E. simpl. f_equal.
  assert (V : value (isRepresentableInObjC AFD Reason) = Some r)
    by (rewrite E; reflexivity).
  apply isRepresentableInObjC_value in V.
  destruct V as [[Hc ->] | [Hc V]]; rewrite Hc; [reflexivity |].
  cbn [andb].
  assert (K : (parametersAllowObjC AFD = false /\
               shouldDiagnoseObjCReason Reason ctx = false /\
               r = (false, None)) \/
              ((parametersAllowObjC AFD = true \/
                shouldDiagnoseObjCReason Reason ctx = true) /\
               value (checkResultAndThrows AFD Reason
                        (shouldDiagnoseObjCReason Reason ctx)) = Some r)).
  { destruct (getDeclKind AFD) as [rt t | k s rt | f t | | |] eqn:Ek;
      try exact V.
    exfalso. exact (Hacc k s rt eq_refl). }
  destruct K as [(Hp & Hd & ->) | [Hpd K]].
  - rewrite Hp, Hd. reflexivity.
  - assert (parametersAllowObjC AFD || shouldDiagnoseObjCReason Reason ctx
            = true) as ->.
    { destruct Hpd as [-> | ->];
        [reflexivity | apply orb_true_r]. }
    cbn [andb]. unfold checkResultAndThrows in K.
    apply value_bind in K. destruct K as (br & Hbr & K).
    apply resultNotRepresentable_value in Hbr. subst br.
    destruct (resultAllowsObjC AFD); cbn [negb] in K.
    + rewrite Ht in K. apply value_ret in K. auto.
    + apply value_ret in K. auto.
Qed.

(** X5: an accessor is representable exactly when the context allows
    it, it is a getter or a setter, and its storage is [@objc] or the
    reason is [@_cdecl] or a witness; it never gets a convention, and
    neither its parameters nor its result type are looked at. *)
Theorem verdict_of_accessor :
  forall (AFD : ValueDecl) (Reason : ObjCReason) (kind : AccessorKind)
         (storage : StorageDecl) (resultType : Ty),
    reasonWellFormed AFD Reason = true ->
    getDeclKind AFD = KAccessor kind storage resultType ->
    value (isRepresentableInObjC AFD Reason)
    = Some (contextAllowsObjC AFD && accessorAllowsObjC kind storage Reason,
            None).
Proof.
  intros AFD Reason kind storage resultType Hw Hk.
  destruct (isRepresentableInObjC_Done AFD Reason Hw) as (r & ds & E).
  rewrite E. simpl. f_equal.
  assert (V : value (isRepresentableInObjC AFD Reason) = Some r)
    by (rewrite E; reflexivity).
  apply isRepresentableInObjC_value in V.
  destruct V as [[Hc ->] | [Hc V]]; rewrite Hc; [reflexivity |].
  rewrite Hk in V. exact V.
Qed.

Lemma isRepresentableInObjC_true_inv :
  forall (AFD : ValueDecl) (Reason : ObjCReason) (c : option FEC.t),
    value (isRepresentableInObjC AFD Reason) = Some (true, c) ->
    contextAllowsObjC AFD = true /\
    match getDeclKind AFD with
    | KAccessor kind storage _ =>
        accessorAllowsObjC kind storage Reason = true /\ c = None
    | KFunc _ _ =>
        resultAllowsObjC AFD = true /\
        (c = None <-> hasThrows AFD = false)
    | KConstructor failability throwing =>
        (throwing = true -> failability = OTK_None) /\
        (c = None <-> throwing = false)
    | _ => c = None
    end.
Proof.
  intros AFD Reason c V.
  pose proof V as V0.
  apply isRepresentableInObjC_value in V.
  destruct V as [[Hc V] | [Hc V]]; [discriminate |].
  split; [exact Hc |].
  assert (T : (hasThrows AFD = true -> exists conv, c = Some conv) ->
              (hasThrows AFD = false -> c = None) ->
              (c = None <-> hasThrows AFD = false)).
  { intros H1 H2. split.
    - intros ->. destruct (hasThrows AFD); [| reflexivity].
      destruct (H1 eq_refl) as [conv Hconv]. discriminate.
    - exact H2. }
  assert (R : value (checkResultAndThrows AFD Reason
                       (shouldDiagnoseObjCReason Reason ctx))
              = Some (true, c) ->
              resultAllowsObjC AFD = true /\
              (hasThrows AFD = true ->
               exists conv, c = Some conv /\
                 value (throwingConvention AFD Reason
                          (shouldDiagnoseObjCReason Reason ctx))
                 = Some (true, Some conv)) /\
              (hasThrows AFD = false -> c = None)).
  { unfold checkResultAndThrows. intros K.
    apply value_bind in K. destruct K as (br & Hbr & K).
    apply resultNotRepresentable_value in Hbr. subst br.
    destruct (resultAllowsObjC AFD); cbn [negb] in K;
      [| apply value_ret in K; discriminate].
    split; [reflexivity |].
    destruct (hasThrows AFD).
    - split; [| discriminate]. intros _.
      pose proof K as K'. unfold throwingConvention in K.
      apply value_bind in K. destruct K as (sel & _ & K).
      destruct sel as [[kind rty] |]; apply value_ret in K; [| discriminate].
      inversion K; subst. eexists. split; [reflexivity | exact K'].
    - apply value_ret in K. inversion K. split; [discriminate | auto]. }
  destruct (getDeclKind AFD) as [rt t | k s rt | f t | | |] eqn:Ek.
  - destruct V as [(_ & _ & V) | [_ V]]; [discriminate |].
    apply R in V. destruct V as (Hr & H1 & H2). split; [exact Hr |].
    apply T; [| exact H2].
    intros Ht. destruct (H1 Ht) as (conv & -> & _). eauto.
  - inversion V. auto.
  - destruct V as [(_ & _ & V) | [_ V]]; [discriminate |].
    apply R in V. destruct V as (_ & H1 & H2).
    assert (Ht : hasThrows AFD = t) by (unfold hasThrows; rewrite Ek; auto).
    rewrite Ht in *. split.
    + intros ->. destruct (H1 eq_refl) as (conv & -> & K).
      apply throwingConvention_formed in K.
      destruct K as (kind & rty & Hs & _).
      unfold selectErrorConventionKind in Hs. rewrite Ek in Hs.
      destruct f; [reflexivity | |];
        apply value_guarded in Hs; discriminate.
    + apply T; [| exact H2].
      intros Ht'. destruct (H1 Ht') as (conv & -> & _). eauto.
  - destruct V as [(_ & _ & V) | [_ V]]; [discriminate |].
    apply R in V. destruct V as (_ & _ & H2). apply H2.
    unfold hasThrows. rewrite Ek. reflexivity.
  - destruct V as [(_ & _ & V) | [_ V]]; [discriminate |].
    apply R in V. destruct V as (_ & _ & H2). apply H2.
    unfold hasThrows. rewrite Ek. reflexivity.
  - destruct V as [(_ & _ & V) | [_ V]]; [discriminate |].
    apply R in V. destruct V as (_ & _ & H2). apply H2.
    unfold hasThrows. rewrite Ek. reflexivity.
Qed.

(** C3, for an attribute without any name: when the [@objc] attribute of
    a throwing function or initializer (not the initializer with a
    zero-parameter long selector) carries no name, neither written nor
    implicit, the convention is formed with, as index of the error
    parameter, the number of parameters minus the number of trailing
    parameters whose type, looking through one level of optionality, is
    a function type: whenever a kind is selected the synthesis returns
    true with such a convention, and whenever the check returns true it
    has left such a convention. *)
Theorem default_error_parameter_index :
  forall (AFD : ValueDecl) (Reason : ObjCReason),
    hasThrows AFD = true ->
    attrHasName (getObjCAttr AFD) = false ->
    isObjCZeroParameterWithLongSelector AFD = false ->
    (forall (D : bool) (kind : FEC.Kind) (errorResultType : option Ty)
            (ds : list Diag),
        selectErrorConventionKind AFD Reason D
        = Done (Some (kind, errorResultType)) ds ->
        exists conv,
          throwingConvention AFD Reason D = Done (true, Some conv) ds /\
          FEC.getErrorParameterIndex conv
          = List.length (getParameters AFD)
            - trailingFunctionParameters (getParameters AFD)) /\
    (forall c : option FEC.t,
        value (isRepresentableInObjC AFD Reason) = Some (true, c) ->
        exists conv,
          c = Some conv /\
          FEC.getErrorParameterIndex conv
          = List.length (getParameters AFD)
            - trailingFunctionParameters (getParameters AFD)) /\
    errorParameterIndexOf AFD
    = List.length (getParameters AFD)
      - trailingFunctionParameters (getParameters AFD).
Proof.
  intros AFD Reason Ht Hn Hs.
  pose proof (errorParameterIndexOf_unnamed AFD Hn Hs) as E.
  split; [| split; [| exact E]].
  - intros D kind rty ds Hsel. unfold throwingConvention.
    rewrite Hsel. cbn. rewrite app_nil_r.
    eexists. split; [reflexivity |].
    rewrite formErrorConvention_index. exact E.
  - intros c V.
    assert (Hc : exists conv, c = Some conv).
    { pose proof (isRepresentableInObjC_true_inv AFD Reason V) as [_ I].
      destruct (getDeclKind AFD) as [rt t | k s rt | fl t | | |] eqn:Ek;
        unfold hasThrows in Ht; rewrite Ek in Ht; try discriminate.
      - destruct I as [_ [I _]]. destruct c as [conv |]; [eauto |].
        specialize (I eq_refl). unfold hasThrows in I. rewrite Ek in I.
        congruence.
      - destruct I as [_ [I _]]. destruct c as [conv |]; [eauto |].
        specialize (I eq_refl). congruence. }
    destruct Hc as [conv ->]. exists conv. split; [reflexivity |].
    apply isRepresentableInObjC_formed in V.
    destruct V as (kind & rty & _ & _ & _ & ->).
    rewrite formErrorConvention_index. exact E.
Qed.

(** X6: whatever the reason and the mode, a function for which the check
    returns true is allowed by its context and by its result type, is a
    non-failable initializer if it is a throwing initializer, and has an
    error convention exactly when it throws. *)
Theorem necessary_conditions_of_representability :
  forall (AFD : ValueDecl) (Reason : ObjCReason) (c : option FEC.t),
    value (isRepresentableInObjC AFD Reason) = Some (true, c) ->
    contextAllowsObjC AFD = true /\
    match getDeclKind AFD with
    | KAccessor kind storage _ =>
        accessorAllowsObjC kind storage Reason = true /\ c = None
    | KFunc _ _ =>
        resultAllowsObjC AFD = true /\
        (c = None <-> hasThrows AFD = false)
    | KConstructor failability throwing =>
        (throwing = true -> failability = OTK_None) /\
        (c = None <-> throwing = false)
    | _ => c = None
    end.
Proof. exact isRepresentableInObjC_true_inv. Qed.

(** ** A reason that is not diagnosed *)

Lemma bind_Done_nil {A B} (a : A) (k : A -> Outcome B) :
  bind (Done a []) k = k a.
Proof. unfold bind. destruct (k a); reflexivity. Qed.

Section Silent.

Variables (AFD : ValueDecl) (Reason : ObjCReason).
Hypothesis Hd : shouldDiagnoseObjCReason Reason ctx = false.

Lemma checkObjCInForeignClassContext_silent :
  exists b, checkObjCInForeignClassContext AFD Reason = Done b [].
Proof.
  unfold checkObjCInForeignClassContext. rewrite Hd.
  destruct (getAsClassOrClassExtensionContext (getDeclContext AFD)) as [c |];
    [| eexists; reflexivity].
  destruct (getForeignClassKind c); eexists; reflexivity.
Qed.

Lemma checkObjCWithGenericParams_silent :
  exists b, checkObjCWithGenericParams AFD Reason = Done b [].
Proof.
  unfold checkObjCWithGenericParams. rewrite Hd.
  destruct (getGenericParams AFD); eexists; reflexivity.
Qed.

Lemma checkObjCInExtensionContext_silent :
  exists b, checkObjCInExtensionContext AFD false = Done b [].
Proof.
  clear Hd. unfold checkObjCInExtensionContext.
  destruct (getDeclContext AFD) as [c | ED ext | p |];
    try (eexists; reflexivity).
  destruct (getTrailingWhereClause ED); [eexists; reflexivity |].
  destruct (getGenericAncestor ED) as [[|] |]; eexists; reflexivity.
Qed.

Lemma accessorRepresentable_silent (kind : AccessorKind)
    (storage : StorageDecl) :
  exists b, accessorRepresentable AFD kind storage Reason false = Done b [].
Proof.
  clear Hd. unfold accessorRepresentable.
  match goal with
  | |- context [if ?c then _ else _] => destruct c
  end; [eexists; reflexivity |].
  destruct kind; eexists; reflexivity.
Qed.

Lemma paramListFails_silent :
  exists b, paramListFails AFD Reason = Done b [].
Proof.
  unfold paramListFails, isParamListRepresentableInObjC. rewrite Hd.
  match goal with
  | |- context [if ?c then _ else _] => destruct c
  end; [| eexists; reflexivity].
  destruct (paramLoop_silent AFD Reason (List.length (getParameters AFD))
              (getParameters AFD) 0 true) as [x E].
  rewrite E. eexists; reflexivity.
Qed.

Lemma resultNotRepresentable_silent :
  exists b, resultNotRepresentable AFD Reason false = Done b [].
Proof.
  clear Hd. unfold resultNotRepresentable.
  destruct (getDeclKind AFD); try (eexists; reflexivity);
    match goal with
    | |- context [if ?c then _ else _] => destruct c
    end; eexists; reflexivity.
Qed.

Lemma throwingConvention_silent :
  hasThrows AFD = true ->
  exists r ds, throwingConvention AFD Reason false = Done r ds /\
               (ds = [] \/ ds = [broken_bool]).
Proof.
  clear Hd. unfold throwingConvention, selectErrorConventionKind, hasThrows.
  destruct (getDeclKind AFD) as [rt t | k s rt | f t | | |];
    intros Ht; try discriminate.
  - unfold selectFunctionErrorConventionKind.
    destruct (isVoid rt).
    { destruct (getObjCBoolDecl ctx); [do 2 eexists; split; [reflexivity | auto] |].
      destruct (getBoolDecl ctx); do 2 eexists; split;
        try reflexivity; auto. }
    destruct (getOptionalObjectType rt) as [o |].
    + destruct (isBridgedToObjectiveCClass AFD o);
        do 2 eexists; split; try reflexivity; auto.
    + destruct (isBridgedToObjectiveCClass AFD rt);
        do 2 eexists; split; try reflexivity; auto.
  - destruct f; do 2 eexists; split; try reflexivity; auto.
Qed.

End Silent.

Lemma isRepresentableInObjC_silent :
  forall (AFD : ValueDecl) (Reason : ObjCReason),
    shouldDiagnoseObjCReason Reason ctx = false ->
    exists r ds,
      isRepresentableInObjC AFD Reason = Done r ds /\
      List.length ds <= 1 /\
      forall d, In d ds -> isUngatedDiagnostic d = true.
Proof.
  intros AFD Reason Hd.
  assert (G : exists r ds,
             isRepresentableInObjC AFD Reason = Done r ds /\
             (ds = [] \/ ds = [objc_operator] \/ ds = [objc_operator_proto]
              \/ ds = [broken_bool])).
  { unfold isRepresentableInObjC. rewrite Hd.
    destruct (checkObjCInForeignClassContext_silent AFD Reason Hd) as [f ->].
    rewrite bind_Done_nil.
    destruct f; [do 2 eexists; split; [reflexivity | auto] |].
    destruct (checkObjCWithGenericParams_silent AFD Reason Hd) as [g ->].
    rewrite bind_Done_nil.
    destruct g; [do 2 eexists; split; [reflexivity | auto] |].
    destruct (checkObjCInExtensionContext_silent AFD) as [e ->].
    rewrite bind_Done_nil.
    destruct e; [do 2 eexists; split; [reflexivity | auto] |].
    destruct (isOperator AFD).
    { destruct (isProtocolContext (getDeclContext AFD));
        do 2 eexists; split; try reflexivity; auto. }
    assert (K : exists r ds,
               (paramsFailed <- paramListFails AFD Reason ;;
                if paramsFailed && negb false then ret (false, None)
                else checkResultAndThrows AFD Reason false) = Done r ds /\
               (ds = [] \/ ds = [objc_operator] \/
                ds = [objc_operator_proto] \/ ds = [broken_bool])).
    { destruct (paramListFails_silent AFD Reason Hd) as [pf ->].
      rewrite bind_Done_nil.
      destruct pf; cbn [negb andb];
        [do 2 eexists; split; [reflexivity | auto] |].
      unfold checkResultAndThrows.
      destruct (resultNotRepresentable_silent AFD Reason) as [br ->].
      rewrite bind_Done_nil.
      destruct br; [do 2 eexists; split; [reflexivity | auto] |].
      destruct (hasThrows AFD) eqn:Ht;
        [| do 2 eexists; split; [reflexivity | auto]].
      destruct (throwingConvention_silent AFD Reason Ht)
        as (r & ds & E & [-> | ->]);
        exists r; eexists; split; try exact E; auto. }
    destruct (getDeclKind AFD) as [rt t | k s rt | f t | | |];
      try exact K.
    destruct (accessorRepresentable_silent AFD Reason k s) as [b ->].
    rewrite bind_Done_nil. do 2 eexists; split; [reflexivity | auto]. }
  destruct G as (r & ds & E & H). exists r, ds. split; [exact E |].
  destruct H as [-> | [-> | [-> | ->]]]; simpl; split; auto;
    intros d Hin; destruct Hin as [<- | []]; reflexivity.
Qed.

(** X7: under a reason that is not diagnosed the check of a function
    never aborts, even on a reason that is not well formed, and emits at
    most one diagnostic, which is one of the three that [Diagnose] does
    not guard: the two on operators and [broken_bool]. *)
Theorem silent_reason_emits_only_ungated_diagnostics :
  forall (AFD : ValueDecl) (Reason : ObjCReason),
    shouldDiagnoseObjCReason Reason ctx = false ->
    exists r ds,
      isRepresentableInObjC AFD Reason = Done r ds /\
      List.length ds <= 1 /\
      forall d, In d ds -> isUngatedDiagnostic d = true.
Proof. exact isRepresentableInObjC_silent. Qed.

(** ** Name inference, beyond overrides without a name *)

Lemma ObjCSelector_eqb_refl (a : ObjCSelector) : ObjCSelector_eqb a a = true.
Proof. apply ObjCSelector_eqb_eq. reflexivity. Qed.

Lemma hasOtherName_spec (attr : option ObjCAttr) (sel : ObjCSelector) :
  attrHasName attr && hasOtherName attr sel
  = match attr with
    | Some a =>
        match getName a with
        | Some n => negb (ObjCSelector_eqb n sel)
        | None => false
        end
    | None => false
    end.
Proof.
  unfold attrHasName, hasOtherName, hasName.
  destruct attr as [a |]; [| reflexivity].
  destruct (getName a); reflexivity.
Qed.

(** What adopting the name of the overridden declaration gives. *)
Lemma adoptOverriddenName_result (B : ValueDecl) (sel : ObjCSelector)
    (mismatch : Diag) :
  exists B',
    adoptOverriddenName B sel mismatch
    = Done B' (if hasExplicitName (getObjCAttr B) &&
                  hasOtherName (getObjCAttr B) sel
               then [mismatch; overridden_here] else []) /\
    objcNameOf B' = Some sel /\
    (B' = B \/ B' = setObjCName B sel).
Proof.
  unfold adoptOverriddenName, hasExplicitName, attrHasName, hasOtherName,
    attrNameIsImplicit, hasName, objcNameOf.
  destruct (getObjCAttr B) as [a |] eqn:Ea.
  - destruct (getName a) as [n |] eqn:En; cbn [negb andb orb].
    + destruct (ObjCSelector_eqb n sel) eqn:Eq; cbn [negb andb orb].
      * rewrite andb_false_r. cbn.
        exists B. rewrite Ea, En. apply ObjCSelector_eqb_eq in Eq. subst.
        auto.
      * rewrite andb_true_r.
        destruct (isNameImplicit a); cbn;
          (eexists; split; [reflexivity |]; split; [| right; reflexivity]);
          unfold setObjCName; rewrite Ea; reflexivity.
    + cbn. eexists. split; [reflexivity |]. split; [| right; reflexivity].
      unfold setObjCName. rewrite Ea. reflexivity.
  - cbn. eexists. split; [reflexivity |]. split; [| right; reflexivity].
    unfold setObjCName. rewrite Ea. reflexivity.
Qed.

Lemma inferObjCName_override (B A : ValueDecl) :
  isaDestructorDecl B = false ->
  isObjC B = true ->
  adoptedOverride B = Some A ->
  exists mismatch,
    inferObjCName B
    = adoptOverriddenName B (overriddenObjCName A) mismatch.
Proof.
  unfold adoptedOverride, inferObjCName, overriddenObjCName.
  intros Hd Ho Ha. rewrite Hd, Ho. cbn [negb].
  destruct (getOverriddenDecl B) as [o |]; [| discriminate].
  destruct (isObjC o); [| discriminate]. cbn [andb] in Ha.
  destruct (isaAbstractFunctionDecl o) eqn:Ef; cbn [orb] in Ha.
  - inversion Ha; subst. rewrite Ef. eexists. reflexivity.
  - destruct (isaVarDecl o) eqn:Ev; [| discriminate].
    inversion Ha; subst. rewrite Ef. eexists. reflexivity.
Qed.

(** The override part of [inferObjCName], with its diagnostic. *)
Lemma inferObjCName_override_mismatch (B A : ValueDecl) :
  isaDestructorDecl B = false ->
  isObjC B = true ->
  adoptedOverride B = Some A ->
  inferObjCName B
  = adoptOverriddenName B (overriddenObjCName A) (nameMismatch B A).
Proof.
  unfold adoptedOverride, inferObjCName, overriddenObjCName, nameMismatch,
    objcNameOf, writtenName, firstWrittenPiece.
  intros Hd Ho Ha. rewrite Hd, Ho. cbn [negb].
  destruct (getOverriddenDecl B) as [o |]; [| discriminate].
  destruct (isObjC o); [| discriminate]. cbn [andb] in Ha.
  destruct (isaAbstractFunctionDecl o) eqn:Ef; cbn [orb] in Ha.
  - inversion Ha; subst. rewrite Ef.
    destruct (getObjCAttr B) as [a |]; [destruct (getName a) |];
      reflexivity.
  - destruct (isaVarDecl o) eqn:Ev; [| discriminate].
    inversion Ha; subst. rewrite Ef.
    destruct (getObjCAttr B) as [a |]; [destruct (getName a) |];
      reflexivity.
Qed.

(** X8: name inference on a declaration that overrides an [@objc]
    method or property always ends with the name of the overridden
    declaration, whatever name the attribute had.  Exactly when the user
    wrote a different name it emits the mismatch diagnostic, with the
    written name and the name of the overridden declaration, followed by
    the note on the overridden declaration; otherwise it emits
    nothing. *)
Theorem override_name_always_adopted :
  forall (B A : ValueDecl),
    isaDestructorDecl B = false ->
    isObjC B = true ->
    adoptedOverride B = Some A ->
    exists B',
      inferObjCName B
      = Done B' (if hasExplicitName (getObjCAttr B) &&
                    hasOtherName (getObjCAttr B) (overriddenObjCName A)
                 then [nameMismatch B A; overridden_here] else []) /\
      objcNameOf B' = Some (overriddenObjCName A).
Proof.
  intros B A Hd Ho Ha.
  rewrite (@inferObjCName_override_mismatch B A Hd Ho Ha).
  destruct (adoptOverriddenName_result B (overriddenObjCName A)
              (nameMismatch B A)) as (B' & E' & Hn & _).
  exists B'. auto.
Qed.

Lemma inferObjCName_no_override (decl : ValueDecl) :
  isaDestructorDecl decl = false ->
  isObjC decl = true ->
  adoptedOverride decl = None ->
  inferObjCName decl = inferObjCNameFromWitnesses decl.
Proof.
  unfold adoptedOverride, inferObjCName. intros Hd Ho Ha.
  rewrite Hd, Ho. cbn [negb].
  destruct (getOverriddenDecl decl) as [o |]; [| reflexivity].
  destruct (isObjC o); [| reflexivity]. cbn [andb] in Ha.
  destruct (isaAbstractFunctionDecl o); [discriminate |].
  destruct (isaVarDecl o); [discriminate | reflexivity].
Qed.

Lemma checkLaterRequirements_result (decl : ValueDecl)
    (firstReq : Requirement) :
  forall reqs,
  exists ds,
    checkLaterRequirements decl firstReq reqs = Done tt ds /\
    List.length ds
    = (if allNamed (reqObjCRuntimeName firstReq) reqs then 0 else 4) /\
    (forall d, In d ds ->
       match d with
       | objc_ambiguous_inference _ f _
       | objc_ambiguous_inference_candidate _ _ f =>
           f = reqObjCRuntimeName firstReq \/
           exists req, In req reqs /\ f = reqObjCRuntimeName req /\
                       f <> reqObjCRuntimeName firstReq
       | req_near_match_nonobjc => True
       | _ => False
       end).
Proof.
  induction reqs as [| req rest IH]; cbn [checkLaterRequirements allNamed forallb].
  - exists []. repeat split; auto. intros d [].
  - destruct (ObjCSelector_eqb (reqObjCRuntimeName firstReq)
                               (reqObjCRuntimeName req)) eqn:Eq;
      cbn [negb andb].
    + destruct IH as (ds & E & Hl & Hd). exists ds.
      repeat split; auto.
      intros d Hin. specialize (Hd d Hin).
      destruct d; try exact Hd;
        (destruct Hd as [Hd | (q & Hq & Hd)];
         [left; exact Hd | right; exists q; split; [right; exact Hq | exact Hd]]).
    + eexists. split; [reflexivity |]. split; [reflexivity |].
      assert (Hne : reqObjCRuntimeName req <> reqObjCRuntimeName firstReq).
      { intros Heq. rewrite Heq, ObjCSelector_eqb_refl in Eq. discriminate. }
      intros d [<- | [<- | [<- | [<- | []]]]]; auto.
      right. exists req. split; [left; reflexivity | auto].
Qed.

(** X9: when no override decides and the attribute has no name, a
    declaration that witnesses requirements gets the Objective-C name of
    the first requirement, also when a later requirement has another
    name; in that case, and only then, the ambiguity is reported, by
    exactly four diagnostics. *)
Theorem witness_name_is_first_requirement :
  forall (decl : ValueDecl) (firstReq : Requirement)
         (rest : list Requirement),
    isaDestructorDecl decl = false ->
    isObjC decl = true ->
    adoptedOverride decl = None ->
    attrHasName (getObjCAttr decl) = false ->
    findWitnessedObjCRequirements decl = firstReq :: rest ->
    exists ds,
      inferObjCName decl
      = Done (setObjCName decl (reqObjCRuntimeName firstReq)) ds /\
      List.length ds
      = (if allNamed (reqObjCRuntimeName firstReq) rest then 0 else 4).
Proof.
  intros decl firstReq rest Hd Ho Ha Hn Hr.
  rewrite (inferObjCName_no_override decl Hd Ho Ha).
  unfold inferObjCNameFromWitnesses. rewrite Hn, Hr.
  destruct (checkLaterRequirements_result decl firstReq rest)
    as (ds & E & Hl & _).
  exists ds. rewrite E. cbn. rewrite app_nil_r. auto.
Qed.

(** *** Stability *)

Lemma setObjCName_frame (d : ValueDecl) (sel : ObjCSelector) :
  setObjCName d sel = setObjCAttr d (getObjCAttr (setObjCName d sel)) /\
  attrIsSwift3Inferred (getObjCAttr (setObjCName d sel))
  = attrIsSwift3Inferred (getObjCAttr d).
Proof.
  unfold setObjCName. destruct (getObjCAttr d); split; reflexivity.
Qed.

Lemma setObjCAttr_same (d : ValueDecl) : setObjCAttr d (getObjCAttr d) = d.
Proof. destruct d; reflexivity. Qed.

Lemma adoptOverriddenName_settled (d : ValueDecl) (sel : ObjCSelector)
    (mismatch : Diag) :
  objcNameOf d = Some sel ->
  adoptOverriddenName d sel mismatch = Done d [].
Proof.
  unfold objcNameOf, adoptOverriddenName, attrHasName, hasOtherName,
    hasName.
  destruct (getObjCAttr d) as [a |]; [| discriminate].
  intros ->. rewrite ObjCSelector_eqb_refl. reflexivity.
Qed.

(** The result of name inference, in every case: the declaration
    itself, or the declaration with a new name. *)
Lemma inferObjCName_cases (d d' : ValueDecl) :
  value (inferObjCName d) = Some d' ->
  (d' = d \/ exists sel, d' = setObjCName d sel) /\
  inferObjCName d' = Done d' [].
Proof.
  intros H.
  destruct (isaDestructorDecl d) eqn:Hd.
  { unfold inferObjCName in *. rewrite Hd in H. apply value_ret in H.
    subst. rewrite Hd. auto. }
  destruct (isObjC d) eqn:Ho.
  2:{ unfold inferObjCName in H. rewrite Hd, Ho in H. discriminate. }
  assert (Stable : forall sel,
             isaDestructorDecl (setObjCName d sel) = false /\
             isObjC (setObjCName d sel) = true /\
             adoptedOverride (setObjCName d sel) = adoptedOverride d /\
             findWitnessedObjCRequirements (setObjCName d sel)
             = findWitnessedObjCRequirements d).
  { intros sel. unfold setObjCName, adoptedOverride, isaDestructorDecl.
    destruct (getObjCAttr d); simpl; auto. }
  destruct (adoptedOverride d) as [A |] eqn:Ha.
  - destruct (@inferObjCName_override d A Hd Ho Ha) as [m E].
    rewrite E in H.
    destruct (adoptOverriddenName_result d (overriddenObjCName A) m)
      as (B' & E' & Hn & Hs).
    rewrite E' in H. simpl in H. inversion H; subst d'. clear H.
    split; [destruct Hs; eauto |].
    assert (P : isaDestructorDecl B' = false /\ isObjC B' = true /\
                adoptedOverride B' = Some A).
    { destruct Hs as [-> | ->]; [auto |].
      destruct (Stable (overriddenObjCName A)) as (S1 & S2 & S3 & _).
      rewrite S3. auto. }
    destruct P as (P1 & P2 & P3).
    destruct (@inferObjCName_override B' A P1 P2 P3) as [m' E2].
    rewrite E2. apply adoptOverriddenName_settled, Hn.
  - rewrite (inferObjCName_no_override d Hd Ho Ha) in H.
    unfold inferObjCNameFromWitnesses in H.
    destruct (attrHasName (getObjCAttr d)) eqn:Hn.
    { apply value_ret in H. subst d'. split; [auto |].
      rewrite (inferObjCName_no_override d Hd Ho Ha).
      unfold inferObjCNameFromWitnesses. rewrite Hn. reflexivity. }
    destruct (findWitnessedObjCRequirements d) as [| firstReq rest] eqn:Hr.
    { apply value_ret in H. subst d'. split; [auto |].
      rewrite (inferObjCName_no_override d Hd Ho Ha).
      unfold inferObjCNameFromWitnesses. rewrite Hn, Hr. reflexivity. }
    apply value_guarded in H. subst d'. split; [eauto |].
    destruct (Stable (reqObjCRuntimeName firstReq)) as (S1 & S2 & S3 & _).
    rewrite (inferObjCName_no_override _ S1 S2 S3).
    unfold inferObjCNameFromWitnesses.
    assert (attrHasName (getObjCAttr
                           (setObjCName d (reqObjCRuntimeName firstReq)))
            = true) as ->.
    { unfold setObjCName. destruct (getObjCAttr d); reflexivity. }
    reflexivity.
Qed.

Lemma inferObjCName_stable :
  forall (d d' : ValueDecl),
    value (inferObjCName d) = Some d' ->
    d' = setObjCAttr d (getObjCAttr d') /\
    attrIsSwift3Inferred (getObjCAttr d')
    = attrIsSwift3Inferred (getObjCAttr d) /\
    inferObjCName d' = Done d' [].
Proof.
  intros d d' H. apply inferObjCName_cases in H.
  destruct H as [[-> | [sel ->]] Hs].
  - rewrite setObjCAttr_same. auto.
  - destruct (setObjCName_frame d sel) as [F1 F2]. auto.
Qed.

(** X10: name inference changes nothing but the [@objc] attribute of the
    declaration and keeps the mark of Swift 3 inference; run again on
    its own result it changes nothing and emits nothing. *)
Theorem name_inference_is_stable :
  forall (d d' : ValueDecl),
    value (inferObjCName d) = Some d' ->
    d' = setObjCAttr d (getObjCAttr d') /\
    attrIsSwift3Inferred (getObjCAttr d')
    = attrIsSwift3Inferred (getObjCAttr d) /\
    inferObjCName d' = Done d' [].
Proof. exact inferObjCName_stable. Qed.

(** ** The finalizer *)

Lemma bind_Done_step {A B} (a : A) (d1 : list Diag) (k : A -> Outcome B)
    (b : B) (d2 : list Diag) :
  k a = Done b d2 -> bind (Done a d1) k = Done b (d1 ++ d2).
Proof. intros E. simpl. rewrite E. reflexivity. Qed.

Lemma bind_Done_abort {A B} (a : A) (d1 : list Diag) (k : A -> Outcome B) :
  aborts (k a) = true -> aborts (bind (Done a d1) k) = true.
Proof. simpl. destruct (k a); simpl; congruence. Qed.

Lemma sameDeclaration_refl (D : ValueDecl) : sameDeclaration D D.
Proof. unfold sameDeclaration. repeat split. Qed.

Lemma sameDeclaration_trans (D1 D2 D3 : ValueDecl) :
  sameDeclaration D1 D2 -> sameDeclaration D2 D3 -> sameDeclaration D1 D3.
Proof.
  unfold sameDeclaration.
  intros (A1 & A2 & A3 & A4 & A5 & A6 & A7 & A8 & A9 & A10)
         (B1 & B2 & B3 & B4 & B5 & B6 & B7 & B8 & B9 & B10).
  repeat split; congruence.
Qed.

Lemma sameDeclaration_kinds (D D' : ValueDecl) :
  sameDeclaration D D' ->
  hasThrows D' = hasThrows D /\
  isaAbstractFunctionDecl D' = isaAbstractFunctionDecl D /\
  isaVarDecl D' = isaVarDecl D /\
  isaDestructorDecl D' = isaDestructorDecl D /\
  isGetterOrSetterAccessor D' = isGetterOrSetterAccessor D.
Proof.
  intros (_ & Hk & _).
  unfold hasThrows, isaAbstractFunctionDecl, isaVarDecl, isaDestructorDecl,
    isGetterOrSetterAccessor.
  rewrite Hk. repeat split.
Qed.

Lemma inferObjCName_same (d d' : ValueDecl) :
  value (inferObjCName d) = Some d' ->
  sameDeclaration d d' /\ isObjC d' = isObjC d /\
  getNonObjCAttr d' = getNonObjCAttr d /\
  getDynamicAttr d' = getDynamicAttr d.
Proof.
  intros H. apply inferObjCName_cases in H.
  destruct H as [[-> | [sel ->]] _].
  - split; [apply sameDeclaration_refl | auto].
  - unfold setObjCName, sameDeclaration.
    destruct (getObjCAttr d); simpl; repeat split.
Qed.

Lemma inferObjCName_Done (d : ValueDecl) :
  isObjC d = true ->
  exists d' ds, inferObjCName d = Done d' ds.
Proof.
  intros Ho.
  destruct (isaDestructorDecl d) eqn:Hd.
  { unfold inferObjCName. rewrite Hd. returns. }
  destruct (adoptedOverride d) as [A |] eqn:Ha.
  - destruct (@inferObjCName_override d A Hd Ho Ha) as [m E].
    destruct (adoptOverriddenName_result d (overriddenObjCName A) m)
      as (B' & E' & _).
    rewrite E, E'. returns.
  - rewrite (inferObjCName_no_override d Hd Ho Ha).
    unfold inferObjCNameFromWitnesses.
    destruct (attrHasName (getObjCAttr d)); [returns |].
    destruct (findWitnessedObjCRequirements d) as [| firstReq rest];
      [returns |].
    destruct (checkLaterRequirements_result d firstReq rest)
      as (ds & E & _).
    rewrite E. returns.
Qed.

(** The steps of [markAsObjC] on a declaration that is marked. *)
Lemma markAsObjC_steps (st st' : SemaState) (D D' : ValueDecl)
    (reason : ObjCReason) (ec : option FEC.t) :
  value (markAsObjC st D (Some reason) ec) = Some (D', st') ->
  exists D1 D2 D3 st2,
    (* the flag and the [@nonobjc] attribute *)
    D1 = match getNonObjCAttr D with
         | Some _ => setNonObjCAttr (setIsObjC D true)
                                    (Some (mkNonObjCAttr true))
         | None => setIsObjC D true
         end /\
    (* the error convention *)
    (hasThrows D = false -> D2 = D1) /\
    (hasThrows D = true ->
     exists c, availableErrorConvention D ec = Some c /\
               D2 = setForeignErrorConvention D1 c) /\
    (* the name *)
    (match getAsClassOrClassExtensionContext (getDeclContext D) with
     | Some classDecl =>
         if isaAbstractFunctionDecl D then
           value (inferObjCName D2) = Some D3 /\
           st2 = recordObjCMethod
                   (if negb (isaDestructorDecl D)
                    then checkBridgedFunctions st else st) classDecl D3
         else
           (if isaVarDecl D then value (inferObjCName D2) = Some D3
            else D3 = D2) /\
           st2 = (if negb (isaDestructorDecl D)
                  then checkBridgedFunctions st else st)
     | None =>
         D3 = D2 /\
         st2 = (if negb (isaDestructorDecl D)
                then checkBridgedFunctions st else st)
     end) /\
    (* the table of the source file *)
    st' = (if isaAbstractFunctionDecl D && hasParentSourceFile D
           then recordInSourceFile st2 D3 else st2) /\
    (* the mark of Swift 3 inference *)
    D' = (if ObjCReason.eqb (reasonKind (reasonAfterNonObjC D reason))
                            ObjCReason.MemberOfObjCSubclass
          then setObjCAttr D3
                 (Some (match getObjCAttr D3 with
                        | Some attr => mkObjCAttr (getName attr)
                                                  (isNameImplicit attr) true
                        | None => mkObjCAttr None false true
                        end))
          else D3).
Proof.
  unfold markAsObjC. intros H.
  apply value_bind in H. destruct H as ([D1 r1] & H1 & H).
  cbn [fst snd] in H.
  assert (E1 : D1 = match getNonObjCAttr D with
                    | Some _ => setNonObjCAttr (setIsObjC D true)
                                               (Some (mkNonObjCAttr true))
                    | None => setIsObjC D true
                    end /\
               r1 = reasonAfterNonObjC D reason).
  { unfold reasonAfterNonObjC.
    replace (getNonObjCAttr (setIsObjC D true)) with (getNonObjCAttr D) in H1
      by reflexivity.
    destruct (getNonObjCAttr D).
    - apply value_bind in H1. destruct H1 as (k & _ & H1).
      apply value_guarded in H1. inversion H1. auto.
    - apply value_ret in H1. inversion H1. auto. }
  destruct E1 as [E1 Er]. clear H1.
  assert (S1 : sameDeclaration D D1).
  { subst D1. unfold sameDeclaration.
    destruct (getNonObjCAttr D); simpl; repeat split. }
  destruct (sameDeclaration_kinds S1) as (K1 & K2 & K3 & K4 & K5).
  destruct S1 as (_ & _ & Sc & _ & _ & _ & _ & So & _ & Sp).
  apply value_bind in H. destruct H as ([D3 st2] & H2 & H).
  cbn [fst snd] in H.
  rewrite K4, Sc in H2. rewrite K2, K3 in H2.
  (* the class part *)
  assert (E2 : exists D2,
             (hasThrows D = false -> D2 = D1) /\
             (hasThrows D = true ->
              exists c, availableErrorConvention D ec = Some c /\
                        D2 = setForeignErrorConvention D1 c) /\
             match getAsClassOrClassExtensionContext (getDeclContext D) with
             | Some classDecl =>
                 if isaAbstractFunctionDecl D then
                   value (inferObjCName D2) = Some D3 /\
                   st2 = recordObjCMethod
                           (if negb (isaDestructorDecl D)
                            then checkBridgedFunctions st else st)
                           classDecl D3
                 else
                   (if isaVarDecl D then value (inferObjCName D2) = Some D3
                    else D3 = D2) /\
                   st2 = (if negb (isaDestructorDecl D)
                          then checkBridgedFunctions st else st)
             | None =>
                 D3 = D2 /\
                 st2 = (if negb (isaDestructorDecl D)
                        then checkBridgedFunctions st else st)
             end).
  { unfold availableErrorConvention.
    assert (NoThrow : isaAbstractFunctionDecl D = false ->
                      hasThrows D = false).
    { unfold isaAbstractFunctionDecl, hasThrows.
      destruct (getDeclKind D); intros; try discriminate; reflexivity. }
    destruct (getAsClassOrClassExtensionContext (getDeclContext D))
      as [cd |].
    - destruct (isaAbstractFunctionDecl D) eqn:Ef.
      + unfold markMethodOfClass in H2.
        apply value_bind in H2. destruct H2 as (m1 & Hm1 & H2).
        apply value_bind in H2. destruct H2 as (m2 & Hm2 & H2).
        apply value_guarded in H2. inversion H2; subst D3 st2. clear H2.
        exists m1. rewrite So, K1 in Hm1.
        destruct (getOverriddenDecl D) as [base |].
        * destruct (hasThrows D).
          -- unfold attachErrorConvention in Hm1.
             destruct (match getForeignErrorConvention base with
                       | Some c => Some c
                       | None => ec
                       end) as [c |] eqn:Ec; [| discriminate].
             apply value_ret in Hm1. subst m1.
             split; [discriminate |]. split; [| auto].
             intros _. exists c. auto.
          -- apply value_ret in Hm1. subst m1.
             split; [auto |]. split; [discriminate | auto].
        * destruct (hasThrows D).
          -- unfold attachErrorConvention in Hm1.
             destruct ec as [c |]; [| discriminate].
             apply value_ret in Hm1. subst m1.
             split; [discriminate |]. split; [| auto].
             intros _. exists c. auto.
          -- apply value_ret in Hm1. subst m1.
             split; [auto |]. split; [discriminate | auto].
      + exists D1. rewrite (NoThrow eq_refl).
        split; [auto |]. split; [discriminate |].
        destruct (isaVarDecl D).
        * apply value_bind in H2. destruct H2 as (m & Hm & H2).
          apply value_ret in H2. inversion H2; subst D3 st2. auto.
        * apply value_ret in H2. inversion H2; subst D3 st2. auto.
    - rewrite K1 in H2.
      destruct (isaAbstractFunctionDecl D) eqn:Ef; cbn [andb] in H2.
      + destruct (hasThrows D).
        * apply value_bind in H2. destruct H2 as (m & Hm & H2).
          apply value_ret in H2. inversion H2; subst D3 st2. clear H2.
          unfold attachErrorConvention in Hm.
          destruct ec as [c |]; [| discriminate].
          apply value_ret in Hm. subst m.
          eexists. split; [discriminate |]. split; [| split; reflexivity].
          intros _. exists c.
          destruct (getOverriddenDecl D); auto.
        * exists D1. apply value_ret in H2. inversion H2; subst D3 st2.
          split; [auto |]. split; [discriminate | auto].
      + exists D1. apply value_ret in H2. inversion H2; subst D3 st2.
        rewrite (NoThrow eq_refl).
        split; [auto |]. split; [discriminate | auto]. }
  destruct E2 as (D2 & T1 & T2 & N).
  exists D1, D2, D3, st2.
  split; [exact E1 |]. split; [exact T1 |]. split; [exact T2 |].
  split; [exact N |].
  (* what D3 keeps of D *)
  assert (S3 : isaAbstractFunctionDecl D3 = isaAbstractFunctionDecl D /\
               hasParentSourceFile D3 = hasParentSourceFile D).
  { assert (S2 : sameDeclaration D1 D2).
    { destruct (hasThrows D).
      - destruct (T2 eq_refl) as (c & _ & ->).
        unfold sameDeclaration. simpl. repeat split.
      - rewrite (T1 eq_refl). apply sameDeclaration_refl. }
    assert (S23 : sameDeclaration D2 D3).
    { destruct (getAsClassOrClassExtensionContext (getDeclContext D)).
      - destruct (isaAbstractFunctionDecl D).
        + destruct N as [N _]. apply inferObjCName_same in N. tauto.
        + destruct N as [N _]. destruct (isaVarDecl D).
          * apply inferObjCName_same in N. tauto.
          * subst. apply sameDeclaration_refl.
      - destruct N as [-> _]. apply sameDeclaration_refl. }
    pose proof (sameDeclaration_trans S2 S23) as S13.
    destruct (sameDeclaration_kinds S13) as (_ & J2 & _).
    destruct S13 as (_ & _ & _ & _ & _ & _ & _ & _ & _ & J10).
    split; congruence. }
  destruct S3 as [S3a S3b]. rewrite S3a, S3b in H. rewrite <- Er.
  destruct (ObjCReason.eqb (reasonKind r1) ObjCReason.MemberOfObjCSubclass).
  - apply value_bind in H. destruct H as (D4 & H4 & H).
    apply value_ret in H. inversion H; subst D' st'. clear H.
    split; [reflexivity |].
    unfold markSwift3Inferred in H4.
    apply value_bind in H4. destruct H4 as (u & _ & H4).
    destruct (getObjCAttr D3); apply value_ret in H4; auto.
  - apply value_ret in H. inversion H; subst. auto.
Qed.

Lemma bind_Done_returns {A B} (a : A) (d1 : list Diag) (k : A -> Outcome B) :
  (exists b ds, k a = Done b ds) ->
  exists b ds, bind (Done a d1) k = Done b ds.
Proof. intros (b & d2 & E). simpl. rewrite E. returns. Qed.

Lemma bind_abort {A B} (c : Outcome A) (k : A -> Outcome B) :
  aborts c = true -> aborts (bind c k) = true.
Proof. destruct c; simpl; congruence. Qed.

Lemma markSwift3Inferred_Done (D : ValueDecl) :
  exists D' ds, markSwift3Inferred D = Done D' ds.
Proof.
  unfold markSwift3Inferred.
  apply bind_returns_unit.
  - match goal with |- context [when ?c _] => destruct c end; returns.
  - destruct (getObjCAttr D); returns.
Qed.

(** The first step of [markAsObjC]: the flag and the [@nonobjc]
    attribute.  It never aborts: the reason it classifies is one that
    is diagnosed. *)
Lemma markAsObjC_first_step (D : ValueDecl) (reason : ObjCReason) :
  exists D1 ds1,
    match getNonObjCAttr (setIsObjC D true) with
    | Some _ =>
        k <- getObjCDiagnosticAttrKind
               (if negb (shouldDiagnoseObjCReason reason ctx)
                then reasonOf ObjCReason.ImplicitlyObjC else reason) ;;
        diagnose (nonobjc_not_allowed k) ;;;
        ret (setNonObjCAttr (setIsObjC D true) (Some (mkNonObjCAttr true)),
             if negb (shouldDiagnoseObjCReason reason ctx)
             then reasonOf ObjCReason.ImplicitlyObjC else reason)
    | None => ret (setIsObjC D true, reason)
    end = Done (D1, reasonAfterNonObjC D reason) ds1 /\
    sameDeclaration D D1 /\ isObjC D1 = true /\
    ds1 = match getNonObjCAttr D with
          | Some _ =>
              [nonobjc_not_allowed
                 (reasonCode (reasonKind (reasonAfterNonObjC D reason)))]
          | None => []
          end.
Proof.
  unfold reasonAfterNonObjC.
  replace (getNonObjCAttr (setIsObjC D true)) with (getNonObjCAttr D)
    by reflexivity.
  destruct (getNonObjCAttr D) as [attr |].
  - assert (Hd : shouldDiagnoseObjCReason
                   (if negb (shouldDiagnoseObjCReason reason ctx)
                    then reasonOf ObjCReason.ImplicitlyObjC else reason) ctx
                 = true).
    { destruct (shouldDiagnoseObjCReason reason ctx) eqn:E; cbn [negb];
        [exact E | reflexivity]. }
    rewrite (getObjCDiagnosticAttrKind_Done _ Hd).
    do 2 eexists. split; [reflexivity |].
    split; [unfold sameDeclaration; simpl; repeat split |].
    split; reflexivity.
  - do 2 eexists. split; [reflexivity |].
    split; [unfold sameDeclaration; simpl; repeat split |].
    split; reflexivity.
Qed.

Lemma aborts_bind_Done {A B} (a : A) (d : list Diag) (k : A -> Outcome B) :
  aborts (bind (Done a d) k) = aborts (k a).
Proof. simpl. destruct (k a); reflexivity. Qed.

Lemma aborts_bind_false {A B} (c : Outcome A) (k : A -> Outcome B) :
  (exists a ds, c = Done a ds) ->
  (forall a, exists b ds, k a = Done b ds) ->
  aborts (bind c k) = false.
Proof.
  intros Hc Hk. destruct (@bind_returns A B c k Hc Hk) as (b & ds & ->).
  reflexivity.
Qed.

Lemma markAsObjC_aborts_iff :
  forall (st : SemaState) (D : ValueDecl) (reason : ObjCReason)
         (ec : option FEC.t),
    aborts (markAsObjC st D (Some reason) ec)
    = hasThrows D && isNone (availableErrorConvention D ec) /\
    forall D' st',
      value (markAsObjC st D (Some reason) ec) = Some (D', st') ->
      getForeignErrorConvention D'
      = if hasThrows D then availableErrorConvention D ec
        else getForeignErrorConvention D.
Proof.
  intros st D reason ec. split.
  - unfold markAsObjC. cbv beta iota zeta.
    destruct (markAsObjC_first_step D reason)
      as (D1 & ds1 & E1 & S1 & Ho1 & _).
    rewrite E1, aborts_bind_Done. clear E1. cbn [fst snd].
    destruct (sameDeclaration_kinds S1) as (K1 & K2 & K3 & K4 & K5).
    destruct S1 as (_ & _ & Sc & _ & _ & _ & _ & So & _ & Sp).
    rewrite ?K4, ?Sc, ?K2, ?K3, ?K1.
    assert (NoThrow : isaAbstractFunctionDecl D = false ->
                      hasThrows D = false).
    { unfold isaAbstractFunctionDecl, hasThrows.
      destruct (getDeclKind D); intros; try discriminate; reflexivity. }
    assert (Last : forall (a : ValueDecl * SemaState),
               exists r ds,
                 (if ObjCReason.eqb
                       (reasonKind (reasonAfterNonObjC D reason))
                       ObjCReason.MemberOfObjCSubclass
                  then
                    D0 <- markSwift3Inferred (fst a) ;;
                    ret (D0,
                         if isaAbstractFunctionDecl (fst a) &&
                            hasParentSourceFile (fst a)
                         then recordInSourceFile (snd a) (fst a)
                         else snd a)
                  else
                    ret (fst a,
                         if isaAbstractFunctionDecl (fst a) &&
                            hasParentSourceFile (fst a)
                         then recordInSourceFile (snd a) (fst a)
                         else snd a)) = Done r ds).
    { intros a. destruct (ObjCReason.eqb _ _); [| returns].
      apply bind_returns; [apply markSwift3Inferred_Done |].
      intros D0. returns. }
    unfold availableErrorConvention.
    destruct (getAsClassOrClassExtensionContext (getDeclContext D))
      as [cd |].
    + destruct (isaAbstractFunctionDecl D) eqn:Ef.
      * unfold markMethodOfClass. rewrite So, K1.
        assert (Name : forall m,
                   isObjC m = true ->
                   exists r ds,
                     (method <- inferObjCName m ;;
                      let st0 :=
                        recordObjCMethod
                          (if negb (isaDestructorDecl D)
                           then checkBridgedFunctions st else st) cd method in
                      when (negb (isInstanceMember method))
                        match isForbiddenSelector (getObjCSelector method) with
                        | Some d => diagnose d
                        | None => ret tt
                        end ;;; ret (method, st0)) = Done r ds).
        { intros m Hm. destruct (inferObjCName_Done m Hm) as (m' & ds & ->).
          apply bind_Done_returns. cbv zeta.
          apply bind_returns_unit; [| returns].
          destruct (negb (isInstanceMember m')); [| returns].
          cbn [when]. destruct (isForbiddenSelector _); returns. }
        destruct (hasThrows D); cbn [andb].
        -- destruct (match getOverriddenDecl D with
                     | Some base =>
                         match getForeignErrorConvention base with
                         | Some c => Some c
                         | None => ec
                         end
                     | None => ec
                     end) as [c |] eqn:Ec.
           ++ cbn [isNone]. apply aborts_bind_false; [| exact Last].
              assert (A : match getOverriddenDecl D with
                          | Some baseMethod =>
                              attachErrorConvention D1
                                match getForeignErrorConvention baseMethod
                                with
                                | Some baseErrorConvention =>
                                    Some baseErrorConvention
                                | None => ec
                                end
                          | None => attachErrorConvention D1 ec
                          end = Done (setForeignErrorConvention D1 c) []).
              { destruct (getOverriddenDecl D); rewrite Ec; reflexivity. }
              rewrite A. apply bind_Done_returns. apply Name. exact Ho1.
           ++ cbn [isNone]. apply bind_abort. apply bind_abort.
              destruct (getOverriddenDecl D); rewrite Ec; reflexivity.
        -- apply aborts_bind_false; [| exact Last].
           assert (A : match getOverriddenDecl D with
                       | Some _ => ret D1
                       | None => ret D1
                       end = Done D1 [])
             by (destruct (getOverriddenDecl D); reflexivity).
           rewrite A. apply bind_Done_returns. apply Name. exact Ho1.
      * rewrite (NoThrow eq_refl). cbn [andb].
        apply aborts_bind_false; [| exact Last].
        destruct (isaVarDecl D); [| returns].
        apply bind_returns; [apply inferObjCName_Done, Ho1 |].
        intros a. returns.
    + destruct (isaAbstractFunctionDecl D) eqn:Ef; cbn [andb].
      * destruct (hasThrows D); cbn [andb];
          [| apply aborts_bind_false; [returns | exact Last]].
        destruct ec as [c |]; cbn [isNone].
        -- apply aborts_bind_false; [returns | exact Last].
        -- reflexivity.
      * rewrite (NoThrow eq_refl).
        apply aborts_bind_false; [returns | exact Last].
  - intros D' st' H. apply markAsObjC_steps in H.
    destruct H as (D1 & D2 & D3 & st2 & E1 & T1 & T2 & N & _ & E').
    assert (C3 : getForeignErrorConvention D3 = getForeignErrorConvention D2).
    { destruct (getAsClassOrClassExtensionContext (getDeclContext D)).
      - destruct (isaAbstractFunctionDecl D).
        + destruct N as [N _]. apply inferObjCName_convention, N.
        + destruct N as [N _]. destruct (isaVarDecl D).
          * apply inferObjCName_convention, N.
          * congruence.
      - destruct N as [-> _]. reflexivity. }
    assert (C' : getForeignErrorConvention D' = getForeignErrorConvention D3).
    { subst D'. destruct (ObjCReason.eqb _ _); reflexivity. }
    rewrite C', C3.
    destruct (hasThrows D).
    + destruct (T2 eq_refl) as (c & -> & ->). reflexivity.
    + rewrite (T1 eq_refl). subst D1.
      destruct (getNonObjCAttr D); reflexivity.
Qed.

(** X11: [markAsObjC] on a declaration that is marked aborts exactly
    when the declaration throws and no error convention is at hand:
    none was passed in and, for a method of a class, the overridden
    method has none.  Otherwise it returns, and the declaration ends
    with the convention at hand if it throws and with the convention it
    had if it does not. *)
Theorem finalizer_aborts_without_convention :
  forall (st : SemaState) (D : ValueDecl) (reason : ObjCReason)
         (ec : option FEC.t),
    aborts (markAsObjC st D (Some reason) ec)
    = hasThrows D && isNone (availableErrorConvention D ec) /\
    forall D' st',
      value (markAsObjC st D (Some reason) ec) = Some (D', st') ->
      getForeignErrorConvention D'
      = if hasThrows D then availableErrorConvention D ec
        else getForeignErrorConvention D.
Proof. exact markAsObjC_aborts_iff. Qed.

Lemma markAsObjC_after_check :
  forall (st : SemaState) (D : ValueDecl) (Reason : ObjCReason)
         (ec : option FEC.t),
    value (isRepresentableInObjC D Reason) = Some (true, ec) ->
    aborts (markAsObjC st D (Some Reason) ec) = false.
Proof.
  intros st D Reason ec H.
  rewrite (proj1 (markAsObjC_aborts_iff st D Reason ec)).
  destruct (hasThrows D) eqn:Ht; [| reflexivity].
  apply isRepresentableInObjC_true_inv in H.
  destruct H as [_ H].
  assert (Hec : ec <> None).
  { unfold hasThrows in *.
    destruct (getDeclKind D) as [rt t | k s rt | f t | | |];
      try discriminate.
    - destruct H as [_ [H _]]. intros ->.
      rewrite (H eq_refl) in Ht. discriminate.
    - destruct H as [_ [H _]]. intros ->.
      rewrite (H eq_refl) in Ht. discriminate. }
  unfold availableErrorConvention.
  destruct (getAsClassOrClassExtensionContext (getDeclContext D)),
    (getOverriddenDecl D) as [base |];
    try (destruct ec; [reflexivity | contradiction]).
  destruct (getForeignErrorConvention base); [reflexivity |].
  destruct ec; [reflexivity | contradiction].
Qed.

(** X12: the check and the finalizer compose: when the check of a
    function returns true, [markAsObjC] with the same reason and the
    convention the check left never aborts. *)
Theorem check_then_mark_never_aborts :
  forall (st : SemaState) (D : ValueDecl) (Reason : ObjCReason)
         (ec : option FEC.t),
    value (isRepresentableInObjC D Reason) = Some (true, ec) ->
    aborts (markAsObjC st D (Some Reason) ec) = false.
Proof. exact markAsObjC_after_check. Qed.

Lemma markAsObjC_steps_same (D D1 D2 D3 : ValueDecl) (ec : option FEC.t)
    (st2 st : SemaState) :
  D1 = match getNonObjCAttr D with
       | Some _ => setNonObjCAttr (setIsObjC D true)
                                  (Some (mkNonObjCAttr true))
       | None => setIsObjC D true
       end ->
  (hasThrows D = false -> D2 = D1) ->
  (hasThrows D = true ->
   exists c, availableErrorConvention D ec = Some c /\
             D2 = setForeignErrorConvention D1 c) ->
  (match getAsClassOrClassExtensionContext (getDeclContext D) with
   | Some classDecl =>
       if isaAbstractFunctionDecl D then
         value (inferObjCName D2) = Some D3 /\
         st2 = recordObjCMethod
                 (if negb (isaDestructorDecl D)
                  then checkBridgedFunctions st else st) classDecl D3
       else
         (if isaVarDecl D then value (inferObjCName D2) = Some D3
          else D3 = D2) /\
         st2 = (if negb (isaDestructorDecl D)
                then checkBridgedFunctions st else st)
   | None =>
       D3 = D2 /\
       st2 = (if negb (isaDestructorDecl D)
              then checkBridgedFunctions st else st)
   end) ->
  sameDeclaration D D3 /\ isObjC D3 = true /\
  getDynamicAttr D3 = getDynamicAttr D /\
  getNonObjCAttr D3 = match getNonObjCAttr D with
                      | Some _ => Some (mkNonObjCAttr true)
                      | None => None
                      end /\
  getObjCAttr D2 = getObjCAttr D /\
  (D3 = D2 \/ value (inferObjCName D2) = Some D3).
Proof.
  intros E1 T1 T2 N.
  assert (P1 : sameDeclaration D D1 /\ isObjC D1 = true /\
               getDynamicAttr D1 = getDynamicAttr D /\
               getNonObjCAttr D1 = match getNonObjCAttr D with
                                   | Some _ => Some (mkNonObjCAttr true)
                                   | None => None
                                   end /\
               getObjCAttr D1 = getObjCAttr D).
  { subst D1. unfold sameDeclaration.
    destruct (getNonObjCAttr D) eqn:En; simpl; rewrite ?En; repeat split. }
  assert (P2 : sameDeclaration D1 D2 /\ isObjC D2 = isObjC D1 /\
               getDynamicAttr D2 = getDynamicAttr D1 /\
               getNonObjCAttr D2 = getNonObjCAttr D1 /\
               getObjCAttr D2 = getObjCAttr D1).
  { destruct (hasThrows D).
    - destruct (T2 eq_refl) as (c & _ & ->).
      unfold sameDeclaration. simpl. repeat split.
    - rewrite (T1 eq_refl). split; [apply sameDeclaration_refl | auto]. }
  assert (P3 : (sameDeclaration D2 D3 /\ isObjC D3 = isObjC D2 /\
                getNonObjCAttr D3 = getNonObjCAttr D2 /\
                getDynamicAttr D3 = getDynamicAttr D2) /\
               (D3 = D2 \/ value (inferObjCName D2) = Some D3)).
  { assert (R : D3 = D2 ->
                (sameDeclaration D2 D3 /\ isObjC D3 = isObjC D2 /\
                 getNonObjCAttr D3 = getNonObjCAttr D2 /\
                 getDynamicAttr D3 = getDynamicAttr D2) /\
                (D3 = D2 \/ value (inferObjCName D2) = Some D3)).
    { intros ->. split; [split; [apply sameDeclaration_refl | auto] | auto]. }
    destruct (getAsClassOrClassExtensionContext (getDeclContext D)).
    - destruct (isaAbstractFunctionDecl D).
      + destruct N as [N _]. split; [| auto].
        apply inferObjCName_same in N. tauto.
      + destruct N as [N _]. destruct (isaVarDecl D).
        * split; [| auto]. apply inferObjCName_same in N. tauto.
        * apply R, N.
    - destruct N as [N _]. apply R, N. }
  destruct P1 as (A1 & A2 & A3 & A4 & A5).
  destruct P2 as (B1 & B2 & B3 & B4 & B5).
  destruct P3 as [(C1 & C2 & C3 & C4) C5].
  split; [eapply sameDeclaration_trans;
          [eapply sameDeclaration_trans; eassumption | assumption] |].
  repeat split; try congruence; exact C5.
Qed.

(** X13: [markAsObjC] changes nothing of a declaration but the [@objc]
    flag, the attributes and the error convention.  The flag ends equal
    to the presence of a reason; without a reason the name, the
    convention and the tables stay as they were and nothing is
    emitted. *)
Theorem finalizer_frame :
  forall (st st' : SemaState) (D D' : ValueDecl)
         (reason : option ObjCReason) (ec : option FEC.t),
    value (markAsObjC st D reason ec) = Some (D', st') ->
    sameDeclaration D D' /\
    isObjC D' = negb (isNone reason) /\
    (reason = None ->
     markAsObjC st D reason ec = Done (D', st) [] /\
     getObjCAttr D' = getObjCAttr D /\
     getForeignErrorConvention D' = getForeignErrorConvention D /\
     getNonObjCAttr D' = getNonObjCAttr D).
Proof.
  intros st st' D D' [reason |] ec H.
  - apply markAsObjC_steps in H.
    destruct H as (D1 & D2 & D3 & st2 & E1 & T1 & T2 & N & _ & E').
    destruct (@markAsObjC_steps_same D D1 D2 D3 ec st2 st E1 T1 T2 N)
      as (S & Ho & _).
    split; [| split; [| discriminate]].
    + eapply sameDeclaration_trans; [exact S |].
      subst D'. destruct (ObjCReason.eqb _ _);
        [unfold sameDeclaration; simpl; repeat split
        | apply sameDeclaration_refl].
    + subst D'. destruct (ObjCReason.eqb _ _); exact Ho.
  - unfold markAsObjC in *. cbv beta iota zeta in *.
    replace (getDynamicAttr (setIsObjC D false)) with (getDynamicAttr D)
      in * by reflexivity.
    destruct (getDynamicAttr D); apply value_ret in H; inversion H; subst;
      (split; [unfold sameDeclaration; simpl; repeat split |]);
      (split; [reflexivity |]); intros _; repeat split.
Qed.

(** X14: what [markAsObjC] registers.  A function of a class is added
    once to the methods of its class, under the name of the class; a
    function with a source file is added once to the table of the file,
    under its selector; nothing else is added and nothing is removed.
    The declaration registered is the declaration after name inference,
    with the final name and convention. *)
Theorem finalizer_registers_once :
  forall (st st' : SemaState) (D D' : ValueDecl) (reason : ObjCReason)
         (ec : option FEC.t),
    value (markAsObjC st D (Some reason) ec) = Some (D', st') ->
    exists D3,
      sameDeclaration D D3 /\
      objcNameOf D3 = objcNameOf D' /\
      getForeignErrorConvention D3 = getForeignErrorConvention D' /\
      recordedObjCMethods st'
      = recordedObjCMethods st ++
        match getAsClassOrClassExtensionContext (getDeclContext D) with
        | Some classDecl =>
            if isaAbstractFunctionDecl D
            then [(classDeclName classDecl, D3)] else []
        | None => []
        end /\
      sourceFileObjCMethods st'
      = sourceFileObjCMethods st ++
        (if isaAbstractFunctionDecl D && hasParentSourceFile D
         then [(getObjCSelector D3, D3)] else []) /\
      HasCheckedBridgeFunctions st'
      = HasCheckedBridgeFunctions st || negb (isaDestructorDecl D).
Proof.
  intros st st' D D' reason ec H.
  apply markAsObjC_steps in H.
  destruct H as (D1 & D2 & D3 & st2 & E1 & T1 & T2 & N & Es & E').
  destruct (@markAsObjC_steps_same D D1 D2 D3 ec st2 st E1 T1 T2 N) as (S & _).
  exists D3. split; [exact S |].
  split; [subst D'; destruct (ObjCReason.eqb _ _); [| reflexivity];
          unfold objcNameOf; destruct (getObjCAttr D3); reflexivity |].
  split; [subst D'; destruct (ObjCReason.eqb _ _); reflexivity |].
  assert (B : forall s,
             recordedObjCMethods
               (if negb (isaDestructorDecl D)
                then checkBridgedFunctions s else s)
             = recordedObjCMethods s /\
             sourceFileObjCMethods
               (if negb (isaDestructorDecl D)
                then checkBridgedFunctions s else s)
             = sourceFileObjCMethods s /\
             HasCheckedBridgeFunctions
               (if negb (isaDestructorDecl D)
                then checkBridgedFunctions s else s)
             = HasCheckedBridgeFunctions s || negb (isaDestructorDecl D)).
  { intros s. unfold checkBridgedFunctions.
    destruct (isaDestructorDecl D); cbn [negb];
      [rewrite orb_false_r; auto |].
    destruct (HasCheckedBridgeFunctions s) eqn:Eh; simpl; auto. }
  destruct (B st) as (B1 & B2 & B3).
  assert (E2 : recordedObjCMethods st2
               = recordedObjCMethods st ++
                 match getAsClassOrClassExtensionContext (getDeclContext D)
                 with
                 | Some classDecl =>
                     if isaAbstractFunctionDecl D
                     then [(classDeclName classDecl, D3)] else []
                 | None => []
                 end /\
               sourceFileObjCMethods st2 = sourceFileObjCMethods st /\
               HasCheckedBridgeFunctions st2
               = HasCheckedBridgeFunctions st || negb (isaDestructorDecl D)).
  { destruct (getAsClassOrClassExtensionContext (getDeclContext D)).
    - destruct (isaAbstractFunctionDecl D).
      + destruct N as [_ ->]. simpl. rewrite B1, B2, B3. auto.
      + destruct N as [_ ->]. rewrite B1, B2, B3, app_nil_r. auto.
    - destruct N as [_ ->]. rewrite B1, B2, B3, app_nil_r. auto. }
  destruct E2 as (R1 & R2 & R3).
  subst st'.
  destruct (isaAbstractFunctionDecl D && hasParentSourceFile D); simpl.
  - rewrite R1, R2, R3. auto.
  - rewrite R1, R2, R3, app_nil_r. auto.
Qed.

(** X15: when [markAsObjC] returns on a declaration with a [@nonobjc]
    attribute, it has reported the conflict first, under the reason
    itself when that reason is diagnosed and under [ImplicitlyObjC] when
    it is not (so under a reason that can be classified), has
    invalidated the attribute and has still marked the declaration. *)
Theorem nonobjc_conflict_is_always_reported :
  forall (st st' : SemaState) (D D' : ValueDecl) (reason : ObjCReason)
         (ec : option FEC.t) (attr : NonObjCAttr) (ds : list Diag),
    getNonObjCAttr D = Some attr ->
    markAsObjC st D (Some reason) ec = Done (D', st') ds ->
    shouldDiagnoseObjCReason (reasonAfterNonObjC D reason) ctx = true /\
    (exists rest,
        ds = nonobjc_not_allowed
               (reasonCode (reasonKind (reasonAfterNonObjC D reason)))
             :: rest) /\
    getNonObjCAttr D' = Some (mkNonObjCAttr true) /\
    isObjC D' = true.
Proof.
  intros st st' D D' reason ec attr ds Ha H.
  split.
  { unfold reasonAfterNonObjC. rewrite Ha.
    destruct (shouldDiagnoseObjCReason reason ctx) eqn:E; cbn [negb];
      [exact E | reflexivity]. }
  split.
  { unfold markAsObjC in H. cbv beta iota zeta in H.
    destruct (markAsObjC_first_step D reason)
      as (D1 & ds1 & E1 & _ & _ & Eds).
    rewrite E1 in H. apply bind_Done in H.
    destruct H as (a & d1 & d2 & Ea & _ & ->).
    inversion Ea; subst. rewrite Ha. eexists. reflexivity. }
  assert (V : value (markAsObjC st D (Some reason) ec) = Some (D', st'))
    by (rewrite H; reflexivity).
  apply markAsObjC_steps in V.
  destruct V as (D1 & D2 & D3 & st2 & E1 & T1 & T2 & N & _ & E').
  destruct (@markAsObjC_steps_same D D1 D2 D3 ec st2 st E1 T1 T2 N)
    as (_ & Ho & _ & Hn & _).
  rewrite Ha in Hn.
  subst D'. destruct (ObjCReason.eqb _ _); auto.
Qed.

Lemma markAsObjC_swift3_mark :
  forall (st st' : SemaState) (D D' : ValueDecl) (reason : ObjCReason)
         (ec : option FEC.t),
    value (markAsObjC st D (Some reason) ec) = Some (D', st') ->
    attrIsSwift3Inferred (getObjCAttr D')
    = attrIsSwift3Inferred (getObjCAttr D) ||
      (ObjCReason.eqb (reasonKind reason) ObjCReason.MemberOfObjCSubclass &&
       isNone (getNonObjCAttr D)).
Proof.
  intros st st' D D' reason ec H.
  apply markAsObjC_steps in H.
  destruct H as (D1 & D2 & D3 & st2 & E1 & T1 & T2 & N & _ & E').
  destruct (@markAsObjC_steps_same D D1 D2 D3 ec st2 st E1 T1 T2 N)
    as (_ & _ & _ & _ & Ha & Hi).
  assert (E3 : attrIsSwift3Inferred (getObjCAttr D3)
               = attrIsSwift3Inferred (getObjCAttr D)).
  { destruct Hi as [-> | Hi]; [congruence |].
    apply inferObjCName_stable in Hi.
    destruct Hi as (_ & Hi & _). congruence. }
  assert (Er : ObjCReason.eqb (reasonKind (reasonAfterNonObjC D reason))
                              ObjCReason.MemberOfObjCSubclass
               = ObjCReason.eqb (reasonKind reason)
                                ObjCReason.MemberOfObjCSubclass &&
                 isNone (getNonObjCAttr D)).
  { unfold reasonAfterNonObjC.
    destruct (getNonObjCAttr D); cbn [isNone];
      [| rewrite andb_true_r; reflexivity].
    rewrite andb_false_r.
    destruct (shouldDiagnoseObjCReason reason ctx) eqn:Esd; cbn [negb];
      [| reflexivity].
    unfold shouldDiagnoseObjCReason in Esd.
    destruct (reasonKind reason); try reflexivity; discriminate. }
  rewrite Er in E'. subst D'.
  destruct (ObjCReason.eqb (reasonKind reason) ObjCReason.MemberOfObjCSubclass
            && isNone (getNonObjCAttr D)).
  - rewrite orb_true_r. simpl. destruct (getObjCAttr D3); reflexivity.
  - rewrite orb_false_r. exact E3.
Qed.

(** X16: the declaration ends with its [@objc] attribute marked as
    inferred by the Swift 3 rules exactly when it was so before, or the
    reason is [MemberOfObjCSubclass] and there is no [@nonobjc]
    attribute; in front of a [@nonobjc] attribute that reason is
    replaced and the mark is not set. *)
Theorem swift3_inference_mark :
  forall (st st' : SemaState) (D D' : ValueDecl) (reason : ObjCReason)
         (ec : option FEC.t),
    value (markAsObjC st D (Some reason) ec) = Some (D', st') ->
    attrIsSwift3Inferred (getObjCAttr D')
    = attrIsSwift3Inferred (getObjCAttr D) ||
      (ObjCReason.eqb (reasonKind reason) ObjCReason.MemberOfObjCSubclass &&
       isNone (getNonObjCAttr D)).
Proof. exact markAsObjC_swift3_mark. Qed.

(** *** Running the finalizer again *)

Lemma setIsObjC_same (d : ValueDecl) :
  isObjC d = true -> setIsObjC d true = d.
Proof. destruct d; simpl; intros ->; reflexivity. Qed.

Lemma setForeignErrorConvention_same (d : ValueDecl) (c : FEC.t) :
  getForeignErrorConvention d = Some c -> setForeignErrorConvention d c = d.
Proof. destruct d; simpl; intros ->; reflexivity. Qed.

Lemma swift3Marked_idempotent (d : ValueDecl) :
  swift3Marked (swift3Marked d) = swift3Marked d.
Proof. unfold swift3Marked. destruct d; simpl. destruct getObjCAttr0; reflexivity. Qed.

Lemma swift3Marked_same (d : ValueDecl) :
  sameDeclaration d (swift3Marked d) /\
  isObjC (swift3Marked d) = isObjC d /\
  objcNameOf (swift3Marked d) = objcNameOf d /\
  getNonObjCAttr (swift3Marked d) = getNonObjCAttr d /\
  getForeignErrorConvention (swift3Marked d) = getForeignErrorConvention d.
Proof.
  unfold swift3Marked, sameDeclaration, objcNameOf. simpl.
  destruct (getObjCAttr d); repeat split.
Qed.

Lemma adoptedOverride_same (d d' : ValueDecl) :
  sameDeclaration d d' -> adoptedOverride d' = adoptedOverride d.
Proof.
  intros (_ & _ & _ & _ & _ & _ & _ & Ho & _).
  unfold adoptedOverride. rewrite Ho. reflexivity.
Qed.

(** A declaration on which name inference has nothing to do stays so
    when its attribute is marked. *)
Lemma inferObjCName_marked (d : ValueDecl) :
  inferObjCName d = Done d [] ->
  inferObjCName (swift3Marked d) = Done (swift3Marked d) [].
Proof.
  intros H.
  destruct (swift3Marked_same d) as (S & Ho & Hn & _).
  destruct (sameDeclaration_kinds S) as (_ & _ & _ & Kd & _).
  pose proof (adoptedOverride_same S) as Ka.
  destruct (isaDestructorDecl d) eqn:Hd.
  { unfold inferObjCName. rewrite Kd. reflexivity. }
  destruct (isObjC d) eqn:Hob.
  2:{ unfold inferObjCName in H. rewrite Hd, Hob in H. discriminate. }
  destruct (adoptedOverride d) as [A |] eqn:Ha.
  - destruct (@inferObjCName_override d A Hd Hob Ha) as [m E].
    rewrite E in H.
    destruct (adoptOverriddenName_result d (overriddenObjCName A) m)
      as (B' & E' & HB & _).
    rewrite E' in H. assert (B' = d) by congruence. subst B'. clear H E'.
    destruct (@inferObjCName_override (swift3Marked d) A Kd Ho Ka)
      as [m' E2].
    rewrite E2. apply adoptOverriddenName_settled. congruence.
  - rewrite (inferObjCName_no_override d Hd Hob Ha) in H.
    rewrite (inferObjCName_no_override (swift3Marked d) Kd Ho Ka).
    unfold inferObjCNameFromWitnesses in *.
    assert (Hname : attrHasName (getObjCAttr (swift3Marked d))
                    = attrHasName (getObjCAttr d)).
    { unfold swift3Marked, attrHasName, hasName. simpl.
      destruct (getObjCAttr d); reflexivity. }
    destruct S as (_ & _ & _ & _ & _ & _ & _ & _ & Sr & _).
    rewrite Hname, Sr.
    destruct (attrHasName (getObjCAttr d)) eqn:En; [reflexivity |].
    destruct (findWitnessedObjCRequirements d) as [| firstReq rest];
      [reflexivity |].
    exfalso.
    destruct (checkLaterRequirements_result d firstReq rest)
      as (ds & E & _).
    rewrite E in H. simpl in H. inversion H as [[Hd' Hds]].
    assert (C : objcNameOf d = Some (reqObjCRuntimeName firstReq)).
    { rewrite <- Hd' at 1. apply setObjCName_name. }
    unfold objcNameOf, attrHasName, hasName in *.
    destruct (getObjCAttr d) as [a |]; [| discriminate].
    rewrite C in En. discriminate.
Qed.

(** X17: run again on its own result, with the same reason and
    convention, [markAsObjC] returns the same declaration: the name,
    the convention and the marks do not change.  (The tables do get a
    second entry, by the registration property.)  Stated for a
    declaration without [@nonobjc] attribute. *)
Theorem finalizer_is_idempotent_on_the_declaration :
  forall (st st' : SemaState) (D D' : ValueDecl) (reason : ObjCReason)
         (ec : option FEC.t),
    getNonObjCAttr D = None ->
    value (markAsObjC st D (Some reason) ec) = Some (D', st') ->
    exists st'' ds,
      markAsObjC st' D' (Some reason) ec = Done (D', st'') ds.
Proof.
  intros st st' D D' reason ec Hn H.
  pose proof (markAsObjC_aborts_iff st D reason ec)
    as [Ab Cv].
  specialize (Cv D' st' H).
  assert (Ab0 : hasThrows D && isNone (availableErrorConvention D ec)
                = false).
  { rewrite <- Ab.
    destruct (markAsObjC st D (Some reason) ec); [discriminate | reflexivity]. }
  pose proof H as H0.
  apply markAsObjC_steps in H.
  destruct H as (D1 & D2 & D3 & st2 & E1 & T1 & T2 & N & _ & E').
  destruct (@markAsObjC_steps_same D D1 D2 D3 ec st2 st E1 T1 T2 N)
    as (S3 & Ho3 & _ & Hn3 & _ & Hi).
  rewrite Hn in Hn3.
  assert (Er : reasonAfterNonObjC D reason = reason)
    by (unfold reasonAfterNonObjC; rewrite Hn; reflexivity).
  rewrite Er in E'. fold (swift3Marked D3) in E'.
  (* what the result keeps *)
  assert (P : sameDeclaration D D' /\ isObjC D' = true /\
              getNonObjCAttr D' = None).
  { destruct (swift3Marked_same D3) as (M1 & M2 & _ & M4 & _).
    subst D'. destruct (ObjCReason.eqb _ _).
    - split; [eapply sameDeclaration_trans; eassumption |].
      split; congruence.
    - auto. }
  destruct P as (S' & Ho' & Hn').
  destruct (sameDeclaration_kinds S') as (K1 & K2 & K3 & K4 & _).
  assert (Av : availableErrorConvention D' ec = availableErrorConvention D ec).
  { destruct S' as (_ & _ & Sc & _ & _ & _ & _ & So & _).
    unfold availableErrorConvention. rewrite Sc, So. reflexivity. }
  (* the second run returns *)
  pose proof (markAsObjC_aborts_iff st' D' reason ec)
    as [Ab2 _].
  rewrite K1, Av, Ab0 in Ab2.
  destruct (markAsObjC st' D' (Some reason) ec) as [m | [D'' st''] ds] eqn:E2;
    [discriminate |].
  exists st'', ds. f_equal. f_equal.
  assert (V : value (markAsObjC st' D' (Some reason) ec) = Some (D'', st''))
    by (rewrite E2; reflexivity).
  clear E2 Ab2.
  apply markAsObjC_steps in V.
  destruct V as (F1 & F2 & F3 & su2 & G1 & U1 & U2 & M & _ & G').
  rewrite Hn', (setIsObjC_same _ Ho') in G1. subst F1.
  assert (G2 : F2 = D').
  { rewrite K1 in U1, U2. destruct (hasThrows D).
    - destruct (U2 eq_refl) as (c & Hc & ->).
      apply setForeignErrorConvention_same. congruence.
    - apply U1. reflexivity. }
  subst F2.
  (* name inference has nothing left to do *)
  assert (I : D3 <> D2 -> inferObjCName D' = Done D' []).
  { intros Hne. destruct Hi as [Hi | Hi]; [contradiction |].
    apply inferObjCName_stable in Hi. destruct Hi as (_ & _ & Hi).
    subst D'. destruct (ObjCReason.eqb _ _);
      [apply inferObjCName_marked |]; exact Hi. }
  assert (G3 : F3 = D').
  { destruct S' as (_ & _ & Sc & _). rewrite Sc, K2, K3 in M.
    destruct (getAsClassOrClassExtensionContext (getDeclContext D)).
    - destruct (isaAbstractFunctionDecl D).
      + destruct M as [M _]. destruct N as [N _].
        assert (J : inferObjCName D' = Done D' []).
        { apply inferObjCName_stable in N. destruct N as (_ & _ & N).
          subst D'. destruct (ObjCReason.eqb _ _);
            [apply inferObjCName_marked |]; exact N. }
        rewrite J in M. inversion M. reflexivity.
      + destruct M as [M _]. destruct N as [N _].
        destruct (isaVarDecl D); [| exact M].
        assert (J : inferObjCName D' = Done D' []).
        { apply inferObjCName_stable in N. destruct N as (_ & _ & N).
          subst D'. destruct (ObjCReason.eqb _ _);
            [apply inferObjCName_marked |]; exact N. }
        rewrite J in M. inversion M. reflexivity.
    - destruct M as [M _]. exact M. }
  subst F3.
  assert (Er' : reasonAfterNonObjC D' reason = reason)
    by (unfold reasonAfterNonObjC; rewrite Hn'; reflexivity).
  rewrite Er' in G'. fold (swift3Marked D') in G'.
  rewrite G'. destruct (ObjCReason.eqb _ _) eqn:Eq; [| reflexivity].
  rewrite E'. apply swift3Marked_idempotent.
Qed.

(** *** The diagnostics of the finalizer *)

Lemma checkLaterRequirements_emits (decl : ValueDecl) (firstReq : Requirement)
    (reqs : list Requirement) (d : Diag) :
  In d (emitted (checkLaterRequirements decl firstReq reqs)) ->
  isNameDiagnostic d = true.
Proof.
  destruct (checkLaterRequirements_result decl firstReq reqs)
    as (ds & E & _ & H).
  rewrite E. simpl. intros Hin. specialize (H d Hin).
  destruct d; try contradiction; reflexivity.
Qed.

Lemma inferObjCNameFromWitnesses_emits (decl : ValueDecl) (d : Diag) :
  In d (emitted (inferObjCNameFromWitnesses decl)) ->
  isNameDiagnostic d = true.
Proof.
  unfold inferObjCNameFromWitnesses.
  destruct (attrHasName (getObjCAttr decl)); [intros [] |].
  destruct (findWitnessedObjCRequirements decl) as [| f rest]; [intros [] |].
  intros H. apply emitted_bind in H.
  destruct H as [H | (a & _ & [])].
  eapply checkLaterRequirements_emits; eassumption.
Qed.

Lemma adoptOverriddenName_emits (decl : ValueDecl) (sel : ObjCSelector)
    (m d : Diag) :
  isNameDiagnostic m = true ->
  In d (emitted (adoptOverriddenName decl sel m)) ->
  isNameDiagnostic d = true.
Proof.
  intros Hm. unfold adoptOverriddenName. intros H.
  apply emitted_bind in H. destruct H as [H | (a & _ & H)].
  - apply emitted_when in H. destruct H as [_ H]. simpl in H.
    destruct H as [<- | [<- | []]]; auto.
  - match type of H with
    | context [if ?c then _ else _] => destruct c
    end; destruct H.
Qed.

Lemma inferObjCName_emits (decl : ValueDecl) (d : Diag) :
  In d (emitted (inferObjCName decl)) -> isNameDiagnostic d = true.
Proof.
  unfold inferObjCName.
  destruct (isaDestructorDecl decl); [intros [] |].
  destruct (negb (isObjC decl)); [intros [] |].
  destruct (getOverriddenDecl decl) as [o |];
    [| apply inferObjCNameFromWitnesses_emits].
  destruct (isObjC o); [| apply inferObjCNameFromWitnesses_emits].
  destruct (isaAbstractFunctionDecl o);
    [apply adoptOverriddenName_emits; reflexivity |].
  destruct (isaVarDecl o);
    [apply adoptOverriddenName_emits; reflexivity
    | apply inferObjCNameFromWitnesses_emits].
Qed.

Lemma Done_inj {A} (a b : A) (d e : list Diag) :
  Done a d = Done b e -> a = b /\ d = e.
Proof. intros H. inversion H. auto. Qed.

Lemma attachErrorConvention_emits (m m' : ValueDecl) (ec : option FEC.t)
    (ds : list Diag) :
  attachErrorConvention m ec = Done m' ds ->
  ds = [] /\ sameDeclaration m m'.
Proof.
  unfold attachErrorConvention. destruct ec; [| discriminate].
  intros H. apply Done_inj in H. destruct H as [<- <-].
  split; [reflexivity |]. unfold sameDeclaration. simpl. repeat split.
Qed.

Lemma markSwift3Inferred_emits (D D' : ValueDecl) (ds : list Diag) :
  markSwift3Inferred D = Done D' ds ->
  ds = if match WarnSwift3ObjCInference (LangOpts ctx) with
          | WarnComplete => true
          | _ => false
          end && negb (isGetterOrSetterAccessor D)
       then [objc_inference_swift3_objc_derived;
             objc_inference_swift3_addobjc;
             objc_inference_swift3_addnonobjc]
       else [].
Proof.
  unfold markSwift3Inferred.
  match goal with |- context [when ?c _] => destruct c end;
    destruct (getObjCAttr D); simpl; intros H; inversion H; reflexivity.
Qed.

(** The class part of [markAsObjC]. *)
Lemma markMethodOfClass_emits (st st2 : SemaState) (c : ClassDecl)
    (m D3 : ValueDecl) (ec : option FEC.t) (ds : list Diag) :
  markMethodOfClass st c m ec = Done (D3, st2) ds ->
  exists nameDiags,
    ds = nameDiags ++
         (if negb (isInstanceMember m) then
            match isForbiddenSelector (getObjCSelector D3) with
            | Some d => [d]
            | None => []
            end
          else []) /\
    (forall d, In d nameDiags -> isNameDiagnostic d = true) /\
    st2 = recordObjCMethod st c D3 /\
    sameDeclaration m D3.
Proof.
  unfold markMethodOfClass. intros H.
  apply bind_Done in H. destruct H as (m1 & e1 & e2 & H1 & H & ->).
  assert (A1 : e1 = [] /\ sameDeclaration m m1).
  { destruct (getOverriddenDecl m); destruct (hasThrows m);
      try (apply attachErrorConvention_emits in H1; exact H1);
      apply Done_inj in H1; destruct H1 as [<- <-];
      (split; [reflexivity | apply sameDeclaration_refl]). }
  destruct A1 as [-> S1]. clear H1.
  apply bind_Done in H. destruct H as (m2 & n1 & e3 & H2 & H & ->).
  apply bind_Done in H. destruct H as ([] & f1 & e4 & H3 & H & ->).
  apply Done_inj in H. destruct H as [H <-].
  inversion H; subst D3 st2. clear H.
  exists n1. rewrite app_nil_r. cbn [app].
  assert (V : value (inferObjCName m1) = Some m2) by (rewrite H2; reflexivity).
  apply inferObjCName_same in V. destruct V as (S2 & _).
  assert (I : isInstanceMember m2 = isInstanceMember m).
  { destruct S1 as (_ & _ & _ & _ & _ & I1 & _).
    destruct S2 as (_ & _ & _ & _ & _ & I2 & _). congruence. }
  rewrite I in H3.
  split; [| split; [| split; [reflexivity |]]].
  3: eapply sameDeclaration_trans; eassumption.
  - f_equal. destruct (negb (isInstanceMember m)); simpl in H3.
    + destruct (isForbiddenSelector (getObjCSelector m2));
        inversion H3; reflexivity.
    + inversion H3; reflexivity.
  - intros d Hd. apply inferObjCName_emits with (decl := m1).
    rewrite H2. exact Hd.
Qed.

Lemma markAsObjC_emits :
  forall (st st' : SemaState) (D D' : ValueDecl) (reason : ObjCReason)
         (ec : option FEC.t) (ds : list Diag),
    markAsObjC st D (Some reason) ec = Done (D', st') ds ->
    exists nameDiags registered,
      ds = nonObjCConflict D reason ++ nameDiags ++
           classMethodComplaint D registered ++ swift3Warnings D reason /\
      (forall d, In d nameDiags -> isNameDiagnostic d = true) /\
      (getAsClassOrClassExtensionContext (getDeclContext D) = None \/
       isaAbstractFunctionDecl D || isaVarDecl D = false ->
       nameDiags = []) /\
      (forall c,
          getAsClassOrClassExtensionContext (getDeclContext D) = Some c ->
          isaAbstractFunctionDecl D = true ->
          recordedObjCMethods st'
          = recordedObjCMethods st ++ [(classDeclName c, registered)]).
Proof.
  intros st st' D D' reason ec ds H.
  unfold markAsObjC in H. cbv beta iota zeta in H.
  destruct (markAsObjC_first_step D reason)
    as (D1 & ds1 & E1 & S1 & _ & Eds1).
  rewrite E1 in H. clear E1.
  apply bind_Done in H. destruct H as (a & d1 & d2 & Ha & H & ->).
  apply Done_inj in Ha. destruct Ha as [<- <-]. cbn [fst snd] in H.
  destruct (sameDeclaration_kinds S1) as (K1 & K2 & K3 & K4 & K5).
  destruct S1 as (_ & _ & Sc & _ & _ & Si & _ & _ & _ & Sp).
  rewrite K4, Sc, K2, K3, K1 in H.
  apply bind_Done in H. destruct H as ([D3 st2] & d3 & d4 & Hc & H & ->).
  cbn [fst snd] in H.
  (* the class part *)
  assert (C : exists nameDiags,
             d3 = nameDiags ++ classMethodComplaint D D3 /\
             (forall d, In d nameDiags -> isNameDiagnostic d = true) /\
             (getAsClassOrClassExtensionContext (getDeclContext D) = None \/
              isaAbstractFunctionDecl D || isaVarDecl D = false ->
              nameDiags = []) /\
             (forall c,
                 getAsClassOrClassExtensionContext (getDeclContext D) = Some c ->
                 isaAbstractFunctionDecl D = true ->
                 recordedObjCMethods st2
                 = recordedObjCMethods st ++ [(classDeclName c, D3)]) /\
             sameDeclaration D1 D3).
  { unfold classMethodComplaint.
    assert (B : recordedObjCMethods
                  (if negb (isaDestructorDecl D)
                   then checkBridgedFunctions st else st)
                = recordedObjCMethods st).
    { unfold checkBridgedFunctions.
      destruct (isaDestructorDecl D); [reflexivity |]. cbn [negb].
      destruct (HasCheckedBridgeFunctions st); reflexivity. }
    destruct (getAsClassOrClassExtensionContext (getDeclContext D))
      as [c |].
    - destruct (isaAbstractFunctionDecl D) eqn:Ef.
      + apply markMethodOfClass_emits in Hc.
        destruct Hc as (n & -> & Hn & -> & S3).
        exists n. rewrite Si. cbn [andb].
        split; [reflexivity |]. split; [exact Hn |].
        split; [intros [HN | HN]; discriminate |].
        split; [| exact S3].
        intros c' Hc' _. inversion Hc'; subst c'. simpl. rewrite B.
        reflexivity.
      + cbn [andb orb]. destruct (isaVarDecl D) eqn:Ev.
        * apply bind_Done in Hc.
          destruct Hc as (m2 & n1 & e & H2 & Hr & ->).
          apply Done_inj in Hr. destruct Hr as [Hr <-].
          inversion Hr; subst D3 st2. clear Hr.
          exists n1. rewrite !app_nil_r.
          split; [reflexivity |].
          split; [intros d Hd; apply inferObjCName_emits with (decl := D1);
                  rewrite H2; exact Hd |].
          split; [intros [HN | HN]; discriminate |].
          split; [intros c' _ HN; discriminate |].
          assert (V : value (inferObjCName D1) = Some m2)
            by (rewrite H2; reflexivity).
          apply inferObjCName_same in V. apply V.
        * apply Done_inj in Hc. destruct Hc as [Hr <-].
          inversion Hr; subst D3 st2. exists [].
          split; [reflexivity |]. split; [intros d [] |].
          split; [reflexivity |].
          split; [intros c' _ HN; discriminate |].
          apply sameDeclaration_refl.
    - exists []. cbn [app].
      assert (E : d3 = [] /\ sameDeclaration D1 D3).
      { destruct (isaAbstractFunctionDecl D && hasThrows D).
        - apply bind_Done in Hc.
          destruct Hc as (m2 & n1 & e & H2 & Hr & ->).
          apply Done_inj in Hr. destruct Hr as [Hr <-].
          inversion Hr; subst D3 st2.
          apply attachErrorConvention_emits in H2.
          destruct H2 as [-> S]. auto.
        - apply Done_inj in Hc. destruct Hc as [Hr <-].
          inversion Hr; subst D3 st2.
          split; [reflexivity | apply sameDeclaration_refl]. }
      destruct E as [-> S3].
      split; [reflexivity |]. split; [intros d [] |].
      split; [reflexivity |].
      split; [intros c' HN; discriminate | exact S3]. }
  destruct C as (nameDiags & -> & Hn & Hnil & Hrec & S3).
  destruct (sameDeclaration_kinds S3) as (_ & _ & _ & _ & J5).
  (* the end *)
  assert (L : d4 = swift3Warnings D reason /\
              recordedObjCMethods st' = recordedObjCMethods st2).
  { unfold swift3Warnings.
    assert (R : forall b : bool,
               recordedObjCMethods
                 (if b then recordInSourceFile st2 D3 else st2)
               = recordedObjCMethods st2)
      by (intros []; reflexivity).
    destruct (ObjCReason.eqb (reasonKind (reasonAfterNonObjC D reason))
                             ObjCReason.MemberOfObjCSubclass).
    - apply bind_Done in H. destruct H as (m & w & e & Hw & Hr & ->).
      apply Done_inj in Hr. destruct Hr as [Hr <-].
      inversion Hr; subst D' st'. clear Hr.
      apply markSwift3Inferred_emits in Hw.
      rewrite J5, K5 in Hw. rewrite app_nil_r. cbn [andb].
      split; [exact Hw | apply R].
    - apply Done_inj in H. destruct H as [Hr <-].
      inversion Hr; subst D' st'. cbn [andb].
      split; [reflexivity | apply R]. }
  destruct L as [-> Lr].
  exists nameDiags, D3.
  split; [unfold nonObjCConflict; rewrite <- app_assoc, Eds1; reflexivity |].
  split; [exact Hn |]. split; [exact Hnil |].
  intros c Hc' Hf. rewrite Lr. apply Hrec; assumption.
Qed.

(** X18: the diagnostics of [markAsObjC] on a declaration that is
    marked, in order: the conflict with a [@nonobjc] attribute, if any;
    the diagnostics of name inference, and none of them outside a class
    or for a declaration that is neither a function nor a property; one
    complaint when the declaration is a class method of a class and the
    selector of the method as recorded is not permitted; the three
    warnings about Swift 3 inference when the reason is
    [MemberOfObjCSubclass], the warnings are complete and the
    declaration is not a getter or setter.  Nothing else is emitted. *)
Theorem finalizer_diagnostics :
  forall (st st' : SemaState) (D D' : ValueDecl) (reason : ObjCReason)
         (ec : option FEC.t) (ds : list Diag),
    markAsObjC st D (Some reason) ec = Done (D', st') ds ->
    exists nameDiags registered,
      ds = nonObjCConflict D reason ++ nameDiags ++
           classMethodComplaint D registered ++ swift3Warnings D reason /\
      (forall d, In d nameDiags -> isNameDiagnostic d = true) /\
      (getAsClassOrClassExtensionContext (getDeclContext D) = None \/
       isaAbstractFunctionDecl D || isaVarDecl D = false ->
       nameDiags = []) /\
      (forall c,
          getAsClassOrClassExtensionContext (getDeclContext D) = Some c ->
          isaAbstractFunctionDecl D = true ->
          recordedObjCMethods st'
          = recordedObjCMethods st ++ [(classDeclName c, registered)]).
Proof. exact markAsObjC_emits. Qed.

(** *** The inference of the reason *)

Ltac settled :=
  let H := fresh in
  intros H; inversion H; subst; cbn; repeat split; auto; discriminate.

Lemma shouldMarkAsObjC_member_reason (VD : ValueDecl) (info : MemberInfo)
    (allowImplicit : bool) (r : ObjCReason) :
  markingReason (shouldMarkAsObjC (MemberToBeMarked VD info) allowImplicit)
  = Some r ->
  reasonWellFormed VD r = true /\
  isInferableKind (reasonKind r) = true /\
  (isSwift3Kind (reasonKind r) = true ->
   EnableSwift3ObjCInference (LangOpts ctx) = true) /\
  (hasNonObjC VD = true -> isExplicitKind (reasonKind r) = true).
Proof.
  unfold hasNonObjC.
  cbn [shouldMarkAsObjC].
  destruct (getObjCAttr VD) eqn:E1.
  { settled. }
  destruct (hasIBOutletAttr info).
  { settled. }
  destruct (hasIBActionAttr info).
  { settled. }
  destruct (hasIBInspectableAttr info).
  { settled. }
  destruct (hasGKInspectableAttr info).
  { settled. }
  destruct (hasNSManagedAttr info).
  { settled. }
  match goal with |- context [if ?c then _ else _] => destruct c end.
  { settled. }
  match goal with |- context [if ?c then _ else _] => destruct c eqn:En end.
  { discriminate. }
  destruct (isMemberOfObjCClassExtension VD).
  { settled. }
  match goal with |- context [if ?c then _ else _] => destruct c end.
  { settled. }
  destruct (getOverriddenDecl VD) as [o |] eqn:Eo.
  - destruct (isObjC o).
    { intros H; inversion H; subst. unfold reasonWellFormed; cbn.
      rewrite Eo. repeat split; auto; discriminate. }
    match goal with
    | |- context [match ?c with [] => _ | _ :: _ => _ end] => destruct c
    end.
    + destruct (getDynamicAttr VD) as [a |].
      * unfold inferFromDynamic.
        destruct (dynamicIsImplicit a);
          [settled |].
        destruct (EnableSwift3ObjCInference (LangOpts ctx));
          settled.
      * unfold inferFromObjCSubclass.
        destruct (EnableSwift3ObjCInference (LangOpts ctx)); cbn [negb];
          [| discriminate].
        destruct (canInferImplicitObjC VD info allowImplicit); cbn [negb];
          [| discriminate].
        destruct (getAsClassOrClassExtensionContext (getDeclContext VD));
          [| discriminate].
        destruct (contextClassIsForeign info); [discriminate |].
        destruct (contextClassObjCAncestry info); [discriminate | | |];
          destruct (isImplicit info);
          settled.
    + settled.
  - cbn iota.
    match goal with
    | |- context [match ?c with [] => _ | _ :: _ => _ end] => destruct c
    end.
    + destruct (getDynamicAttr VD) as [a |].
      * unfold inferFromDynamic.
        destruct (dynamicIsImplicit a);
          [settled |].
        destruct (EnableSwift3ObjCInference (LangOpts ctx));
          settled.
      * unfold inferFromObjCSubclass.
        destruct (EnableSwift3ObjCInference (LangOpts ctx)); cbn [negb];
          [| discriminate].
        destruct (canInferImplicitObjC VD info allowImplicit); cbn [negb];
          [| discriminate].
        destruct (getAsClassOrClassExtensionContext (getDeclContext VD));
          [| discriminate].
        destruct (contextClassIsForeign info); [discriminate |].
        destruct (contextClassObjCAncestry info); [discriminate | | |];
          destruct (isImplicit info);
          settled.
    + settled.
Qed.


Lemma shouldMarkClassAsObjC_cases (CD : ClassToMark) :
  let m := shouldMarkClassAsObjC CD in
  (forall r, markingReason m = Some r ->
             r = reasonOf ObjCReason.ExplicitlyObjC \/
             r = reasonOf ObjCReason.ImplicitlyObjC) /\
  (markingReason m = Some (reasonOf ObjCReason.ExplicitlyObjC) <->
   exists attr, classObjCAttr CD = Some attr /\
                addedObjCRuntimeName m = None) /\
  (markingReason m = Some (reasonOf ObjCReason.ImplicitlyObjC) <->
   classObjCAttr CD = None /\
   (checkObjCAncestry CD = OCK_ObjC \/
    checkObjCAncestry CD = OCK_ObjCWithSwiftRoot)) /\
  (forall attr, addedObjCRuntimeName m = Some attr <->
     classObjCAttr CD = Some attr /\ checkObjCAncestry CD = OCK_ObjCMembers /\
     hasName attr = true /\ isGenericContext CD = false) /\
  (markingDiags m <> [] ->
   markingReason m = Some (reasonOf ObjCReason.ExplicitlyObjC) /\
   checkObjCAncestry CD <> OCK_ObjC /\ checkObjCAncestry CD <> OCK_NonObjC).
Proof.
  unfold shouldMarkClassAsObjC, decided, reasonOf.
  destruct (classObjCAttr CD) as [attr |];
    destruct (checkObjCAncestry CD);
    try destruct (hasName attr) eqn:Hn;
    try destruct (isGenericContext CD) eqn:Hg;
    cbn; repeat split;
    try (intros; discriminate);
    try (intros; congruence);
    try (intros r H; inversion H; subst; auto; fail);
    try (intros H; eexists; split; reflexivity);
    try (intros (a & H1 & H2); congruence);
    try (intros (H1 & [H2 | H2]); congruence);
    try (intros (H1 & H2 & H3 & H4); congruence);
    try (intros (H1 & H2 & H3); congruence);
    try (intros (H1 & H2); congruence);
    try (intros H; inversion H; subst; auto; fail);
    try (intros [H1 [H2 | H2]]; discriminate);
    auto.
Qed.

Lemma shouldMarkAsObjC_member_diags (VD : ValueDecl) (info : MemberInfo)
    (allowImplicit : bool) :
  let m := shouldMarkAsObjC (MemberToBeMarked VD info) allowImplicit in
  addedObjCRuntimeName m = None /\
  (markingDiags m = [] \/
   exists attr,
     getDynamicAttr VD = Some attr /\ dynamicIsImplicit attr = false /\
     hasExplicitObjCReason VD info = false /\ hasNonObjC VD = false /\
     if EnableSwift3ObjCInference (LangOpts ctx) then
       markingDiags m = [objc_inference_swift3_dynamic] /\
       markingReason m = Some (reasonOf ObjCReason.ExplicitlyDynamic) /\
       WarnSwift3ObjCInference (LangOpts ctx) <> WarnNone /\
       isGetterOrSetterAccessor VD = false
     else
       markingDiags m = [dynamic_requires_objc (getFullName VD)] /\
       markingReason m = Some (reasonOf ObjCReason.ImplicitlyObjC)).
Proof.
  unfold hasExplicitObjCReason, hasNonObjC.
  cbn [shouldMarkAsObjC].
  destruct (getObjCAttr VD); [cbn; auto |].
  destruct (hasIBOutletAttr info); [cbn; auto |].
  destruct (hasIBActionAttr info); [cbn; auto |].
  destruct (hasIBInspectableAttr info); [cbn; auto |].
  destruct (hasGKInspectableAttr info); [cbn; auto |].
  destruct (hasNSManagedAttr info); [cbn; auto |].
  match goal with |- context [if ?c then _ else _] => destruct c end;
    [cbn; auto |].
  match goal with |- context [if ?c then _ else _] => destruct c end;
    [cbn; auto |].
  destruct (isMemberOfObjCClassExtension VD); [cbn; auto |].
  match goal with |- context [if ?c then _ else _] => destruct c end;
    [cbn; auto |].
  match goal with |- context [if ?c then _ else _] => destruct c end;
    [cbn; auto |].
  match goal with
  | |- context [match ?c with [] => _ | _ :: _ => _ end] => destruct c
  end; [| cbn; auto].
  destruct (getDynamicAttr VD) as [a |].
  - unfold inferFromDynamic.
    destruct (dynamicIsImplicit a) eqn:Ei; [cbn; auto |].
    destruct (EnableSwift3ObjCInference (LangOpts ctx)).
    + destruct (WarnSwift3ObjCInference (LangOpts ctx)) eqn:Ew;
        [cbn; auto | |];
        (destruct (isGetterOrSetterAccessor VD); cbn [negb andb];
         [cbn; auto |]);
        (split; [reflexivity |]; right; exists a;
         repeat split; auto; discriminate).
    + split; [reflexivity |]. right. exists a. repeat split; auto.
  - unfold inferFromObjCSubclass, decided.
    repeat match goal with
           | |- context [if ?c then _ else _] => destruct c
           | |- context [match ?c with _ => _ end] => destruct c
           end; cbn; auto.
Qed.

(** Anything but [MemberOfObjCSubclass] stays so in front of a
    [@nonobjc] attribute. *)
Lemma reasonAfterNonObjC_kind (D : ValueDecl) (r : ObjCReason) :
  ObjCReason.eqb (reasonKind r) ObjCReason.MemberOfObjCSubclass = false ->
  ObjCReason.eqb (reasonKind (reasonAfterNonObjC D r))
                 ObjCReason.MemberOfObjCSubclass = false.
Proof.
  unfold reasonAfterNonObjC. intros H.
  destruct (getNonObjCAttr D); [| exact H].
  destruct (negb (shouldDiagnoseObjCReason r ctx)); [reflexivity | exact H].
Qed.

(** X19: [shouldMarkAsObjC] never gives the reason for [@_cdecl] nor
    the reason for accessors; it gives [ExplicitlyDynamic] or
    [MemberOfObjCSubclass] only when the inference rules of Swift 3 are
    enabled; for a class it gives only [ExplicitlyObjC] or
    [ImplicitlyObjC]; for a member the reason is well formed: an
    override reason comes with an overridden declaration, a witness
    reason with its requirement. *)
Theorem inferred_reason_kinds :
  forall (D : MarkedDecl) (allowImplicit : bool) (r : ObjCReason),
    markingReason (shouldMarkAsObjC D allowImplicit) = Some r ->
    isInferableKind (reasonKind r) = true /\
    (isSwift3Kind (reasonKind r) = true ->
     EnableSwift3ObjCInference (LangOpts ctx) = true) /\
    match D with
    | ClassToBeMarked _ =>
        r = reasonOf ObjCReason.ExplicitlyObjC \/
        r = reasonOf ObjCReason.ImplicitlyObjC
    | MemberToBeMarked VD _ => reasonWellFormed VD r = true
    end.
Proof.
  intros [CD | VD info] allowImplicit r H.
  - destruct (shouldMarkClassAsObjC_cases CD) as (C & _).
    specialize (C r H).
    destruct C as [-> | ->]; cbn; repeat split; auto; discriminate.
  - apply shouldMarkAsObjC_member_reason in H.
    destruct H as (W & I & S3 & _). auto.
Qed.

(** X20: inference, check and finalizer compose on a function: with
    the reason that [shouldMarkAsObjC] gives the check returns, and when
    it returns true [markAsObjC] with that reason and the convention the
    check left does not abort. *)
Theorem inference_check_mark_never_aborts :
  forall (VD : ValueDecl) (info : MemberInfo) (allowImplicit : bool)
         (r : ObjCReason) (st : SemaState),
    isaAbstractFunctionDecl VD = true ->
    markingReason (shouldMarkAsObjC (MemberToBeMarked VD info) allowImplicit)
    = Some r ->
    exists b ec ds,
      isRepresentableInObjC VD r = Done (b, ec) ds /\
      (b = true -> aborts (markAsObjC st VD (Some r) ec) = false).
Proof.
  intros VD info allowImplicit r st _ H.
  apply shouldMarkAsObjC_member_reason in H. destruct H as (W & _).
  destruct (isRepresentableInObjC_Done VD r W) as ([b ec] & ds & E).
  exists b, ec, ds. split; [exact E |].
  intros ->. apply markAsObjC_after_check. rewrite E. reflexivity.
Qed.

(** X21: a [@nonobjc] attribute on the member or on its extension
    blocks every inference: the member gets a reason exactly when it
    has an attribute that implies [@objc] or is a member of an [@objc]
    protocol, the reason is of that kind, and nothing is diagnosed. *)
Theorem nonobjc_blocks_implicit_inference :
  forall (VD : ValueDecl) (info : MemberInfo) (allowImplicit : bool),
    hasNonObjC VD = true ->
    let m := shouldMarkAsObjC (MemberToBeMarked VD info) allowImplicit in
    markingDiags m = [] /\
    (markingReason m = None <-> hasExplicitObjCReason VD info = false) /\
    (forall r, markingReason m = Some r ->
               isExplicitKind (reasonKind r) = true).
Proof.
  intros VD info allowImplicit Hn m.
  destruct (shouldMarkAsObjC_member_diags VD info allowImplicit)
    as (_ & [Hd | (a & _ & _ & _ & Hc & _)]); [| congruence].
  split; [exact Hd |].
  split.
  - subst m. unfold hasExplicitObjCReason, hasNonObjC in *.
    cbn [shouldMarkAsObjC].
    destruct (getObjCAttr VD); [cbn; split; discriminate |].
    destruct (hasIBOutletAttr info); [cbn; split; discriminate |].
    destruct (hasIBActionAttr info); [cbn; split; discriminate |].
    destruct (hasIBInspectableAttr info); [cbn; split; discriminate |].
    destruct (hasGKInspectableAttr info); [cbn; split; discriminate |].
    destruct (hasNSManagedAttr info); [cbn; split; discriminate |].
    match goal with |- context [if ?c then _ else _] => destruct c end;
      [cbn; split; discriminate |].
    rewrite Hn. cbn. split; reflexivity.
  - intros r Hr. apply shouldMarkAsObjC_member_reason in Hr.
    destruct Hr as (_ & _ & _ & He). exact (He Hn).
Qed.

(** X22: [shouldMarkAsObjC] on a member adds no runtime name and
    diagnoses only an explicit [dynamic] that decides: one warning and
    the reason [ExplicitlyDynamic] under Swift 3 inference with
    warnings, for a declaration that is not a getter or setter; the
    error [dynamic_requires_objc] and still the reason [ImplicitlyObjC]
    without Swift 3 inference. *)
Theorem member_inference_diagnostics :
  forall (VD : ValueDecl) (info : MemberInfo) (allowImplicit : bool),
    let m := shouldMarkAsObjC (MemberToBeMarked VD info) allowImplicit in
    addedObjCRuntimeName m = None /\
    (markingDiags m = [] \/
     exists attr,
       getDynamicAttr VD = Some attr /\ dynamicIsImplicit attr = false /\
       hasExplicitObjCReason VD info = false /\ hasNonObjC VD = false /\
       if EnableSwift3ObjCInference (LangOpts ctx) then
         markingDiags m = [objc_inference_swift3_dynamic] /\
         markingReason m = Some (reasonOf ObjCReason.ExplicitlyDynamic) /\
         WarnSwift3ObjCInference (LangOpts ctx) <> WarnNone /\
         isGetterOrSetterAccessor VD = false
       else
         markingDiags m = [dynamic_requires_objc (getFullName VD)] /\
         markingReason m = Some (reasonOf ObjCReason.ImplicitlyObjC)).
Proof. exact shouldMarkAsObjC_member_diags. Qed.

(** X23: a class gets the reason [ExplicitlyObjC] exactly when it has
    an [@objc] attribute that is not turned into a runtime name, and
    [ImplicitlyObjC] exactly when it has none and its ancestry is
    [ObjC] or [ObjCWithSwiftRoot]; the attribute becomes a runtime name
    exactly when it has a name and the class is a non-generic class
    with generic ancestry; a class that is diagnosed is still given
    [ExplicitlyObjC]. *)
Theorem class_marking :
  forall (CD : ClassToMark) (allowImplicit : bool),
    let m := shouldMarkAsObjC (ClassToBeMarked CD) allowImplicit in
    (forall r, markingReason m = Some r ->
               r = reasonOf ObjCReason.ExplicitlyObjC \/
               r = reasonOf ObjCReason.ImplicitlyObjC) /\
    (markingReason m = Some (reasonOf ObjCReason.ExplicitlyObjC) <->
     exists attr, classObjCAttr CD = Some attr /\
                  addedObjCRuntimeName m = None) /\
    (markingReason m = Some (reasonOf ObjCReason.ImplicitlyObjC) <->
     classObjCAttr CD = None /\
     (checkObjCAncestry CD = OCK_ObjC \/
      checkObjCAncestry CD = OCK_ObjCWithSwiftRoot)) /\
    (forall attr, addedObjCRuntimeName m = Some attr <->
       classObjCAttr CD = Some attr /\
       checkObjCAncestry CD = OCK_ObjCMembers /\
       hasName attr = true /\ isGenericContext CD = false) /\
    (markingDiags m <> [] ->
     markingReason m = Some (reasonOf ObjCReason.ExplicitlyObjC) /\
     checkObjCAncestry CD <> OCK_ObjC /\
     checkObjCAncestry CD <> OCK_NonObjC).
Proof. intros CD allowImplicit. exact (shouldMarkClassAsObjC_cases CD). Qed.

Lemma isForbiddenSelector_kinds (sel : ObjCSelector) (d : Diag) :
  isForbiddenSelector sel = Some d ->
  d = objc_class_method_not_permitted sel \/
  d = objc_class_method_not_permitted_swift3_compat_warning sel.
Proof.
  unfold isForbiddenSelector.
  repeat match goal with
         | |- context [if ?c then _ else _] => destruct c
         | |- context [match ?c with _ => _ end] => destruct c
         end; intros H; inversion H; auto.
Qed.

(** X24: without the inference rules of Swift 3, [markAsObjC] with a
    reason that [shouldMarkAsObjC] gave keeps the Swift 3 mark of the
    attribute as it was and emits none of the warnings about Swift 3
    inference, and the inference did not emit its Swift 3 warning. *)
Theorem swift4_inference_leaves_no_swift3_mark :
  forall (VD D' : ValueDecl) (info : MemberInfo) (allowImplicit : bool)
         (r : ObjCReason) (st st' : SemaState) (ec : option FEC.t)
         (ds : list Diag),
    EnableSwift3ObjCInference (LangOpts ctx) = false ->
    markingReason (shouldMarkAsObjC (MemberToBeMarked VD info) allowImplicit)
    = Some r ->
    markAsObjC st VD (Some r) ec = Done (D', st') ds ->
    attrIsSwift3Inferred (getObjCAttr D')
    = attrIsSwift3Inferred (getObjCAttr VD) /\
    (forall d, In d ds -> isSwift3Warning d = false) /\
    ~ In objc_inference_swift3_dynamic
         (markingDiags
            (shouldMarkAsObjC (MemberToBeMarked VD info) allowImplicit)).
Proof.
  intros VD D' info allowImplicit r st st' ec ds H4 Hr Hm.
  pose proof Hr as Hr0.
  apply shouldMarkAsObjC_member_reason in Hr.
  destruct Hr as (_ & _ & S3 & _).
  assert (K : ObjCReason.eqb (reasonKind r) ObjCReason.MemberOfObjCSubclass
              = false).
  { destruct (reasonKind r); try reflexivity.
    specialize (S3 eq_refl). congruence. }
  split; [| split].
  - assert (V : value (markAsObjC st VD (Some r) ec) = Some (D', st'))
      by (rewrite Hm; reflexivity).
    apply markAsObjC_swift3_mark in V. rewrite V, K.
    cbn [andb]. apply orb_false_r.
  - apply markAsObjC_emits in Hm.
    destruct Hm as (nameDiags & registered & -> & Hn & _).
    unfold swift3Warnings. rewrite (reasonAfterNonObjC_kind VD r K).
    cbn [andb]. rewrite app_nil_r.
    intros d Hd. apply in_app_or in Hd. destruct Hd as [Hd | Hd].
    + unfold nonObjCConflict in Hd.
      destruct (getNonObjCAttr VD);
        [destruct Hd as [<- | []]; reflexivity | destruct Hd].
    + apply in_app_or in Hd. destruct Hd as [Hd | Hd].
      * apply Hn in Hd. destruct d; try discriminate; reflexivity.
      * unfold classMethodComplaint in Hd.
        destruct (getAsClassOrClassExtensionContext (getDeclContext VD));
          [| destruct Hd].
        destruct (isaAbstractFunctionDecl VD && negb (isInstanceMember VD));
          [| destruct Hd].
        destruct (isForbiddenSelector (getObjCSelector registered)) as [f |]
          eqn:Ef; [| destruct Hd].
        destruct Hd as [<- | []].
        apply isForbiddenSelector_kinds in Ef.
        destruct Ef as [-> | ->]; reflexivity.
  - destruct (shouldMarkAsObjC_member_diags VD info allowImplicit)
      as (_ & [-> | (a & _ & _ & _ & _ & Hc)]); [intros [] |].
    rewrite H4 in Hc. destruct Hc as [-> _].
    intros [Hc | []]. discriminate.
Qed.

(** *** Properties and subscripts *)

Section StorageProperties.

Open Scope storage_scope.

Lemma sbind_SDone {A B} (a : A) (ds : list StorageDiag)
    (k : A -> StorageOutcome B) :
  sbind (SDone a ds) k
  = match k a with
    | SAbort m => SAbort m
    | SDone b ds' => SDone b (ds ++ ds')
    end.
Proof. reflexivity. Qed.

Lemma sbind_sret {A B} (a : A) (k : A -> StorageOutcome B) :
  sbind (sret a) k = k a.
Proof. simpl. destruct (k a); reflexivity. Qed.

Lemma call_Done {A} (c : Outcome A) (a : A) (ds : list Diag) :
  c = Done a ds -> call c = SDone a (map earlier ds).
Proof. intros ->. reflexivity. Qed.

(** The two checks of the context in closed form. *)
Lemma checkObjCInForeignClassContext_closed (VD : ValueDecl)
    (Reason : ObjCReason) :
  reasonWellFormed VD Reason = true ->
  exists ds,
    checkObjCInForeignClassContext VD Reason
    = Done (negb (notInForeignClass VD)) ds /\
    (shouldDiagnoseObjCReason Reason ctx = false -> ds = []) /\
    (notInForeignClass VD = true -> ds = []).
Proof.
  intros Hw.
  destruct (checkObjCInForeignClassContext_Done VD Reason Hw) as (b & ds & E).
  assert (V : value (checkObjCInForeignClassContext VD Reason) = Some b)
    by (rewrite E; reflexivity).
  apply checkObjCInForeignClassContext_value in V.
  fold (notInForeignClass VD) in V. subst b.
  exists ds. split; [exact E |]. split.
  - intros Hd.
    destruct (checkObjCInForeignClassContext_silent VD Reason Hd) as (b' & E').
    congruence.
  - intros Hn. unfold notInForeignClass, checkObjCInForeignClassContext in *.
    destruct (getAsClassOrClassExtensionContext (getDeclContext VD)) as [c |];
      [| inversion E; reflexivity].
    destruct (getForeignClassKind c); try discriminate.
    inversion E; reflexivity.
Qed.

Lemma checkObjCInExtensionContext_closed (VD : ValueDecl) (D : bool) :
  exists ds,
    checkObjCInExtensionContext VD D
    = Done (negb (notInGenericExtension VD)) ds /\
    (D = false -> ds = []) /\
    (notInGenericExtension VD = true -> ds = []).
Proof.
  unfold checkObjCInExtensionContext, notInGenericExtension.
  destruct (getDeclContext VD) as [c | ED ext | p |];
    try (exists []; repeat split; reflexivity).
  destruct (getTrailingWhereClause ED).
  - destruct D; eexists; (split; [reflexivity |]); split;
      intros; try discriminate; reflexivity.
  - destruct (getGenericAncestor ED) as [[|] |];
      try (exists []; repeat split; reflexivity).
    destruct D; eexists; (split; [reflexivity |]); split;
      intros; try discriminate; reflexivity.
Qed.

Lemma silent_not_diagnosed (Reason : ObjCReason) :
  isPermanentlySilent (reasonKind Reason) = true ->
  shouldDiagnoseObjCReason Reason ctx = false.
Proof.
  unfold shouldDiagnoseObjCReason.
  destruct (reasonKind Reason); try discriminate; reflexivity.
Qed.

(** The diagnosis that ends both checks: it returns when the reason is
    diagnosed and well formed. *)
Lemma storage_diagnosis_returns (decl : ValueDecl) (Reason : ObjCReason)
    (mk : nat -> StorageDiag) (note : Outcome unit) (Result : bool) :
  reasonWellFormed decl Reason = true ->
  shouldDiagnoseObjCReason Reason ctx = true ->
  (exists ns, note = Done tt ns) ->
  exists ds,
    (k <- call (getObjCDiagnosticAttrKind Reason) ;;
     sdiagnose (mk k) ;;;
     call note ;;;
     call (describeObjCReason decl Reason) ;;;
     sret Result)
    = SDone Result (mk (reasonCode (reasonKind Reason)) :: ds) /\
    forall d, In d ds -> isEarlier d = true.
Proof.
  intros Hw Hd (ns & ->).
  rewrite (getObjCDiagnosticAttrKind_Done Reason Hd).
  destruct (describeObjCReason_Done decl Reason Hw) as (rs & ->).
  eexists. split; [reflexivity |].
  cbn. intros d Hin. rewrite app_nil_r in Hin.
  apply in_app_or in Hin. destruct Hin as [Hin | Hin];
    apply in_map_iff in Hin; destruct Hin as (x & <- & _); reflexivity.
Qed.

Lemma variable_check (VD : VarDecl) (Reason : ObjCReason) :
  reasonWellFormed (varAsValueDecl VD) Reason = true ->
  exists ds,
    isRepresentableInObjC_Var VD Reason
    = SDone (negb (varIsInvalid VD) && variableTypeAllowsObjC VD &&
             notInGenericExtension (varAsValueDecl VD) &&
             notInForeignClass (varAsValueDecl VD)) ds /\
    (shouldDiagnoseObjCReason Reason ctx = false -> ds = []) /\
    (forall k, In (objc_invalid_on_var k) ds <->
       (varIsInvalid VD = false /\ variableTypeAllowsObjC VD = false /\
        notInForeignClass (varAsValueDecl VD) = true /\
        shouldDiagnoseObjCReason Reason ctx = true /\
        k = reasonCode (reasonKind Reason))).
Proof.
  intros Hw. unfold isRepresentableInObjC_Var, variableTypeAllowsObjC.
  destruct (varIsInvalid VD).
  { exists []. split; [reflexivity |]. split; [reflexivity |].
    intros k. split; [intros [] | intros (H & _); discriminate]. }
  cbn [negb andb].
  assert (T : match mapVarTypeIntoContext (varAsValueDecl VD)
                      (getInterfaceType VD) with
              | ReferenceStorageType referent => referent
              | PlainType T => T
              end
              = mapTypeIntoContext (varAsValueDecl VD)
                  (withoutStorage (getInterfaceType VD))).
  { destruct (getInterfaceType VD); reflexivity. }
  rewrite T. clear T.
  set (decl := varAsValueDecl VD) in *.
  set (Result := isRepresentableIn decl _).
  destruct (checkObjCInForeignClassContext_closed decl Reason Hw)
    as (fs & Ef & Fs & Fn).
  destruct (checkObjCInExtensionContext_closed decl
              (shouldDiagnoseObjCReason Reason ctx)) as (es & Ee & Es & En).
  destruct Result eqn:ER.
  - rewrite (call_Done Ee), sbind_SDone.
    destruct (notInGenericExtension decl) eqn:Ne; cbn [negb andb].
    + rewrite (En eq_refl). cbn [map app].
      rewrite (call_Done Ef), sbind_SDone.
      destruct (notInForeignClass decl) eqn:Nf; cbn [negb].
      * rewrite orb_true_r. rewrite (Fn eq_refl). cbn.
        exists []. split; [reflexivity |]. split; [reflexivity |].
        intros k. split; [intros [] | intros (_ & H & _); discriminate].
      * exists (map earlier fs).
        split; [cbn; rewrite ?app_nil_r; reflexivity |].
        split; [intros Hd; rewrite (Fs Hd); reflexivity |].
        intros k. split; [| intros (_ & H & _); discriminate].
        intros Hin. apply in_map_iff in Hin.
        destruct Hin as (x & Hx & _). discriminate.
    + cbn. exists (map earlier es).
      split; [cbn; rewrite ?app_nil_r; reflexivity |].
      split; [intros Hd; rewrite (Es Hd); reflexivity |].
      intros k. split; [| intros (_ & H & _); discriminate].
      intros Hin. apply in_map_iff in Hin.
      destruct Hin as (x & Hx & _). discriminate.
  - rewrite sbind_sret. cbn [andb].
    rewrite (call_Done Ef), sbind_SDone.
    destruct (notInForeignClass decl) eqn:Nf; cbn [negb].
    + rewrite (Fn eq_refl). cbn [map app]. rewrite orb_false_r.
      destruct (shouldDiagnoseObjCReason Reason ctx) eqn:Hd; cbn [negb].
      * assert (N : exists ns,
                   diagnoseVarTypeNotRepresentableInObjC (getInterfaceType VD)
                   = Done tt ns).
        { unfold diagnoseVarTypeNotRepresentableInObjC.
          destruct (getInterfaceType VD) as [t | t];
            [exists []; reflexivity |].
          destruct (diagnoseTypeNotRepresentableInObjC_cases t)
            as (ns & E & _). exists ns. exact E. }
        destruct (storage_diagnosis_returns decl Reason objc_invalid_on_var
                    false Hw Hd N) as (ds & E & He).
        rewrite E. eexists. split; [reflexivity |].
        split; [discriminate |].
        intros k. split.
        -- intros [Hk | Hin].
           ++ inversion Hk. auto.
           ++ apply He in Hin. discriminate.
        -- intros (_ & _ & _ & _ & ->). left. reflexivity.
      * exists []. split; [reflexivity |]. split; [reflexivity |].
        intros k. split; [intros [] | intros (_ & _ & _ & H & _); discriminate].
    + exists (map earlier fs). rewrite ?andb_false_r.
      split; [cbn; rewrite ?app_nil_r; reflexivity |].
      split; [intros Hd; rewrite (Fs Hd); reflexivity |].
      intros k. split; [| intros (_ & _ & H & _); discriminate].
      intros Hin. apply in_map_iff in Hin.
      destruct Hin as (x & Hx & _). discriminate.
Qed.


Lemma getObjCDiagnosticAttrKind_cases (r : ObjCReason) :
  if isPermanentlySilent (reasonKind r)
  then exists m, getObjCDiagnosticAttrKind r = Abort m
  else getObjCDiagnosticAttrKind r = Done (reasonCode (reasonKind r)) [].
Proof.
  unfold getObjCDiagnosticAttrKind.
  destruct (reasonKind r); cbn; try reflexivity; eexists; reflexivity.
Qed.

Lemma subscript_check (SD : SubscriptDecl) (Reason : ObjCReason) :
  reasonWellFormed (subscriptAsValueDecl SD) Reason = true ->
  saborts (isRepresentableInObjC_Subscript SD Reason)
  = isPermanentlySilent (reasonKind Reason) &&
    (reachesSubscriptKind SD && hasNoSubscriptKind SD) /\
  (forall v,
      svalue (isRepresentableInObjC_Subscript SD Reason) = Some v ->
      v = reachesSubscriptKind SD && negb (hasNoSubscriptKind SD)) /\
  (forall k t,
      In (objc_invalid_subscript_key_type k t)
         (semitted (isRepresentableInObjC_Subscript SD Reason)) <->
      (isPermanentlySilent (reasonKind Reason) = false /\
       reachesSubscriptKind SD = true /\ hasNoSubscriptKind SD = true /\
       k = reasonCode (reasonKind Reason) /\ t = getIndicesType SD)).
Proof.
  intros Hw.
  unfold isRepresentableInObjC_Subscript, reachesSubscriptKind,
    subscriptTypesAllowObjC, hasNoSubscriptKind.
  set (decl := subscriptAsValueDecl SD) in *.
  destruct (checkObjCInForeignClassContext_closed decl Reason Hw)
    as (fs & Ef & Fs & Fn).
  destruct (checkObjCInExtensionContext_closed decl
              (shouldDiagnoseObjCReason Reason ctx)) as (es & Ee & Es & En).
  assert (NoKey : forall (l : list Diag) k t,
             ~ In (objc_invalid_subscript_key_type k t) (map earlier l)).
  { intros l k t Hin. apply in_map_iff in Hin.
    destruct Hin as (x & Hx & _). discriminate. }
  rewrite (@call_Done _ _ _ _ Ef), sbind_SDone.
  destruct (notInForeignClass decl) eqn:Nf; cbn [negb andb].
  2:{ rewrite !andb_false_r. cbn. rewrite app_nil_r.
      split; [reflexivity |]. split; [intros v H; inversion H; reflexivity |].
      intros k t. split; [intros H; apply NoKey in H; destruct H |].
      intros (_ & H & _); discriminate. }
  rewrite (Fn eq_refl). cbn [map app].
  destruct (hasError (getIndicesType SD)); cbn [negb andb].
  { rewrite !andb_false_r. cbn.
    split; [reflexivity |]. split; [intros v H; inversion H; reflexivity |].
    intros k t. split; [intros [] | intros (_ & H & _); discriminate]. }
  destruct (isRepresentableIn decl (getIndicesType SD) &&
            isRepresentableIn decl (getElementInterfaceType SD)) eqn:ER;
    cbn [andb].
  - rewrite (@call_Done _ _ _ _ Ee), sbind_SDone.
    destruct (notInGenericExtension decl) eqn:Ne; cbn [negb andb].
    + rewrite (En eq_refl). cbn [map app].
      destruct (getObjCSubscriptKind SD) eqn:Ek.
      * (* no kind *)
        pose proof (getObjCDiagnosticAttrKind_cases Reason) as G.
        destruct (isPermanentlySilent (reasonKind Reason)); cbn [andb].
        -- destruct G as (m & ->). cbn.
           split; [reflexivity |]. split; [discriminate |].
           intros k t. split; [intros [] | intros (H & _); discriminate].
        -- rewrite G. cbn.
           split; [reflexivity |].
           split; [intros v H; inversion H; reflexivity |].
           intros k t. split.
           ++ intros [H | []]. inversion H. auto.
           ++ intros (_ & _ & _ & -> & ->). left. reflexivity.
      * rewrite orb_true_r, andb_false_r. cbn.
        split; [reflexivity |].
        split; [intros v H; inversion H; reflexivity |].
        intros k t. split; [intros [] | intros (_ & _ & H & _); discriminate].
      * rewrite orb_true_r, andb_false_r. cbn.
        split; [reflexivity |].
        split; [intros v H; inversion H; reflexivity |].
        intros k t. split; [intros [] | intros (_ & _ & H & _); discriminate].
    + rewrite !andb_false_r. cbn. rewrite app_nil_r.
      split; [reflexivity |].
      split; [intros v H; inversion H; reflexivity |].
      intros k t. split; [intros H; apply NoKey in H; destruct H |].
      intros (_ & H & _); discriminate.
  - rewrite sbind_sret. cbn [andb]. rewrite orb_false_r, !andb_false_r.
    destruct (shouldDiagnoseObjCReason Reason ctx) eqn:Hd; cbn [negb].
    + assert (N : exists ns,
                 diagnoseTypeNotRepresentableInObjC
                   (if negb (isRepresentableIn decl (getIndicesType SD))
                    then getIndicesType SD else getElementInterfaceType SD)
                 = Done tt ns).
      { match goal with
        | |- context [diagnoseTypeNotRepresentableInObjC ?t] =>
            destruct (diagnoseTypeNotRepresentableInObjC_cases t)
              as (ns & E & _)
        end. exists ns. exact E. }
      destruct (@storage_diagnosis_returns decl Reason
                  objc_invalid_on_subscript _ false Hw Hd N)
        as (ds & E & He).
      rewrite E. cbn.
      split; [reflexivity |].
      split; [intros v H; inversion H; reflexivity |].
      intros k t. split.
      * intros [H | H]; [discriminate | apply He in H; discriminate].
      * intros (_ & H & _); discriminate.
    + cbn. split; [reflexivity |].
      split; [intros v H; inversion H; reflexivity |].
      intros k t. split; [intros [] | intros (_ & H & _); discriminate].
Qed.

Lemma subscript_check_silent (SD : SubscriptDecl) (Reason : ObjCReason) :
  shouldDiagnoseObjCReason Reason ctx = false ->
  forall d,
    In d (semitted (isRepresentableInObjC_Subscript SD Reason)) ->
    d = objc_invalid_subscript_key_type (reasonCode (reasonKind Reason))
          (getIndicesType SD).
Proof.
  intros Hd d. unfold isRepresentableInObjC_Subscript. rewrite Hd.
  set (decl := subscriptAsValueDecl SD).
  destruct (checkObjCInForeignClassContext_silent decl Reason Hd) as (f & ->).
  destruct (checkObjCInExtensionContext_silent decl) as (e & Ee).
  cbn [call map]. fold (sret f). rewrite sbind_sret.
  destruct f; [intros [] |].
  destruct (hasError (getIndicesType SD)); [intros [] |].
  destruct (isRepresentableIn decl (getIndicesType SD) &&
            isRepresentableIn decl (getElementInterfaceType SD)).
  - rewrite Ee. cbn [call map]. fold (sret e). rewrite sbind_sret.
    destruct e; [intros [] |]. cbn [andb negb orb].
    destruct (getObjCSubscriptKind SD); try (intros []).
    pose proof (getObjCDiagnosticAttrKind_cases Reason) as G.
    destruct (isPermanentlySilent (reasonKind Reason)).
    + destruct G as (m & ->). intros [].
    + rewrite G. cbn. intros [<- | []]. reflexivity.
  - rewrite sbind_sret. cbn. intros [].
Qed.

Lemma canBeRepresentedInObjC_cases (decl : CheckedDecl) :
  (EnableObjCInterop (LangOpts ctx) = false ->
   canBeRepresentedInObjC decl = SDone false []) /\
  (EnableObjCInterop (LangOpts ctx) = true ->
   match decl with
   | FunctionToCheck func =>
       exists b ec ds,
         isRepresentableInObjC func
           (reasonOf ObjCReason.MemberOfObjCMembersClass) = Done (b, ec) ds /\
         canBeRepresentedInObjC decl = SDone b (map earlier ds) /\
         List.length ds <= 1 /\
         (forall d, In d ds -> isUngatedDiagnostic d = true)
   | VariableToCheck var =>
       canBeRepresentedInObjC decl
       = SDone (negb (varIsInvalid var) && variableTypeAllowsObjC var &&
                notInGenericExtension (varAsValueDecl var) &&
                notInForeignClass (varAsValueDecl var)) []
   | SubscriptToCheck subscript =>
       saborts (canBeRepresentedInObjC decl)
       = reachesSubscriptKind subscript && hasNoSubscriptKind subscript /\
       (saborts (canBeRepresentedInObjC decl) = false ->
        canBeRepresentedInObjC decl
        = SDone (reachesSubscriptKind subscript) [])
   | OtherDeclToCheck => canBeRepresentedInObjC decl = SDone false []
   end).
Proof.
  unfold canBeRepresentedInObjC. split; [intros ->; reflexivity |].
  intros ->. cbn [negb].
  set (Reason := reasonOf ObjCReason.MemberOfObjCMembersClass).
  assert (Hd : shouldDiagnoseObjCReason Reason ctx = false) by reflexivity.
  destruct decl as [func | var | subscript |]; [| | | reflexivity].
  - destruct (isRepresentableInObjC_silent func Reason Hd)
      as ([b ec] & ds & E & Hl & Hu).
    exists b, ec, ds. split; [exact E |].
    rewrite E. cbn. rewrite app_nil_r. auto.
  - destruct (@variable_check var Reason eq_refl) as (ds & E & Hs & _).
    rewrite E, (Hs Hd). reflexivity.
  - destruct (@subscript_check subscript Reason eq_refl) as (Ha & Hv & _).
    pose proof (@subscript_check_silent subscript Reason Hd) as Hs.
    split; [exact Ha |].
    destruct (isRepresentableInObjC_Subscript subscript Reason)
      as [m | v ds] eqn:E; [discriminate |].
    intros _. cbn in Ha. change (isPermanentlySilent (reasonKind Reason))
      with true in Ha. cbn [andb] in Ha.
    assert (Ev : v = reachesSubscriptKind subscript).
    { rewrite (Hv v eq_refl).
      destruct (reachesSubscriptKind subscript),
        (hasNoSubscriptKind subscript); cbn in *; congruence. }
    rewrite Ev. f_equal. cbn in Hs.
    destruct ds as [| d ds']; [reflexivity |].
    exfalso. specialize (Hs d (or_introl eq_refl)). subst d.
    destruct (@subscript_check subscript Reason eq_refl) as (_ & _ & Hk).
    specialize (Hk (reasonCode (reasonKind Reason)) (getIndicesType subscript)).
    rewrite E in Hk. cbn [semitted] in Hk.
    destruct Hk as [Hk _]. destruct (Hk (or_introl eq_refl)) as (Hp & _).
    discriminate.
Qed.

(** X25: the check of a variable, under a well-formed reason, never
    aborts.  It returns true exactly when the variable is valid, its
    type, seen through [weak] and [unowned], is representable, and it
    is neither in a constrained or generic extension nor in a foreign
    class.  Under a reason that is not diagnosed it emits nothing; it
    emits [objc_invalid_on_var] exactly when the variable is valid, its
    type is not representable, its class is not foreign and the reason
    is diagnosed. *)
Theorem verdict_of_variable :
  forall (VD : VarDecl) (Reason : ObjCReason),
    reasonWellFormed (varAsValueDecl VD) Reason = true ->
    exists ds,
      isRepresentableInObjC_Var VD Reason
      = SDone (negb (varIsInvalid VD) && variableTypeAllowsObjC VD &&
               notInGenericExtension (varAsValueDecl VD) &&
               notInForeignClass (varAsValueDecl VD)) ds /\
      (shouldDiagnoseObjCReason Reason ctx = false -> ds = []) /\
      (forall k, In (objc_invalid_on_var k) ds <->
         (varIsInvalid VD = false /\ variableTypeAllowsObjC VD = false /\
          notInForeignClass (varAsValueDecl VD) = true /\
          shouldDiagnoseObjCReason Reason ctx = true /\
          k = reasonCode (reasonKind Reason))).
Proof. exact variable_check. Qed.

(** X26: the diagnostic on the key type of a subscript is not guarded
    by [Diagnose].  Under a well-formed reason the check
    of a subscript aborts exactly when the reason is one of the three
    that cannot be classified and the subscript, with representable
    types, gets as far as the test of its kind and has no Objective-C
    subscript kind.  When the check returns, it returns true exactly
    when the subscript gets that far and has a kind; the diagnostic on
    the key type is emitted exactly when the subscript gets that far
    without a kind and the reason can be classified. *)
Theorem subscript_check_aborts_on_unclassified_reason :
  forall (SD : SubscriptDecl) (Reason : ObjCReason),
    reasonWellFormed (subscriptAsValueDecl SD) Reason = true ->
    saborts (isRepresentableInObjC_Subscript SD Reason)
    = isPermanentlySilent (reasonKind Reason) &&
      (reachesSubscriptKind SD && hasNoSubscriptKind SD) /\
    (forall v,
        svalue (isRepresentableInObjC_Subscript SD Reason) = Some v ->
        v = reachesSubscriptKind SD && negb (hasNoSubscriptKind SD)) /\
    (forall k t,
        In (objc_invalid_subscript_key_type k t)
           (semitted (isRepresentableInObjC_Subscript SD Reason)) <->
        (isPermanentlySilent (reasonKind Reason) = false /\
         reachesSubscriptKind SD = true /\ hasNoSubscriptKind SD = true /\
         k = reasonCode (reasonKind Reason) /\ t = getIndicesType SD)).
Proof. exact subscript_check. Qed.

(** X27: [canBeRepresentedInObjC].  Without Objective-C interop it
    returns false and emits nothing.  With interop, for a function it
    returns the verdict of the check under the reason
    [MemberOfObjCMembersClass] and emits at most one diagnostic, one of
    those that [Diagnose] does not guard; for a variable it returns the
    verdict and emits nothing; for a subscript it aborts exactly when
    the subscript, with representable types, gets as far as the test of
    its kind and has no kind, and otherwise returns whether the
    subscript gets that far and emits nothing; for any other
    declaration it returns false. *)
Theorem canBeRepresentedInObjC_verdicts :
  forall decl : CheckedDecl,
    (EnableObjCInterop (LangOpts ctx) = false ->
     canBeRepresentedInObjC decl = SDone false []) /\
    (EnableObjCInterop (LangOpts ctx) = true ->
     match decl with
     | FunctionToCheck func =>
         exists b ec ds,
           isRepresentableInObjC func
             (reasonOf ObjCReason.MemberOfObjCMembersClass)
           = Done (b, ec) ds /\
           canBeRepresentedInObjC decl = SDone b (map earlier ds) /\
           List.length ds <= 1 /\
           (forall d, In d ds -> isUngatedDiagnostic d = true)
     | VariableToCheck var =>
         canBeRepresentedInObjC decl
         = SDone (negb (varIsInvalid var) && variableTypeAllowsObjC var &&
                  notInGenericExtension (varAsValueDecl var) &&
                  notInForeignClass (varAsValueDecl var)) []
     | SubscriptToCheck subscript =>
         saborts (canBeRepresentedInObjC decl)
         = reachesSubscriptKind subscript && hasNoSubscriptKind subscript /\
         (saborts (canBeRepresentedInObjC decl) = false ->
          canBeRepresentedInObjC decl
          = SDone (reachesSubscriptKind subscript) [])
     | OtherDeclToCheck => canBeRepresentedInObjC decl = SDone false []
     end).
Proof. exact canBeRepresentedInObjC_cases. Qed.

End StorageProperties.

(** *** The caches of the Objective-C types *)

(** X28: the three caches of Objective-C types.  A getter writes only
    its own cache, and only with the type it returns; once a getter has
    returned a type, it returns that type and leaves the caches as they
    are whatever modules are loaded later; a lookup that fails leaves
    the caches as they were, so that it is tried again. *)
Theorem objc_type_caches_are_stable :
  forall (tc : ObjCTypes.TypeCaches)
         (get : ObjCTypes.TypeCaches -> ObjCTypes.LoadedModules ->
                option Ty * ObjCTypes.TypeCaches)
         (loaded : ObjCTypes.LoadedModules),
    get = ObjCTypes.getNSObjectType \/ get = ObjCTypes.getNSErrorType \/
    get = ObjCTypes.getObjCSelectorType ->
    let r := get tc loaded in
    (fst r = None -> snd r = tc) /\
    (fst r <> None ->
     forall loaded', get (snd r) loaded' = r) /\
    (ObjCTypes.NSObjectType (snd r) = ObjCTypes.NSObjectType tc \/
     get = ObjCTypes.getNSObjectType /\
     ObjCTypes.NSObjectType (snd r) = fst r) /\
    (ObjCTypes.NSErrorType (snd r) = ObjCTypes.NSErrorType tc \/
     get = ObjCTypes.getNSErrorType /\
     ObjCTypes.NSErrorType (snd r) = fst r) /\
    (ObjCTypes.ObjCSelectorType (snd r) = ObjCTypes.ObjCSelectorType tc \/
     get = ObjCTypes.getObjCSelectorType /\
     ObjCTypes.ObjCSelectorType (snd r) = fst r).
Proof.
  intros tc get loaded Hg.
  destruct tc as [o e s].
  destruct Hg as [-> | [-> | ->]];
    unfold ObjCTypes.getNSObjectType, ObjCTypes.getNSErrorType,
      ObjCTypes.getObjCSelectorType, ObjCTypes.getObjectiveCNominalType;
    cbn [ObjCTypes.NSObjectType ObjCTypes.NSErrorType
         ObjCTypes.ObjCSelectorType];
    match goal with
    | |- context [match ?c with Some _ => _ | None => _ end] =>
        destruct c as [t |]
    end;
    try match goal with
      | |- context [loaded ?M] => destruct (loaded M) as [module |]
      end;
    try match goal with
      | |- context [ObjCTypes.firstNominalType ?l] =>
          destruct (ObjCTypes.firstNominalType l)
      end;
    cbn; repeat split; intros; try congruence; try reflexivity;
    first [left; reflexivity | right; split; reflexivity].
Qed.

(** *** Rejections under a diagnosed reason *)

Lemma diagnosed_nonempty {A B} (d : Diag) (c : Outcome A) (b b' : B)
    (ds : list Diag) :
  (diagnose d ;;; c) ;;; ret b = Done b' ds -> ds <> [].
Proof.
  simpl. destruct c; intros H; inversion H; discriminate.
Qed.

Lemma guarded_nonempty {B} (r : ObjCReason)
    (mk : nat -> Diag) (c : Outcome unit) (b b' : B) (ds : list Diag) :
  shouldDiagnoseObjCReason r ctx = true ->
  when true (k <- getObjCDiagnosticAttrKind r ;;
             diagnose (mk k) ;;; c) ;;; ret b = Done b' ds ->
  ds <> [].
Proof.
  intros Hd. rewrite (getObjCDiagnosticAttrKind_Done r Hd), bind_Done_nil.
  cbn [when]. apply diagnosed_nonempty.
Qed.

Lemma app_nonempty_l {A} (l1 l2 : list A) : l1 <> [] -> l1 ++ l2 <> [].
Proof. destruct l1; [congruence | discriminate]. Qed.

Lemma app_nonempty_r {A} (l1 l2 : list A) : l2 <> [] -> l1 ++ l2 <> [].
Proof. destruct l1; [auto | discriminate]. Qed.

Section Explained.

Variables (AFD : ValueDecl) (Reason : ObjCReason).
Hypothesis Hd : shouldDiagnoseObjCReason Reason ctx = true.

Lemma checkObjCInForeignClassContext_explained (ds : list Diag) :
  checkObjCInForeignClassContext AFD Reason = Done true ds -> ds <> [].
Proof.
  unfold checkObjCInForeignClassContext. rewrite Hd.
  destruct (getAsClassOrClassExtensionContext (getDeclContext AFD)) as [c |];
    [| discriminate].
  destruct (getForeignClassKind c); [discriminate | |];
    apply guarded_nonempty; exact Hd.
Qed.

Lemma checkObjCWithGenericParams_explained (ds : list Diag) :
  checkObjCWithGenericParams AFD Reason = Done true ds -> ds <> [].
Proof.
  unfold checkObjCWithGenericParams. rewrite Hd.
  destruct (getGenericParams AFD); [| discriminate].
  apply guarded_nonempty; exact Hd.
Qed.

Lemma checkObjCInExtensionContext_explained (ds : list Diag) :
  checkObjCInExtensionContext AFD true = Done true ds -> ds <> [].
Proof.
  clear Hd. unfold checkObjCInExtensionContext.
  destruct (getDeclContext AFD) as [c | ED ext | p |]; try discriminate.
  destruct (getTrailingWhereClause ED);
    [intros H; inversion H; discriminate |].
  destruct (getGenericAncestor ED) as [[|] |]; try discriminate.
  intros H; inversion H; discriminate.
Qed.

Lemma accessorRepresentable_explained (kind : AccessorKind)
    (storage : StorageDecl) (ds : list Diag) :
  accessorRepresentable AFD kind storage Reason true = Done false ds ->
  ds <> [] \/ kind = AK_MaterializeForSet.
Proof.
  clear Hd. unfold accessorRepresentable.
  match goal with |- context [if ?c then _ else _] => destruct c end.
  - intros H. left. cbn [when] in H. revert H. apply diagnosed_nonempty.
  - destruct kind; try discriminate; auto;
      intros H; left; cbn [when] in H; revert H; apply diagnosed_nonempty.
Qed.

Lemma resultNotRepresentable_explained (ds : list Diag) :
  resultNotRepresentable AFD Reason true = Done true ds -> ds <> [].
Proof.
  unfold resultNotRepresentable.
  destruct (getDeclKind AFD); try discriminate;
    (match goal with |- context [if ?c then _ else _] => destruct c end;
     [| discriminate]);
    apply guarded_nonempty; exact Hd.
Qed.

Lemma selectErrorConventionKind_explained (ds : list Diag) :
  selectErrorConventionKind AFD Reason true = Done None ds -> ds <> [].
Proof.
  assert (F : forall t ds',
             selectFunctionErrorConventionKind AFD Reason true t
             = Done None ds' -> ds' <> []).
  { intros t ds'. unfold selectFunctionErrorConventionKind.
    destruct (isVoid t).
    - destruct (getObjCBoolDecl ctx); [discriminate |].
      destruct (getBoolDecl ctx); [discriminate |].
      intros H; inversion H; discriminate.
    - match goal with |- context [if ?c then _ else _] => destruct c end;
        [discriminate |].
      match goal with |- context [if ?c then _ else _] => destruct c end;
        apply guarded_nonempty; exact Hd. }
  unfold selectErrorConventionKind.
  destruct (getDeclKind AFD) as [rt t | k s rt | f t | | |];
    try discriminate; try apply F.
  destruct f; [discriminate | |]; apply guarded_nonempty; exact Hd.
Qed.

Lemma throwingConvention_explained (c : option FEC.t) (ds : list Diag) :
  throwingConvention AFD Reason true = Done (false, c) ds -> ds <> [].
Proof.
  unfold throwingConvention. intros H.
  apply bind_Done in H. destruct H as (sel & d1 & d2 & Hs & Hk & ->).
  destruct sel as [[kind rty] |]; [inversion Hk |].
  apply app_nonempty_l. eapply selectErrorConventionKind_explained; eauto.
Qed.

End Explained.

(** X29: under a reason that is diagnosed no function is rejected in
    silence, but for an accessor [materializeForSet]: when the check
    returns false it has emitted a diagnostic. *)
Theorem diagnosed_rejection_is_explained :
  forall (AFD : ValueDecl) (Reason : ObjCReason) (c : option FEC.t)
         (ds : list Diag),
    shouldDiagnoseObjCReason Reason ctx = true ->
    isRepresentableInObjC AFD Reason = Done (false, c) ds ->
    ds <> [] \/
    exists storage resultType,
      getDeclKind AFD = KAccessor AK_MaterializeForSet storage resultType.
Proof.
  intros AFD Reason c ds Hd.
  unfold isRepresentableInObjC. rewrite Hd. intros H.
  apply bind_Done in H. destruct H as (f & d1 & d2 & H1 & H & ->).
  destruct f.
  { left. apply app_nonempty_l.
    eapply checkObjCInForeignClassContext_explained; eassumption. }
  apply bind_Done in H. destruct H as (g & d3 & d4 & H2 & H & ->).
  destruct g.
  { left. apply app_nonempty_r, app_nonempty_l.
    eapply checkObjCWithGenericParams_explained; eassumption. }
  apply bind_Done in H. destruct H as (e & d5 & d6 & H3 & H & ->).
  destruct e.
  { left. do 2 apply app_nonempty_r. apply app_nonempty_l.
    eapply checkObjCInExtensionContext_explained; eassumption. }
  destruct (isOperator AFD).
  { left. do 3 apply app_nonempty_r.
    destruct (isProtocolContext (getDeclContext AFD));
      inversion H; discriminate. }
  assert (R : forall d,
             (paramsFailed <- paramListFails AFD Reason ;;
              if paramsFailed && negb true then ret (false, None)
              else checkResultAndThrows AFD Reason true)
             = Done (false, c) d -> d <> []).
  { intros d K.
    apply bind_Done in K. destruct K as (pf & e1 & e2 & _ & K & ->).
    rewrite andb_false_r in K. apply app_nonempty_r.
    unfold checkResultAndThrows in K.
    apply bind_Done in K. destruct K as (br & e3 & e4 & Hr & K & ->).
    destruct br.
    - apply app_nonempty_l.
      eapply resultNotRepresentable_explained; eassumption.
    - apply app_nonempty_r. destruct (hasThrows AFD).
      + eapply throwingConvention_explained; eassumption.
      + inversion K. }
  destruct (getDeclKind AFD) as [rt t | k s rt | fl t | | |] eqn:Ek;
    try (left; do 3 apply app_nonempty_r; apply R; exact H).
  apply bind_Done in H. destruct H as (b & d7 & d8 & H4 & H & ->).
  inversion H; subst b.
  apply accessorRepresentable_explained in H4.
  destruct H4 as [H4 | ->].
  - left. do 3 apply app_nonempty_r. apply app_nonempty_l. exact H4.
  - right. eauto.
Qed.

End Properties.

(** * The properties on concrete declarations *)

(** C1: the verdict on a function with a parameter that is not
    representable depends on whether diagnostics are enabled.  For
    [func draw(at: Point)], whose parameter has a Swift structure type to
    which the exception for [()] does not apply, the check returns false
    when the reason is silent, and returns true, after diagnosing the
    parameter, when the reason is diagnosed: the failure of the
    parameter list is dropped. *)
Theorem unrepresentable_parameter_verdicts :
  isRepresentableIn (Q := swift4Queries) drawAt PointType = false /\
  isReplacedErrorParameter drawAt (param "at" PointType) 0 = false /\
  isParamListRepresentableInObjC (Q := swift4Queries) drawAt
    (getParameters drawAt) explicitly
  = Done false [objc_invalid_on_func_single_param_type 2;
                not_objc_swift_struct] /\
  isRepresentableInObjC (Q := swift4Queries) drawAt explicitly
  = Done (true, None) [objc_invalid_on_func_single_param_type 2;
                       not_objc_swift_struct] /\
  isRepresentableInObjC (Q := swift4Queries) drawAt silently
  = Done (false, None) [].
Proof. repeat split; reflexivity. Qed.

Lemma void_result_selects_ZeroResult_witness :
  getDeclKind saveThrowing = KFunc VoidType true /\
  isVoid VoidType = true /\
  sentinelBooleanType swift4 = Some (StructType "ObjCBool") /\
  throwingConvention (Q := swift4Queries) saveThrowing explicitly true
  = Done (true, Some saveConvention) [] /\
  value (isRepresentableInObjC (Q := swift4Queries) saveThrowing explicitly)
  = Some (true, Some saveConvention) /\
  FEC.getKind saveConvention = FEC.ZeroResult.
Proof.
  pose proof (@void_result_selects_ZeroResult swift4Queries
                saveThrowing explicitly VoidType eq_refl eq_refl) as [H1 H2].
  refine (conj eq_refl (conj eq_refl (conj eq_refl (conj _ (conj eq_refl _))))).
  - exact (H1 true (StructType "ObjCBool") eq_refl).
  - exact (proj1 (H2 true saveConvention eq_refl)).
Defined.

Lemma default_error_parameter_index_witness :
  hasThrows saveThrowing = true /\
  attrHasName (getObjCAttr saveThrowing) = false /\
  isObjCZeroParameterWithLongSelector saveThrowing = false /\
  trailingFunctionParameters (getParameters saveThrowing) = 2 /\
  (exists conv,
      throwingConvention (Q := swift4Queries) saveThrowing explicitly true
      = Done (true, Some conv) [] /\
      FEC.getErrorParameterIndex conv = 3 - 2) /\
  (exists conv,
      conventionLeftBy
        (isRepresentableInObjC (Q := swift4Queries) saveThrowing explicitly)
      = Some conv /\
      FEC.getErrorParameterIndex conv = 3 - 2).
Proof.
  pose proof (@default_error_parameter_index swift4Queries
                saveThrowing explicitly eq_refl eq_refl eq_refl)
    as (H1 & H2 & _).
  refine (conj eq_refl (conj eq_refl (conj eq_refl (conj eq_refl
           (conj _ _))))).
  - exact (H1 true FEC.ZeroResult (Some (StructType "ObjCBool")) []
              eq_refl).
  - exact (H2 (conventionLeftBy
                 (isRepresentableInObjC (Q := swift4Queries) saveThrowing
                    explicitly)) eq_refl).
Defined.

(** C3 as stated: an attribute whose name is implicit supplies no
    explicit name, but its pieces are searched like those of a written
    name.  For [save] with the implicit name
    [saveWithId:done:then:error:], as name inference records it, the
    count gives 3 - 2 = 1; the check puts the error parameter at the
    piece "error", index 3. *)
Lemma implicit_name_moves_the_error_parameter :
  hasExplicitName (getObjCAttr saveImplicitlyNamed) = false /\
  hasThrows saveImplicitlyNamed = true /\
  List.length (getParameters saveImplicitlyNamed)
  - trailingFunctionParameters (getParameters saveImplicitlyNamed) = 1 /\
  errorParameterIndexOf (Q := swift4Queries) saveImplicitlyNamed = 3 /\
  option_map FEC.getErrorParameterIndex
    (conventionLeftBy
       (isRepresentableInObjC (Q := swift4Queries) saveImplicitlyNamed
          explicitly))
  = Some 3.
Proof. repeat split; reflexivity. Qed.



Lemma variadic_or_inout_fails_param_list_witness :
  isVariadic (variadicParam "items" IntType)
  || isInOut (variadicParam "items" IntType) = true /\
  reasonWellFormed logVariadic explicitly = true /\
  exists ds,
    isParamListRepresentableInObjC (Q := swift4Queries) logVariadic
      ([param "level" IntType] ++
       variadicParam "items" IntType :: [param "at" PointType]) explicitly
    = Done false ds /\
    forall post',
      isParamListRepresentableInObjC (Q := swift4Queries) logVariadic
        ([param "level" IntType] ++
         variadicParam "items" IntType :: post') explicitly
      = Done false ds.
Proof.
  split; [reflexivity | split; [reflexivity |]].
  apply (proj1 (@variadic_or_inout_fails_param_list swift4Queries
                  logVariadic explicitly [param "level" IntType]
                  (variadicParam "items" IntType) [param "at" PointType]
                  eq_refl eq_refl)).
Defined.

Lemma shouldDiagnose_reason_and_flag_witness :
  isPermanentlySilent (reasonKind silently) = true /\
  shouldDiagnoseObjCReason silently swift4 = false.
Proof.
  split; [reflexivity |].
  apply (proj1 (proj2 (shouldDiagnose_reason_and_flag
                         silently silently swift4 swift4))).
  reflexivity.
Defined.

Lemma bridged_result_convention_witness :
  getDeclKind optionalTitleThrowing
  = KFunc (OptionalType StringType) true /\
  reasonWellFormed optionalTitleThrowing explicitly = true /\
  getOptionalObjectType (OptionalType StringType) = Some StringType /\
  isBridgedToObjectiveCClass (Q := swift4Queries) optionalTitleThrowing
    StringType = true /\
  value (isRepresentableInObjC (Q := swift4Queries) optionalTitleThrowing
           explicitly) = Some (false, None).
Proof.
  repeat (split; [reflexivity |]).
  apply (proj2 (@bridged_result_convention swift4Queries
                  optionalTitleThrowing explicitly (OptionalType StringType)
                  eq_refl eq_refl)
               StringType eq_refl eq_refl).
Defined.

(** C7 as stated: for [func title() throws -> String?], whose result is
    an optional of the bridged type [String], the check under a reason
    that is not diagnosed returns false without any diagnostic; under a
    diagnosed reason it emits the diagnostic for throwing optional
    results. *)
Lemma optional_bridged_result_fails_silently :
  getOptionalObjectType (OptionalType StringType) = Some StringType /\
  isBridgedToObjectiveCClass (Q := swift4Queries) optionalTitleThrowing
    StringType = true /\
  isRepresentableInObjC (Q := swift4Queries) optionalTitleThrowing silently
  = Done (false, None) [] /\
  isRepresentableInObjC (Q := swift4Queries) optionalTitleThrowing explicitly
  = Done (false, None)
         [objc_invalid_on_throwing_optional_result 2
            (OptionalType StringType)].
Proof. repeat split; reflexivity. Qed.

Lemma aborts_of_representability_check_witness :
  getDeclKind flushThrowing = KFunc VoidType true /\
  isVoid VoidType = true /\
  sentinelBooleanType (ctx (SemaQueries := noBooleanQueries)) = None /\
  reasonWellFormed flushThrowing explicitly = true /\
  value (isRepresentableInObjC (Q := noBooleanQueries) flushThrowing
           explicitly) = Some (false, None).
Proof.
  repeat (split; [reflexivity |]).
  apply (proj1 (proj2 (@aborts_of_representability_check
                         noBooleanQueries))
           flushThrowing explicitly VoidType eq_refl eq_refl eq_refl).
  reflexivity.
Defined.

(** C8 as stated: with no boolean structure in the standard library the
    check of a throwing function with a [Void] result does not abort; it
    reports [broken_bool] and returns false, so the declaration is left
    un-exposed. *)
Lemma missing_boolean_does_not_abort :
  sentinelBooleanType noBooleans = None /\
  aborts (isRepresentableInObjC (Q := noBooleanQueries) flushThrowing
            explicitly) = false /\
  isRepresentableInObjC (Q := noBooleanQueries) flushThrowing explicitly
  = Done (false, None) [broken_bool] /\
  isRepresentableInObjC (Q := noBooleanQueries) flushThrowing silently
  = Done (false, None) [broken_bool].
Proof. repeat split; reflexivity. Qed.

Lemma override_name_adopted_witness :
  isaDestructorDecl (setIsObjC overridingFlush true) = false /\
  isObjC (setIsObjC overridingFlush true) = true /\
  getOverriddenDecl (setIsObjC overridingFlush true) = Some importedFlush /\
  isObjC importedFlush = true /\
  isaAbstractFunctionDecl importedFlush || isaVarDecl importedFlush = true /\
  hasExplicitName (getObjCAttr (setIsObjC overridingFlush true)) = false /\
  exists B',
    inferObjCName (Q := swift4Queries) (setIsObjC overridingFlush true)
    = Done B' [] /\
    objcNameOf B' = Some (overriddenObjCName (Q := swift4Queries)
                            importedFlush).
Proof.
  repeat (split; [reflexivity |]).
  apply (@override_name_adopted swift4Queries
           (setIsObjC overridingFlush true) importedFlush
           eq_refl eq_refl eq_refl eq_refl eq_refl eq_refl).
Defined.

Lemma conventions_formed_and_attached_witness :
  (value (isRepresentableInObjC (Q := swift4Queries) saveThrowing explicitly)
   = Some (true, Some saveConvention) /\
   isZeroOrNilResult (FEC.getKind saveConvention) = true) /\
  (getForeignErrorConvention overridingFlush = None /\
   (isZeroOrNilResult (FEC.getKind importedConvention) = true \/
    exists base,
      getOverriddenDecl overridingFlush = Some base /\
      getForeignErrorConvention base = Some importedConvention)).
Proof.
  pose proof (@conventions_formed_and_attached swift4Queries)
    as (H1 & _ & H3).
  refine (conj (conj eq_refl _) (conj eq_refl _)).
  - exact (H1 saveThrowing explicitly true saveConvention eq_refl).
  - eapply (H3 emptyState _ overridingFlush _ overriding); reflexivity.
Defined.

(** C10 as stated: the finalizer attaches a convention of the
    non-zero-result kind.  The check of the override [flush] leaves a
    zero-result convention, and [markAsObjC] replaces it with the
    convention of the overridden, imported method. *)
Lemma finalizer_attaches_NonZeroResult :
  option_map FEC.getKind
    (conventionLeftBy
       (isRepresentableInObjC (Q := swift4Queries) overridingFlush
          overriding))
  = Some FEC.ZeroResult /\
  attachedKind
    (markAsObjC (Q := swift4Queries) emptyState overridingFlush
       (Some overriding)
       (conventionLeftBy
          (isRepresentableInObjC (Q := swift4Queries) overridingFlush
             overriding)))
  = Some FEC.NonZeroResult.
Proof. split; reflexivity. Qed.

(** ** The further properties on concrete declarations *)

Lemma param_list_representable_iff_all_pass_witness :
  reasonWellFormed moveTo explicitly = true /\
  allParametersPass (Q := swift4Queries) moveTo 0 (getParameters moveTo)
  = false /\
  exists ds,
    isParamListRepresentableInObjC (Q := swift4Queries) moveTo
      (getParameters moveTo) explicitly
    = Done (allParametersPass (Q := swift4Queries) moveTo 0
              (getParameters moveTo)) ds.
Proof.
  refine (conj eq_refl (conj eq_refl _)).
  exact (@param_list_representable_iff_all_pass swift4Queries moveTo
           (getParameters moveTo) explicitly eq_refl).
Defined.

Lemma type_diagnosis_emits_at_most_one_note_witness :
  exists ds,
    diagnoseTypeNotRepresentableInObjC BoxOfInt = Done tt ds /\
    ds = [not_objc_swift_class].
Proof.
  destruct (type_diagnosis_emits_at_most_one_note BoxOfInt)
    as (ds & E & _ & _ & H).
  exists ds. split; [exact E | exact H].
Defined.

Lemma parameter_diagnostics_are_one_based_witness :
  In (objc_invalid_on_func_param_type 2 2)
     (emitted (isParamListRepresentableInObjC (Q := swift4Queries) moveTo
                 (getParameters moveTo) explicitly)) /\
  List.length (getParameters moveTo) <> 1 /\
  1 <= 2 /\ 2 <= List.length (getParameters moveTo) /\
  exists p, nth_error (getParameters moveTo) (2 - 1) = Some p /\
            parameterFails (Q := swift4Queries) moveTo (2 - 1) p = true.
Proof.
  refine (conj (or_introl eq_refl) _).
  exact (@parameter_diagnostics_are_one_based swift4Queries moveTo
           (getParameters moveTo) explicitly
           (objc_invalid_on_func_param_type 2 2) (or_introl eq_refl)).
Defined.

Lemma verdict_of_non_throwing_function_witness :
  reasonWellFormed drawAt silently = true /\
  hasThrows drawAt = false /\
  parametersAllowObjC (Q := swift4Queries) drawAt = false /\
  value (isRepresentableInObjC (Q := swift4Queries) drawAt silently)
  = Some (contextAllowsObjC drawAt &&
          (parametersAllowObjC (Q := swift4Queries) drawAt ||
           shouldDiagnoseObjCReason silently swift4) &&
          resultAllowsObjC (Q := swift4Queries) drawAt,
          None).
Proof.
  refine (conj eq_refl (conj eq_refl (conj eq_refl _))).
  apply (@verdict_of_non_throwing_function swift4Queries drawAt silently
           eq_refl eq_refl).
  intros k s t. discriminate.
Defined.

Lemma verdict_of_accessor_witness :
  reasonWellFormed titleGetter explicitly = true /\
  getDeclKind titleGetter
  = KAccessor AK_Get (mkStorage true true) StringType /\
  value (isRepresentableInObjC (Q := swift4Queries) titleGetter explicitly)
  = Some (contextAllowsObjC titleGetter &&
          accessorAllowsObjC AK_Get (mkStorage true true) explicitly,
          None).
Proof.
  refine (conj eq_refl (conj eq_refl _)).
  exact (@verdict_of_accessor swift4Queries titleGetter explicitly AK_Get
           (mkStorage true true) StringType eq_refl eq_refl).
Defined.

Lemma necessary_conditions_of_representability_witness :
  value (isRepresentableInObjC (Q := swift4Queries) saveThrowing explicitly)
  = Some (true, Some saveConvention) /\
  contextAllowsObjC saveThrowing = true /\
  resultAllowsObjC (Q := swift4Queries) saveThrowing = true /\
  (Some saveConvention = None <-> hasThrows saveThrowing = false).
Proof.
  refine (conj eq_refl _).
  exact (@necessary_conditions_of_representability swift4Queries
           saveThrowing explicitly (Some saveConvention) eq_refl).
Defined.

Lemma silent_reason_emits_only_ungated_diagnostics_witness :
  shouldDiagnoseObjCReason silently swift4 = false /\
  exists r ds,
    isRepresentableInObjC (Q := swift4Queries) optionalTitleThrowing silently
    = Done r ds /\
    List.length ds <= 1 /\
    forall d, In d ds -> isUngatedDiagnostic d = true.
Proof.
  refine (conj eq_refl _).
  exact (@silent_reason_emits_only_ungated_diagnostics swift4Queries
           optionalTitleThrowing silently eq_refl).
Defined.

Lemma override_name_always_adopted_witness :
  isaDestructorDecl renamedFlush = false /\
  isObjC renamedFlush = true /\
  adoptedOverride renamedFlush = Some importedFlush /\
  objcNameOf renamedFlush = Some (mkSelector 1 ["flushAll"]) /\
  exists B',
    inferObjCName (Q := swift4Queries) renamedFlush
    = Done B' [objc_override_method_selector_mismatch
                 (mkSelector 1 ["flushAll"]) (mkSelector 0 ["flush"]);
               overridden_here] /\
    objcNameOf B' = Some (mkSelector 0 ["flush"]).
Proof.
  refine (conj eq_refl (conj eq_refl (conj eq_refl (conj eq_refl _)))).
  exact (@override_name_always_adopted swift4Queries renamedFlush
           importedFlush eq_refl eq_refl eq_refl).
Defined.

Lemma witness_name_is_first_requirement_witness :
  isaDestructorDecl compareWitness = false /\
  isObjC compareWitness = true /\
  adoptedOverride compareWitness = None /\
  attrHasName (getObjCAttr compareWitness) = false /\
  findWitnessedObjCRequirements compareWitness
  = [compareRequirement; isEqualRequirement] /\
  exists ds,
    inferObjCName (Q := swift4Queries) compareWitness
    = Done (setObjCName compareWitness (mkSelector 1 ["compare"])) ds /\
    List.length ds = 4.
Proof.
  refine (conj eq_refl (conj eq_refl (conj eq_refl (conj eq_refl
           (conj eq_refl _))))).
  exact (@witness_name_is_first_requirement swift4Queries compareWitness
           compareRequirement [isEqualRequirement]
           eq_refl eq_refl eq_refl eq_refl eq_refl).
Defined.

Lemma name_inference_is_stable_witness :
  value (inferObjCName (Q := swift4Queries) renamedFlush)
  = Some (setObjCName renamedFlush (mkSelector 0 ["flush"])) /\
  inferObjCName (Q := swift4Queries)
    (setObjCName renamedFlush (mkSelector 0 ["flush"]))
  = Done (setObjCName renamedFlush (mkSelector 0 ["flush"])) [].
Proof.
  refine (conj eq_refl _).
  exact (proj2 (proj2 (@name_inference_is_stable swift4Queries renamedFlush
                         (setObjCName renamedFlush (mkSelector 0 ["flush"]))
                         eq_refl))).
Defined.

Lemma check_then_mark_never_aborts_witness :
  value (isRepresentableInObjC (Q := swift4Queries) saveThrowing explicitly)
  = Some (true, Some saveConvention) /\
  aborts (markAsObjC (Q := swift4Queries) emptyState saveThrowing
            (Some explicitly) (Some saveConvention)) = false.
Proof.
  refine (conj eq_refl _).
  exact (@check_then_mark_never_aborts swift4Queries emptyState saveThrowing
           explicitly (Some saveConvention) eq_refl).
Defined.

Lemma finalizer_frame_witness :
  value (markAsObjC (Q := swift4Queries) emptyState drawAt None None)
  = Some (drawAt, emptyState) /\
  sameDeclaration drawAt drawAt /\
  isObjC drawAt = negb (isNone (@None ObjCReason)) /\
  (@None ObjCReason = None ->
   markAsObjC (Q := swift4Queries) emptyState drawAt None None
   = Done (drawAt, emptyState) [] /\
   getObjCAttr drawAt = getObjCAttr drawAt /\
   getForeignErrorConvention drawAt = getForeignErrorConvention drawAt /\
   getNonObjCAttr drawAt = getNonObjCAttr drawAt).
Proof.
  refine (conj eq_refl _).
  exact (@finalizer_frame swift4Queries emptyState emptyState drawAt drawAt
           None None eq_refl).
Defined.

Lemma finalizer_registers_once_witness :
  exists D' st',
    value (markAsObjC (Q := swift4Queries) emptyState saveThrowing
             (Some explicitly) (Some saveConvention)) = Some (D', st') /\
    exists D3,
      sameDeclaration saveThrowing D3 /\
      objcNameOf D3 = objcNameOf D' /\
      getForeignErrorConvention D3 = getForeignErrorConvention D' /\
      recordedObjCMethods st' = [("C", D3)] /\
      sourceFileObjCMethods st'
      = [(getObjCSelector (SemaQueries := swift4Queries) D3, D3)] /\
      HasCheckedBridgeFunctions st' = true.
Proof.
  eexists. eexists. split; [reflexivity |].
  exact (@finalizer_registers_once swift4Queries emptyState _ saveThrowing _
           explicitly (Some saveConvention) eq_refl).
Defined.

Lemma nonobjc_conflict_is_always_reported_witness :
  getNonObjCAttr nonobjcDraw = Some (mkNonObjCAttr false) /\
  shouldDiagnoseObjCReason silently swift4 = false /\
  exists D' st' ds,
    markAsObjC (Q := swift4Queries) emptyState nonobjcDraw (Some silently)
      None = Done (D', st') ds /\
    (exists rest,
        ds = nonobjc_not_allowed
               (enumerationOrder ObjCReason.ImplicitlyObjC) :: rest) /\
    getNonObjCAttr D' = Some (mkNonObjCAttr true) /\
    isObjC D' = true.
Proof.
  refine (conj eq_refl (conj eq_refl _)).
  eexists. eexists. eexists. split; [reflexivity |].
  exact (proj2 (@nonobjc_conflict_is_always_reported swift4Queries
                  emptyState _ nonobjcDraw _ silently None
                  (mkNonObjCAttr false) _ eq_refl eq_refl)).
Defined.

Lemma swift3_inference_mark_witness :
  exists D' st',
    value (markAsObjC (Q := swift4Queries) emptyState drawAt
             (Some subclassMember) None) = Some (D', st') /\
    attrIsSwift3Inferred (getObjCAttr drawAt) = false /\
    attrIsSwift3Inferred (getObjCAttr D') = true.
Proof.
  eexists. eexists. split; [reflexivity |]. split; [reflexivity |].
  exact (@swift3_inference_mark swift4Queries emptyState _ drawAt _
           subclassMember None eq_refl).
Defined.

Lemma finalizer_is_idempotent_on_the_declaration_witness :
  getNonObjCAttr renamedFlush = None /\
  exists D' st',
    value (markAsObjC (Q := swift4Queries) emptyState renamedFlush
             (Some overriding) None) = Some (D', st') /\
    exists st'' ds,
      markAsObjC (Q := swift4Queries) st' D' (Some overriding) None
      = Done (D', st'') ds.
Proof.
  refine (conj eq_refl _).
  eexists. eexists. split; [reflexivity |].
  exact (@finalizer_is_idempotent_on_the_declaration swift4Queries
           emptyState _ renamedFlush _ overriding None eq_refl eq_refl).
Defined.

Lemma finalizer_diagnostics_witness :
  exists D' st' ds,
    markAsObjC (Q := swift4Queries) emptyState classLoad (Some explicitly)
      None = Done (D', st') ds /\
    ds = [objc_class_method_not_permitted (mkSelector 0 ["load"])] /\
    exists nameDiags registered,
      ds = nonObjCConflict (Q := swift4Queries) classLoad explicitly ++
           nameDiags ++
           classMethodComplaint (Q := swift4Queries) classLoad registered ++
           swift3Warnings (Q := swift4Queries) classLoad explicitly /\
      (forall d, In d nameDiags -> isNameDiagnostic d = true) /\
      (getAsClassOrClassExtensionContext (getDeclContext classLoad) = None \/
       isaAbstractFunctionDecl classLoad || isaVarDecl classLoad = false ->
       nameDiags = []) /\
      (forall c,
          getAsClassOrClassExtensionContext (getDeclContext classLoad)
          = Some c ->
          isaAbstractFunctionDecl classLoad = true ->
          recordedObjCMethods st'
          = recordedObjCMethods emptyState ++ [(classDeclName c, registered)]).
Proof.
  eexists. eexists. eexists. split; [reflexivity |].
  split; [reflexivity |].
  exact (@finalizer_diagnostics swift4Queries emptyState _ classLoad _
           explicitly None _ eq_refl).
Defined.

Lemma inferred_reason_kinds_witness :
  markingReason
    (shouldMarkAsObjC (Q := swift4Queries)
       (MemberToBeMarked overridingFlush plainMember) false)
  = Some overriding /\
  isInferableKind (reasonKind overriding) = true /\
  (isSwift3Kind (reasonKind overriding) = true ->
   EnableSwift3ObjCInference (LangOpts swift4) = true) /\
  reasonWellFormed overridingFlush overriding = true.
Proof.
  refine (conj eq_refl _).
  exact (@inferred_reason_kinds swift4Queries
           (MemberToBeMarked overridingFlush plainMember) false overriding
           eq_refl).
Defined.

Lemma inference_check_mark_never_aborts_witness :
  isaAbstractFunctionDecl overridingFlush = true /\
  markingReason
    (shouldMarkAsObjC (Q := swift4Queries)
       (MemberToBeMarked overridingFlush plainMember) false)
  = Some overriding /\
  exists b ec ds,
    isRepresentableInObjC (Q := swift4Queries) overridingFlush overriding
    = Done (b, ec) ds /\
    (b = true ->
     aborts (markAsObjC (Q := swift4Queries) emptyState overridingFlush
               (Some overriding) ec) = false).
Proof.
  refine (conj eq_refl (conj eq_refl _)).
  exact (@inference_check_mark_never_aborts swift4Queries overridingFlush
           plainMember false overriding emptyState eq_refl eq_refl).
Defined.

Lemma nonobjc_blocks_implicit_inference_witness :
  hasNonObjC nonobjcDraw = true /\
  markingDiags
    (shouldMarkAsObjC (Q := swift4Queries)
       (MemberToBeMarked nonobjcDraw plainMember) false) = [] /\
  (markingReason
     (shouldMarkAsObjC (Q := swift4Queries)
        (MemberToBeMarked nonobjcDraw plainMember) false) = None <->
   hasExplicitObjCReason nonobjcDraw plainMember = false) /\
  (forall r,
      markingReason
        (shouldMarkAsObjC (Q := swift4Queries)
           (MemberToBeMarked nonobjcDraw plainMember) false) = Some r ->
      isExplicitKind (reasonKind r) = true).
Proof.
  refine (conj eq_refl _).
  exact (@nonobjc_blocks_implicit_inference swift4Queries nonobjcDraw
           plainMember false eq_refl).
Defined.

Lemma swift4_inference_leaves_no_swift3_mark_witness :
  EnableSwift3ObjCInference (LangOpts swift4) = false /\
  markingReason
    (shouldMarkAsObjC (Q := swift4Queries)
       (MemberToBeMarked dynamicDraw plainMember) false)
  = Some implicitly /\
  markingDiags
    (shouldMarkAsObjC (Q := swift4Queries)
       (MemberToBeMarked dynamicDraw plainMember) false)
  = [dynamic_requires_objc "draw"] /\
  exists D' st' ds,
    markAsObjC (Q := swift4Queries) emptyState dynamicDraw (Some implicitly)
      None = Done (D', st') ds /\
    attrIsSwift3Inferred (getObjCAttr D')
    = attrIsSwift3Inferred (getObjCAttr dynamicDraw) /\
    (forall d, In d ds -> isSwift3Warning d = false) /\
    ~ In objc_inference_swift3_dynamic
         (markingDiags
            (shouldMarkAsObjC (Q := swift4Queries)
               (MemberToBeMarked dynamicDraw plainMember) false)).
Proof.
  refine (conj eq_refl (conj eq_refl (conj eq_refl _))).
  eexists. eexists. eexists. split; [reflexivity |].
  exact (@swift4_inference_leaves_no_swift3_mark swift4Queries dynamicDraw _
           plainMember false implicitly emptyState _ None _
           eq_refl eq_refl eq_refl).
Defined.

Lemma verdict_of_variable_witness :
  reasonWellFormed (varAsValueDecl weakDelegate) explicitly = true /\
  exists ds,
    isRepresentableInObjC_Var (Q := swift4Queries) weakDelegate explicitly
    = SDone true ds /\
    (shouldDiagnoseObjCReason explicitly swift4 = false -> ds = []) /\
    (forall k, In (objc_invalid_on_var k) ds <->
       (varIsInvalid weakDelegate = false /\
        variableTypeAllowsObjC (Q := swift4Queries) weakDelegate = false /\
        notInForeignClass (varAsValueDecl weakDelegate) = true /\
        shouldDiagnoseObjCReason explicitly swift4 = true /\
        k = enumerationOrder (reasonKind explicitly))).
Proof.
  refine (conj eq_refl _).
  exact (@verdict_of_variable swift4Queries weakDelegate explicitly eq_refl).
Defined.

Lemma subscript_check_aborts_on_unclassified_reason_witness :
  reasonWellFormed (subscriptAsValueDecl blockSubscript) silently = true /\
  reachesSubscriptKind (Q := swift4Queries) blockSubscript = true /\
  saborts (isRepresentableInObjC_Subscript (Q := swift4Queries)
             blockSubscript silently) = true.
Proof.
  refine (conj eq_refl (conj eq_refl _)).
  exact (proj1 (@subscript_check_aborts_on_unclassified_reason swift4Queries
                  blockSubscript silently eq_refl)).
Defined.

Lemma canBeRepresentedInObjC_verdicts_witness :
  EnableObjCInterop (LangOpts swift4) = true /\
  canBeRepresentedInObjC (Q := swift4Queries) (VariableToCheck weakDelegate)
  = SDone true [] /\
  saborts (canBeRepresentedInObjC (Q := swift4Queries)
             (SubscriptToCheck blockSubscript)) = true.
Proof.
  refine (conj eq_refl (conj _ _)).
  - exact (proj2 (@canBeRepresentedInObjC_verdicts swift4Queries
                    (VariableToCheck weakDelegate)) eq_refl).
  - exact (proj1 (proj2 (@canBeRepresentedInObjC_verdicts swift4Queries
                           (SubscriptToCheck blockSubscript)) eq_refl)).
Defined.

Lemma objc_type_caches_are_stable_witness :
  ObjCTypes.getNSErrorType noCaches foundationOnly
  = (Some (ClassType NSErrorClass),
     ObjCTypes.mkTypeCaches None (Some (ClassType NSErrorClass)) None) /\
  ObjCTypes.getNSObjectType noCaches foundationOnly = (None, noCaches) /\
  forall loaded',
    ObjCTypes.getNSErrorType
      (ObjCTypes.mkTypeCaches None (Some (ClassType NSErrorClass)) None)
      loaded'
    = (Some (ClassType NSErrorClass),
       ObjCTypes.mkTypeCaches None (Some (ClassType NSErrorClass)) None).
Proof.
  refine (conj eq_refl (conj eq_refl _)).
  refine (proj1 (proj2 (@objc_type_caches_are_stable noCaches
                          ObjCTypes.getNSErrorType foundationOnly
                          (or_intror (or_introl eq_refl)))) _).
  discriminate.
Defined.

Lemma diagnosed_rejection_is_explained_witness :
  shouldDiagnoseObjCReason explicitly swift4 = true /\
  exists c ds,
    isRepresentableInObjC (Q := swift4Queries) optionalTitleThrowing
      explicitly = Done (false, c) ds /\
    (ds <> [] \/
     exists storage resultType,
       getDeclKind optionalTitleThrowing
       = KAccessor AK_MaterializeForSet storage resultType).
Proof.
  refine (conj eq_refl _).
  eexists. eexists. split; [reflexivity |].
  exact (@diagnosed_rejection_is_explained swift4Queries
           optionalTitleThrowing explicitly _ _ eq_refl eq_refl).
Defined.
